(** * Item statistics view and /api/types proxy: a shallow embedding

    The development follows the statistics page component (the price-history
    fetcher, the period filter, the display down-sampler, the zoom handlers,
    the chart aggregates, the mock-data generator, the CSV export), the two
    handlers of the [/api/types] proxy route and the data loading of the
    dashboard page.

    - JavaScript [number]s are modelled by [jsnum]: a rational, the two
      infinities, or NaN.  Finite doubles are idealised as exact rationals;
      rounding error of binary64 arithmetic is out of the model.
    - Array lengths and array indices are [nat], the display limit is an
      [N]; the zoom indices, on which the handlers subtract before clamping,
      are [Z].
    - The built-ins of the host (date parsing and formatting, the calendar,
      [Math.sin], [Math.random], [JSON.parse]) are fields of an [Engine]
      record: every theorem holds for every engine. *)

From Stdlib Require Import QArith Qround Qabs Lqa.
From stdpp Require Import base numbers list strings pretty gmap.

Local Open Scope Z_scope.
Local Open Scope nat_scope.

(** ** JavaScript numbers *)

Module JS.

Inductive jsnum : Type :=
| Fin (q : Q)
| PosInf
| NegInf
| NaN.

Definition zero : jsnum := Fin 0.
Definition ofZ (z : Z) : jsnum := Fin (inject_Z z).
Definition ofNat (n : nat) : jsnum := ofZ (Z.of_nat n).

(** [isNaN(x)] on a number. *)
Definition isNaN (x : jsnum) : bool :=
  match x with NaN => true | _ => false end.

(** ToBoolean on a number: 0 and NaN are falsy. *)
Definition truthy (x : jsnum) : bool :=
  match x with
  | Fin q => negb (Qeq_bool q 0)
  | PosInf | NegInf => true
  | NaN => false
  end.

(** [a || b] on numbers. *)
Definition or (a b : jsnum) : jsnum := if truthy a then a else b.

(** [a < b]; any comparison with NaN is false. *)
Definition lt (a b : jsnum) : bool :=
  match a, b with
  | NaN, _ | _, NaN => false
  | Fin x, Fin y => negb (Qle_bool y x)
  | NegInf, NegInf => false
  | NegInf, _ => true
  | _, NegInf => false
  | PosInf, _ => false
  | Fin _, PosInf => true
  end.

(** [a >= b]; any comparison with NaN is false. *)
Definition ge (a b : jsnum) : bool :=
  match a, b with
  | NaN, _ | _, NaN => false
  | _, _ => negb (lt a b)
  end.

Definition neg (a : jsnum) : jsnum :=
  match a with
  | Fin x => Fin (- x)
  | PosInf => NegInf
  | NegInf => PosInf
  | NaN => NaN
  end.

Definition add (a b : jsnum) : jsnum :=
  match a, b with
  | NaN, _ | _, NaN => NaN
  | Fin x, Fin y => Fin (x + y)
  | PosInf, NegInf | NegInf, PosInf => NaN
  | PosInf, _ | _, PosInf => PosInf
  | NegInf, _ | _, NegInf => NegInf
  end.

Definition sub (a b : jsnum) : jsnum := add a (neg b).

(** Sign of a number that is neither NaN nor zero: [true] for positive. *)
Definition positive (a : jsnum) : bool := lt zero a.

Definition mul (a b : jsnum) : jsnum :=
  match a, b with
  | NaN, _ | _, NaN => NaN
  | Fin x, Fin y => Fin (x * y)
  | _, _ =>
      (* at least one factor is infinite *)
      if negb (truthy a) || negb (truthy b) then NaN
      else if Bool.eqb (positive a) (positive b) then PosInf else NegInf
  end.

(** Division.  The model has a single zero, taken as [+0]: a non-zero
    number over zero is the infinity of the sign of the numerator. *)
Definition div (a b : jsnum) : jsnum :=
  match a, b with
  | NaN, _ | _, NaN => NaN
  | Fin x, Fin y =>
      if Qeq_bool y 0
      then (if Qeq_bool x 0 then NaN else if positive a then PosInf else NegInf)
      else Fin (x / y)
  | Fin _, _ => zero
  | _, Fin _ =>
      if Bool.eqb (positive a) (negb (lt b zero)) then PosInf else NegInf
  | _, _ => NaN
  end.

(** [Math.min(a, b)] and [Math.max(a, b)]: NaN is contagious. *)
Definition min2 (a b : jsnum) : jsnum :=
  match a, b with
  | NaN, _ | _, NaN => NaN
  | _, _ => if lt b a then b else a
  end.

Definition max2 (a b : jsnum) : jsnum :=
  match a, b with
  | NaN, _ | _, NaN => NaN
  | _, _ => if lt a b then b else a
  end.

(** [Math.min(...xs)] starts from [+Infinity], [Math.max(...xs)] from
    [-Infinity]; these are the values on the empty list. *)
Definition Math_min (xs : list jsnum) : jsnum := foldl min2 PosInf xs.
Definition Math_max (xs : list jsnum) : jsnum := foldl max2 NegInf xs.

(** [Math.floor] and [Math.ceil]. *)
Definition Math_floor (a : jsnum) : jsnum :=
  match a with Fin x => ofZ (Qfloor x) | _ => a end.
Definition Math_ceil (a : jsnum) : jsnum :=
  match a with Fin x => ofZ (Qceiling x) | _ => a end.

(** [Number(x.toFixed(2))]: the nearest multiple of 1/100, ties to the larger
    magnitude; the sign is handled apart, as [toFixed] does.  NaN and the
    infinities print as ["NaN"] and ["Infinity"], which [Number] reads back. *)
Definition round2 (a : jsnum) : jsnum :=
  match a with
  | Fin x =>
      let m := Qfloor (Qabs x * 100 + (1 # 2)) in
      Fin ((if Qle_bool 0 x then inject_Z m else - inject_Z m) / 100)
  | _ => a
  end.

End JS.

Export JS(jsnum, Fin, PosInf, NegInf, NaN).

(** ** The display down-sampler

    [optimizeDataForDisplay] does not inspect the points, so it is stated
    for any element type. *)

Section Sampling.
Context {A : Type}.

(** [Math.ceil(data.length / dataPointLimit)].  The division by a zero
    limit is [Infinity] ([None] here).  For array lengths the binary64
    quotient is far enough from an integer that the rounded [Math.ceil]
    is the exact ceiling. *)
Definition samplingRate (len : nat) (limit : N) : option nat :=
  match limit with
  | N0 => None
  | Npos p => Some (Z.to_nat (Qceiling (Z.of_nat len # p)))
  end.

(** The loop
    [for (let i = rate; i < data.length - rate; i += rate) out.push(data[i])].
    [fuel] bounds the number of iterations; [data.length] is always enough
    ([sampleMiddle_fuel]).  The subtraction is the truncated one of [nat]:
    when [rate] exceeds the length the test fails either way, as [i]
    starts at [rate]. *)
Fixpoint sampleMiddle (fuel : nat) (data : list A) (rate i : nat) : list A :=
  match fuel with
  | O => []
  | S fuel' =>
      if decide (i < length data - rate)
      then from_option (λ x, [x]) [] (data !! i)
             ++ sampleMiddle fuel' data rate (i + rate)
      else []
  end.

Definition optimizeDataForDisplay (dataPointLimit : N) (data : list A)
  : list A :=
  match data with
  | [] => []
  | first :: _ =>
      if decide (N.of_nat (length data) ≤ dataPointLimit)%N then data
      else
        let middle :=
          match samplingRate (length data) dataPointLimit with
          | Some rate => sampleMiddle (length data) data rate rate
          | None => []     (* Infinity < length - Infinity is false *)
          end in
        [first] ++ middle ++ from_option (λ x, [x]) [] (last data)
  end.

End Sampling.

(** ** Exceptions

    A computation either completes normally or throws; [try_catch] is the
    [try { ... } catch (e) { ... }] statement.  The monad notations are
    stdpp's. *)

Inductive Completion (A : Type) : Type :=
| Normal (a : A)
| Throw (message : string).
Arguments Normal {A} a.
Arguments Throw {A} message.

#[export] Instance completion_ret : MRet Completion := λ A a, Normal a.
#[export] Instance completion_bind : MBind Completion := λ A B f c,
  match c with
  | Normal a => f a
  | Throw e => Throw e
  end.

Definition try_catch {A} (body : Completion A) (handler : string → Completion A)
  : Completion A :=
  match body with
  | Normal a => Normal a
  | Throw e => handler e
  end.

(** [xs.map(f)] and [xs.filter(f)] for a callback that may throw: the first
    exception leaves the traversal. *)
Fixpoint Array_map {A B} (f : A → Completion B) (xs : list A)
  : Completion (list B) :=
  match xs with
  | [] => mret []
  | x :: xs' => y ← f x; ys ← Array_map f xs'; mret (y :: ys)
  end.

Fixpoint Array_filter {A} (f : A → Completion bool) (xs : list A)
  : Completion (list A) :=
  match xs with
  | [] => mret []
  | x :: xs' =>
      keep ← f x; ys ← Array_filter f xs';
      mret (if keep : bool then x :: ys else ys)
  end.

(** [xs.slice(start, end)]: a negative index counts from the end, both
    ends are clamped to the array. *)
Definition Array_slice {A} (xs : list A) (start end_ : Z) : list A :=
  let len := Z.of_nat (length xs) in
  let clamp (k : Z) := if (k <? 0)%Z then Z.max (len + k) 0 else Z.min k len in
  let from := clamp start in
  let to := clamp end_ in
  take (Z.to_nat (Z.max (to - from) 0)) (drop (Z.to_nat from) xs).

(** [xs.sort(cmp)]: the sort is stable.  Insertion from the right: an
    element passes the elements it compares strictly above ([cmp x y > 0]);
    a NaN result counts as [+0], so equal and incomparable elements keep
    their order. *)
Fixpoint sort_insert {A} (cmp : A → A → jsnum) (x : A) (sorted : list A)
  : list A :=
  match sorted with
  | [] => [x]
  | y :: rest =>
      if JS.lt JS.zero (cmp x y)
      then y :: sort_insert cmp x rest
      else x :: y :: rest
  end.

Definition Array_sort {A} (cmp : A → A → jsnum) (xs : list A) : list A :=
  foldr (sort_insert cmp) [] xs.

(** ** The host

    What the component takes from the JavaScript engine.  A [Date] holds a
    time value in milliseconds, or is an "Invalid Date" ([None]); the
    constructor never throws. *)

Record Engine : Type := {
  (** [new Date(s)] on a string: the time value, [None] when [s] does not
      parse *)
  Date_parse : string → option Z;
  (** [toLocaleDateString()], [toLocaleTimeString([], {hour, minute})] and the
      date part of [toISOString()] of a valid date *)
  localeDate : Z → string;
  localeTime : Z → string;
  isoDate : Z → string;
  (** local calendar: [getDate]/[setDate], [getMonth]/[setMonth],
      [getFullYear]/[setFullYear] of a valid date *)
  getDate : Z → Z;
  setDate : Z → Z → Z;
  getMonth : Z → Z;
  setMonth : Z → Z → Z;
  getFullYear : Z → Z;
  setFullYear : Z → Z → Z;
  (** [Math.sin], [Math.cos] *)
  Math_sin : Q → Q;
  Math_cos : Q → Q;
  (** the value of the [n]-th call of [Math.random()], in [0, 1) *)
  Math_random : nat → Q
}.

Definition JSDate : Type := option Z.

Definition getTime (d : JSDate) : jsnum :=
  match d with Some t => JS.ofZ t | None => NaN end.

Definition toLocaleDateString (E : Engine) (d : JSDate) : string :=
  match d with Some t => localeDate E t | None => "Invalid Date" end.

Definition toLocaleTimeString (E : Engine) (d : JSDate) : string :=
  match d with Some t => localeTime E t | None => "Invalid Date" end.

(** [new Date(s)]: completes normally for every string. *)
Definition newDate (E : Engine) (s : string) : Completion JSDate :=
  Normal (Date_parse E s).

(** ** Data model *)

Record PriceData : Type := mkPriceData {
  purchase_price : jsnum;
  Date : string;
  formattedDate : option string;
  formattedTime : option string;
  formattedDateTime : option string;
  timestamp : option jsnum
}.

Record Change : Type := mkChange { gold : jsnum; percent : jsnum }.

Record PriceStats : Type := mkPriceStats {
  price : jsnum;
  per_day : Change;
  per_week : Change;
  per_month : Change;
  per_year : Change
}.

Record ApiResponse : Type := mkApiResponse {
  data : list PriceData;
  stats : PriceStats
}.

Inductive TimePeriod : Type := P1W | P1M | P3M | P6M | P1Y | ALL.

Record ZoomDomain : Type := mkZoom { x : Z * Z; y : Z * Z }.

Inductive ToastVariant : Type := Default | Warning | Destructive.

Record Toast : Type := mkToast {
  title : string;
  description : string;
  variant : ToastVariant
}.

(** The [useState] cells of the component that the modelled functions read
    or write, and the toasts issued so far. *)
Record ViewState : Type := mkView {
  isLoading : bool;
  isRefreshing : bool;
  error : option string;
  priceData : list PriceData;
  filteredData : list PriceData;
  displayData : list PriceData;
  viewStats : option PriceStats;
  selectedPeriod : TimePeriod;
  zoomDomain : option ZoomDomain;
  dataPointLimit : N;
  retryCount : nat;
  showNoDataMessage : bool;
  toasts : list Toast
}.

Definition initialView : ViewState := {|
  isLoading := true; isRefreshing := false; error := None;
  priceData := []; filteredData := []; displayData := [];
  viewStats := None; selectedPeriod := P1M; zoomDomain := None;
  dataPointLimit := 1000000%N; retryCount := 0; showNoDataMessage := false;
  toasts := [] |}.

Definition setIsLoading (b : bool) (s : ViewState) : ViewState :=
  {| isLoading := b; isRefreshing := isRefreshing s; error := error s;
     priceData := priceData s; filteredData := filteredData s;
     displayData := displayData s; viewStats := viewStats s;
     selectedPeriod := selectedPeriod s; zoomDomain := zoomDomain s;
     dataPointLimit := dataPointLimit s; retryCount := retryCount s;
     showNoDataMessage := showNoDataMessage s; toasts := toasts s |}.

Definition setIsRefreshing (b : bool) (s : ViewState) : ViewState :=
  {| isLoading := isLoading s; isRefreshing := b; error := error s;
     priceData := priceData s; filteredData := filteredData s;
     displayData := displayData s; viewStats := viewStats s;
     selectedPeriod := selectedPeriod s; zoomDomain := zoomDomain s;
     dataPointLimit := dataPointLimit s; retryCount := retryCount s;
     showNoDataMessage := showNoDataMessage s; toasts := toasts s |}.

Definition setError (e : option string) (s : ViewState) : ViewState :=
  {| isLoading := isLoading s; isRefreshing := isRefreshing s; error := e;
     priceData := priceData s; filteredData := filteredData s;
     displayData := displayData s; viewStats := viewStats s;
     selectedPeriod := selectedPeriod s; zoomDomain := zoomDomain s;
     dataPointLimit := dataPointLimit s; retryCount := retryCount s;
     showNoDataMessage := showNoDataMessage s; toasts := toasts s |}.

Definition setPriceData (d : list PriceData) (s : ViewState) : ViewState :=
  {| isLoading := isLoading s; isRefreshing := isRefreshing s; error := error s;
     priceData := d; filteredData := filteredData s;
     displayData := displayData s; viewStats := viewStats s;
     selectedPeriod := selectedPeriod s; zoomDomain := zoomDomain s;
     dataPointLimit := dataPointLimit s; retryCount := retryCount s;
     showNoDataMessage := showNoDataMessage s; toasts := toasts s |}.

Definition setFilteredData (d : list PriceData) (s : ViewState) : ViewState :=
  {| isLoading := isLoading s; isRefreshing := isRefreshing s; error := error s;
     priceData := priceData s; filteredData := d;
     displayData := displayData s; viewStats := viewStats s;
     selectedPeriod := selectedPeriod s; zoomDomain := zoomDomain s;
     dataPointLimit := dataPointLimit s; retryCount := retryCount s;
     showNoDataMessage := showNoDataMessage s; toasts := toasts s |}.

Definition setDisplayData (d : list PriceData) (s : ViewState) : ViewState :=
  {| isLoading := isLoading s; isRefreshing := isRefreshing s; error := error s;
     priceData := priceData s; filteredData := filteredData s;
     displayData := d; viewStats := viewStats s;
     selectedPeriod := selectedPeriod s; zoomDomain := zoomDomain s;
     dataPointLimit := dataPointLimit s; retryCount := retryCount s;
     showNoDataMessage := showNoDataMessage s; toasts := toasts s |}.

Definition setStats (st : option PriceStats) (s : ViewState) : ViewState :=
  {| isLoading := isLoading s; isRefreshing := isRefreshing s; error := error s;
     priceData := priceData s; filteredData := filteredData s;
     displayData := displayData s; viewStats := st;
     selectedPeriod := selectedPeriod s; zoomDomain := zoomDomain s;
     dataPointLimit := dataPointLimit s; retryCount := retryCount s;
     showNoDataMessage := showNoDataMessage s; toasts := toasts s |}.

Definition setSelectedPeriod (p : TimePeriod) (s : ViewState) : ViewState :=
  {| isLoading := isLoading s; isRefreshing := isRefreshing s; error := error s;
     priceData := priceData s; filteredData := filteredData s;
     displayData := displayData s; viewStats := viewStats s;
     selectedPeriod := p; zoomDomain := zoomDomain s;
     dataPointLimit := dataPointLimit s; retryCount := retryCount s;
     showNoDataMessage := showNoDataMessage s; toasts := toasts s |}.

Definition setZoomDomain (z : option ZoomDomain) (s : ViewState) : ViewState :=
  {| isLoading := isLoading s; isRefreshing := isRefreshing s; error := error s;
     priceData := priceData s; filteredData := filteredData s;
     displayData := displayData s; viewStats := viewStats s;
     selectedPeriod := selectedPeriod s; zoomDomain := z;
     dataPointLimit := dataPointLimit s; retryCount := retryCount s;
     showNoDataMessage := showNoDataMessage s; toasts := toasts s |}.

Definition setRetryCount (n : nat) (s : ViewState) : ViewState :=
  {| isLoading := isLoading s; isRefreshing := isRefreshing s; error := error s;
     priceData := priceData s; filteredData := filteredData s;
     displayData := displayData s; viewStats := viewStats s;
     selectedPeriod := selectedPeriod s; zoomDomain := zoomDomain s;
     dataPointLimit := dataPointLimit s; retryCount := n;
     showNoDataMessage := showNoDataMessage s; toasts := toasts s |}.

Definition setShowNoDataMessage (b : bool) (s : ViewState) : ViewState :=
  {| isLoading := isLoading s; isRefreshing := isRefreshing s; error := error s;
     priceData := priceData s; filteredData := filteredData s;
     displayData := displayData s; viewStats := viewStats s;
     selectedPeriod := selectedPeriod s; zoomDomain := zoomDomain s;
     dataPointLimit := dataPointLimit s; retryCount := retryCount s;
     showNoDataMessage := b; toasts := toasts s |}.

Definition toast (t : Toast) (s : ViewState) : ViewState :=
  {| isLoading := isLoading s; isRefreshing := isRefreshing s; error := error s;
     priceData := priceData s; filteredData := filteredData s;
     displayData := displayData s; viewStats := viewStats s;
     selectedPeriod := selectedPeriod s; zoomDomain := zoomDomain s;
     dataPointLimit := dataPointLimit s; retryCount := retryCount s;
     showNoDataMessage := showNoDataMessage s; toasts := toasts s ++ [t] |}.

(** ** Handlers: view state and exceptions

    A handler of the component transforms the view state and may throw.
    State written before an exception stays written. *)

Definition Act (A : Type) : Type := ViewState → ViewState * Completion A.

#[export] Instance act_ret : MRet Act := λ A a s, (s, Normal a).
#[export] Instance act_bind : MBind Act := λ A B f m s,
  match m s with
  | (s', Normal a) => f a s'
  | (s', Throw e) => (s', Throw e)
  end.

Definition lift {A} (c : Completion A) : Act A := λ s, (s, c).
Definition set_ (f : ViewState → ViewState) : Act unit := λ s, (f s, Normal ()).
Definition read {A} (f : ViewState → A) : Act A := λ s, (s, Normal (f s)).
Definition throw {A} (message : string) : Act A := λ s, (s, Throw message).
Definition when_ (b : bool) (a : Act unit) : Act unit := if b then a else mret ().

(** [try { body } catch (err) { handler }] and
    [try { body } catch (err) { handler } finally { cleanup }]. *)
Definition try_ {A} (body : Act A) (handler : string → Act A) : Act A := λ s,
  match body s with
  | (s', Normal a) => (s', Normal a)
  | (s', Throw e) => handler e s'
  end.

Definition try_finally {A} (body : Act A) (handler : string → Act A)
  (cleanup : Act unit) : Act A := λ s,
  match try_ body handler s with
  | (s', c) =>
      match cleanup s' with
      | (s'', Normal _) => (s'', c)
      | (s'', Throw e) => (s'', Throw e)
      end
  end.

(** ** The display pipeline *)

Section Pipeline.
Context (E : Engine).

(** The [switch] of [filterDataByPeriod].  [nowT] and [baseT] are the time
    values of the two [new Date()] of the function, [now] and [cutoffDate];
    the result is the time value of [cutoffDate] after the setter, [None]
    for the window that returns before filtering. *)
Definition cutoffDate (nowT baseT : Z) (period : TimePeriod) : option Z :=
  match period with
  | P1W => Some (setDate E baseT (getDate E nowT - 7))
  | P1M => Some (setMonth E baseT (getMonth E nowT - 1))
  | P3M => Some (setMonth E baseT (getMonth E nowT - 3))
  | P6M => Some (setMonth E baseT (getMonth E nowT - 6))
  | P1Y => Some (setFullYear E baseT (getFullYear E nowT - 1))
  | ALL => None
  end.

(** The callback of [data.filter]:
    [(item.timestamp || new Date(item.Date).getTime()) >= cutoffDate.getTime()]
    in its own [try], [false] on an exception. *)
Definition inPeriod (cutoff : Z) (item : PriceData) : Completion bool :=
  try_catch
    (stamp ← match timestamp item with
             | Some t => if JS.truthy t then mret t
                         else d ← newDate E (Date item); mret (getTime d)
             | None => d ← newDate E (Date item); mret (getTime d)
             end;
     mret (JS.ge stamp (getTime (Some cutoff))))
    (λ _, mret false).

Definition filterDataByPeriod (nowT baseT : Z)
  (data : list PriceData) (period : TimePeriod) : Act unit :=
  match data with
  | [] => set_ (setFilteredData []);; set_ (setDisplayData [])
  | _ :: _ =>
      match cutoffDate nowT baseT period with
      | None =>
          (* case "ALL": no filtering needed *)
          set_ (setFilteredData data);;
          set_ (setDisplayData data)
          (* setDisplayData(optimizeDataForDisplay(data)) is commented out *)
      | Some cutoff =>
          limit ← read dataPointLimit;
          try_
            (filtered ← lift (Array_filter (inPeriod cutoff) data);
             let finalData :=
               if decide (0 < length filtered) then filtered else data in
             set_ (setFilteredData finalData);;
             set_ (setDisplayData (optimizeDataForDisplay limit finalData)))
            (λ _,
             set_ (setFilteredData data);;
             set_ (setDisplayData (optimizeDataForDisplay limit data)))
      end
  end.

End Pipeline.

(** ** Zoom *)

(** [Math.floor(n * q)] and [Math.floor(n / 2)] on an integer [n]. *)
Definition floorMul (n : Z) (q : Q) : Z := Qfloor (inject_Z n * q).
Definition floorHalf (n : Z) : Z := Qfloor (inject_Z n / 2).

Definition handleZoomIn (s : ViewState) : ViewState :=
  match filteredData s with
  | [] => s
  | _ :: _ =>
      let dataLength := Z.of_nat (length (filteredData s)) in
      match zoomDomain s with
      | None =>
          let startIndex := floorMul dataLength (1 # 4) in
          let endIndex := floorMul dataLength (3 # 4) in
          setZoomDomain
            (Some {| x := (startIndex, endIndex); y := (0, 0)%Z |}) s
      | Some z =>
          let currentRange := (snd (x z) - fst (x z))%Z in
          let newRange := Z.max 10 (floorMul currentRange (3 # 4)) in
          let midPoint := floorHalf (fst (x z) + snd (x z)) in
          let halfNewRange := floorHalf newRange in
          setZoomDomain
            (Some {| x := (Z.max 0 (midPoint - halfNewRange),
                           Z.min (dataLength - 1) (midPoint + halfNewRange));
                     y := (0, 0)%Z |}) s
      end
  end.

Definition handleZoomOut (s : ViewState) : ViewState :=
  match filteredData s, zoomDomain s with
  | [], _ | _, None => s
  | _ :: _, Some z =>
      let dataLength := Z.of_nat (length (filteredData s)) in
      let currentRange := (snd (x z) - fst (x z))%Z in
      let newRange := Z.min dataLength (floorMul currentRange 2) in
      let midPoint := floorHalf (fst (x z) + snd (x z)) in
      let halfNewRange := floorHalf newRange in
      let newDomain :=
        {| x := (Z.max 0 (midPoint - halfNewRange),
                 Z.min (dataLength - 1) (midPoint + halfNewRange));
           y := (0, 0)%Z |} in
      if decide (fst (x newDomain) ≤ 5 ∧ dataLength - 5 ≤ snd (x newDomain))%Z
      then setZoomDomain None s
      else setZoomDomain (Some newDomain) s
  end.

Definition resetZoom (s : ViewState) : ViewState := setZoomDomain None s.

Definition handlePeriodChange (period : TimePeriod) (s : ViewState)
  : ViewState :=
  setZoomDomain None (setSelectedPeriod period s).

(** ** What the chart receives *)

(** The [chartData] memo: the points handed to the renderer. *)
Definition chartData (s : ViewState) : list PriceData :=
  match zoomDomain s, filteredData s with
  | None, _ | _, [] => displayData s
  | Some z, _ :: _ =>
      let start := fst (x z) in
      let end_ := snd (x z) in
      if decide (end_ - start < Z.of_N (dataPointLimit s))%Z
      then Array_slice (filteredData s) start (end_ + 1)
      else optimizeDataForDisplay (dataPointLimit s)
             (Array_slice (filteredData s) start (end_ + 1))
  end.

(** The [minPrice]/[maxPrice]/[avgPrice] memo. *)
Record Aggregates : Type := mkAggregates {
  minPrice : jsnum;
  maxPrice : jsnum;
  avgPrice : jsnum
}.

Definition aggregates (s : ViewState) : Aggregates :=
  match filteredData s with
  | [] => {| minPrice := JS.zero; maxPrice := JS.zero; avgPrice := JS.zero |}
  | _ :: _ =>
      let prices := purchase_price <$> filteredData s in
      let min := JS.mul (JS.Math_min prices) (Fin (49 # 50)) in (* 2% buffer *)
      let max := JS.mul (JS.Math_max prices) (Fin (51 # 50)) in (* 2% buffer *)
      let avg :=
        JS.div
          (foldl (λ sum item, JS.add sum (purchase_price item)) JS.zero
             (filteredData s))
          (JS.ofNat (length (filteredData s))) in
      {| minPrice := min; maxPrice := max; avgPrice := avg |}
  end.

(** The volatility card:
    [avgPrice ? (((maxPrice - minPrice) / avgPrice) * 100).toFixed(2) : "0.00"].
    [volatility] is the number that is formatted, [None] when the literal
    ["0.00"] is shown; [volatilityShown] is the number the two-decimal text
    denotes. *)
Definition volatility (a : Aggregates) : option jsnum :=
  if JS.truthy (avgPrice a)
  then Some (JS.mul (JS.div (JS.sub (maxPrice a) (minPrice a)) (avgPrice a))
               (Fin 100))
  else None.

Definition volatilityShown (a : Aggregates) : jsnum :=
  match volatility a with
  | Some v => JS.round2 v
  | None => JS.zero
  end.

(** ** The synthetic series *)

Section Mock.
Context (E : Engine).

(** [name.split("").reduce((sum, char) => sum + char.charCodeAt(0), 0)]:
    the sum of the code units of the name (its bytes, for an ASCII name). *)
Definition nameSum (name : string) : nat :=
  foldl (λ sum char, sum + Ascii.nat_of_ascii char) 0 (String.list_ascii_of_string name).

Definition basePrice (name : string) : nat := 200 + nameSum name `mod` 300.

(** [String(Math.floor(Math.random() * n)).padStart(2, "0")] for the
    [call]-th call of [Math.random]. *)
Definition padStart2 (s : string) : string :=
  if decide (String.length s < 2) then "0" +:+ s else s.

Definition randomField (call : nat) (n : Z) : string :=
  padStart2 (pretty (Qfloor (Math_random E call * inject_Z n))).

(** The price of the point [i] days back. *)
Definition mockPrice (name : string) (i : nat) : jsnum :=
  let iq := inject_Z (Z.of_nat i) in
  let dayFactor := (Math_sin E (iq / 30) * 20)%Q in
  let randomFactor := (Math_sin E iq * 10 + Math_cos E (iq * 2) * 5)%Q in
  let trendFactor := (iq / 365 * 50)%Q in
  JS.round2
    (Fin (inject_Z (Z.of_nat (basePrice name))
          + dayFactor + randomFactor + trendFactor)).

(** The object pushed for the point [i] days back; [calls] calls of
    [Math.random] came before it, and it makes seven, in the order of the
    properties. *)
Definition mockPoint (name : string) (todayT : Z) (calls i : nat)
  : PriceData :=
  let date := setDate E todayT (getDate E todayT - Z.of_nat i) in
  {| purchase_price := mockPrice name i;
     Date := isoDate E date +:+ " " +:+ randomField calls 24 +:+ ":"
             +:+ randomField (calls + 1) 60 +:+ ":"
             +:+ randomField (calls + 2) 60;
     formattedDate := Some (localeDate E date);
     formattedTime :=
       Some (randomField (calls + 3) 24 +:+ ":" +:+ randomField (calls + 4) 60);
     formattedDateTime :=
       Some (localeDate E date +:+ " " +:+ randomField (calls + 5) 24 +:+ ":"
             +:+ randomField (calls + 6) 60);
     timestamp := Some (JS.ofZ date) |}.

(** [for (let i = 365; i >= 0; i--) data.push(...)], from [i] down. *)
Fixpoint mockLoop (name : string) (todayT : Z) (calls i : nat)
  : list PriceData :=
  mockPoint name todayT calls i ::
  match i with
  | O => []
  | S i' => mockLoop name todayT (calls + 7) i'
  end.

(** [data[k]?.purchase_price || currentPrice] *)
Definition priceBack (data : list PriceData) (k : Z) (currentPrice : jsnum)
  : jsnum :=
  if decide (k < 0)%Z then currentPrice
  else match data !! Z.to_nat k with
       | Some item => JS.or (purchase_price item) currentPrice
       | None => currentPrice
       end.

(** [{ gold: Number(change.toFixed(2)),
       percent: Number(((change / before) * 100).toFixed(2)) }] *)
Definition changeSince (currentPrice before : jsnum) : Change :=
  let change := JS.sub currentPrice before in
  {| gold := JS.round2 change;
     percent := JS.round2 (JS.mul (JS.div change before) (Fin 100)) |}.

(** The statistics block of [generateMockData], on the generated series.
    Reading [purchase_price] of a missing last element throws. *)
Definition mockStats (data : list PriceData) : Completion PriceStats :=
  let len := Z.of_nat (length data) in
  match last data with
  | None => Throw "Cannot read properties of undefined"
  | Some lastItem =>
      let currentPrice := purchase_price lastItem in
      let yesterdayPrice := priceBack data (len - 2) currentPrice in
      let weekAgoPrice := priceBack data (len - 7) currentPrice in
      let monthAgoPrice := priceBack data (len - 30) currentPrice in
      let yearAgoPrice := priceBack data 0 currentPrice in
      mret {| price := currentPrice;
              per_day := changeSince currentPrice yesterdayPrice;
              per_week := changeSince currentPrice weekAgoPrice;
              per_month := changeSince currentPrice monthAgoPrice;
              per_year := changeSince currentPrice yearAgoPrice |}
  end.

Definition generateMockData (todayT : Z) (calls : nat) (name : string)
  : Completion ApiResponse :=
  let data := mockLoop name todayT calls 365 in
  stats ← mockStats data;
  mret {| data := data; stats := stats |}.

End Mock.

(** ** The fetcher *)

(** The statistics object of a response, every level of which may be
    missing. *)
Record RawChange : Type := mkRawChange {
  raw_gold : option jsnum;
  raw_percent : option jsnum
}.

Record RawStats : Type := mkRawStats {
  raw_price : option jsnum;
  raw_per_day : option RawChange;
  raw_per_week : option RawChange;
  raw_per_month : option RawChange;
  raw_per_year : option RawChange
}.

(** What [JSON.parse] returned, as the structure test sees it:
    [!data || !data.data || !Array.isArray(data.data)] holds, or [data.data]
    is an array of points and [data.stats] is there or not. *)
Inductive Payload : Type :=
| InvalidStructure
| Structure (items : list PriceData) (rawStats : option RawStats).

(** The body of a 2xx response: reading the text fails, the text is empty
    or blank, [JSON.parse] throws, or it parses. *)
Inductive ResponseText : Type :=
| Unreadable
| EmptyText
| NotJSON
| Parsed (payload : Payload).

(** How the [fetch] of the price endpoint ends: the promise rejects (no
    network, or the abort of the 15 s timer) with an error carrying
    [message]; or a response arrives, not [ok] with its status and error
    text (["Unknown error"] when the text cannot be read), or [ok]. *)
Inductive Upstream : Type :=
| FetchRejected (message : string)
| HttpError (status : Z) (errorText : string)
| HttpOk (body : ResponseText).

(** The readings of the clock and of the random source during one fetch. *)
Record Ambient : Type := mkAmbient {
  filterNow : Z;
  filterBase : Z;
  mockToday : Z;
  randomCalls : nat
}.

Section Fetcher.
Context (E : Engine).

(** [x || 0] on a field that may be absent. *)
Definition orZero (field : option jsnum) : jsnum :=
  match field with
  | Some v => JS.or v JS.zero
  | None => JS.zero
  end.

Definition safeChange (c : option RawChange) : Change :=
  {| gold := orZero (c ≫= raw_gold); percent := orZero (c ≫= raw_percent) |}.

Definition safeStats (st : option RawStats) : PriceStats :=
  {| price := orZero (st ≫= raw_price);
     per_day := safeChange (st ≫= raw_per_day);
     per_week := safeChange (st ≫= raw_per_week);
     per_month := safeChange (st ≫= raw_per_month);
     per_year := safeChange (st ≫= raw_per_year) |}.

(** The callback of [data.data.map]. *)
Definition normalizeItem (item : PriceData) : Completion PriceData :=
  try_catch
    (date ← newDate E (Date item);
     mret {| purchase_price := purchase_price item;
             Date := Date item;
             formattedDate := Some (toLocaleDateString E date);
             formattedTime := Some (toLocaleTimeString E date);
             formattedDateTime :=
               Some (toLocaleDateString E date +:+ " "
                     +:+ toLocaleTimeString E date);
             timestamp := Some (getTime date) |})
    (λ _,
     (* Handle invalid dates *)
     mret {| purchase_price := purchase_price item;
             Date := Date item;
             formattedDate := Some "Invalid date";
             formattedTime := Some "";
             formattedDateTime := Some "Invalid date";
             timestamp := Some JS.zero |}).

(** The callback of [.filter]: [!isNaN(item.purchase_price)]. *)
Definition validPrice (item : PriceData) : Completion bool :=
  mret (negb (JS.isNaN (purchase_price item))).

(** The comparator of [.sort]: [(a.timestamp || 0) - (b.timestamp || 0)];
    the subtraction of two numbers does not throw, so the [catch] around it
    stays out. *)
Definition byTimestamp (a b : PriceData) : jsnum :=
  JS.sub (orZero (timestamp a)) (orZero (timestamp b)).

Definition processData (items : list PriceData)
  : Completion (list PriceData) :=
  mapped ← Array_map normalizeItem items;
  kept ← Array_filter validPrice mapped;
  mret (Array_sort byTimestamp kept).

(** The three statements shared by every fallback:
    [const mockData = generateMockData(itemName); setPriceData(mockData.data);
     filterDataByPeriod(mockData.data, selectedPeriod); setStats(mockData.stats)]. *)
Definition useMockData (amb : Ambient) (itemName : string)
  (selectedPeriod : TimePeriod) : Act unit :=
  mockData ← lift (generateMockData E (mockToday amb) (randomCalls amb) itemName);
  set_ (setPriceData (data mockData));;
  filterDataByPeriod E (filterNow amb) (filterBase amb)
    (data mockData) selectedPeriod;;
  set_ (setStats (Some (stats mockData))).

(** [fetchItemStats(showToast)].  [itemName], [selectedPeriod] and
    [isRefreshing] are the values the callback closed over. *)
Definition fetchItemStats (amb : Ambient) (itemName : string)
  (selectedPeriod : TimePeriod) (isRefreshing : bool)
  (showToast : bool) (upstream : Upstream) : Act unit :=
  try_finally
    (set_ (setIsLoading true);;
     set_ (setError None);;
     set_ (setShowNoDataMessage false);;
     set_ (setRetryCount 0);;
     body ←
       match upstream with
       | FetchRejected message => throw message
       | HttpError status errorText =>
           throw ("API Error: " +:+ pretty status +:+
                  (if decide (errorText = "") then ""
                   else " - " +:+ errorText))
       | HttpOk body => mret body
       end;
     payload ←
       match body with
       | Unreadable | EmptyText | NotJSON =>
           throw "Failed to parse API response"
       | Parsed payload => mret payload
       end;
     match payload with
     | InvalidStructure => throw "Invalid data structure received from API"
     | Structure [] _ =>
         set_ (setShowNoDataMessage true);;
         (* Generate mock data for preview but show a message *)
         useMockData amb itemName selectedPeriod;;
         when_ showToast
           (set_ (toast {| title := "No price data available";
                           description :=
                             "Using sample data for preview purposes";
                           variant := Warning |}));;
         set_ (setIsLoading false);;
         set_ (setIsRefreshing false)
     | Structure (item :: items) rawStats =>
         processedData ← lift (processData (item :: items));
         match processedData with
         | [] =>
             set_ (setShowNoDataMessage true);;
             useMockData amb itemName selectedPeriod;;
             when_ showToast
               (set_ (toast {| title := "No valid price data available";
                               description :=
                                 "Using sample data for preview purposes";
                               variant := Warning |}))
         | _ :: _ =>
             set_ (setPriceData processedData);;
             filterDataByPeriod E (filterNow amb) (filterBase amb)
               processedData selectedPeriod;;
             set_ (setStats (Some (safeStats rawStats)));;
             when_ (isRefreshing && showToast)
               (set_ (toast {| title := "Data refreshed";
                               description :=
                                 "The latest price data has been loaded";
                               variant := Default |}))
         end
     end)
    (λ message,
     let errorMessage :=
       if decide (message = "") then "Failed to load item statistics"
       else message in
     set_ (setError (Some errorMessage));;
     when_ showToast
       (set_ (toast {| title := "Error"; description := errorMessage;
                       variant := Destructive |}));;
     (* Set mock data for development/preview or if API fails *)
     useMockData amb itemName selectedPeriod)
    (set_ (setIsLoading false);;
     set_ (setIsRefreshing false)).

End Fetcher.

(** ** The [/api/types] route *)

Module Route.

(** JSON values; an object is a finite map from keys to values. *)
#[warnings="-register-all"]
Inductive json : Type :=
| JNull
| JBool (b : bool)
| JNumber (n : Q)
| JString (s : string)
| JArray (items : list json)
| JObject (fields : gmap string json).

(** A value caught by [catch (error)]: an [Error] with its message, or
    something else. *)
Inductive Thrown : Type :=
| ErrorObject (message : string)
| OtherValue.

(** How the upstream [fetch] ends: the promise rejects, or a response
    arrives with its status and its text ([None] when reading the text
    rejects with the given value). *)
Inductive Upstream : Type :=
| Rejected (error : Thrown)
| Responded (status : Z) (text : Thrown + string).

Record Response : Type := mkResponse {
  status : Z;
  body : json
}.

(** [response.ok] *)
Definition ok (status : Z) : bool := (200 <=? status)%Z && (status <=? 299)%Z.

(** The statuses that admit no body. *)
Definition nullBodyStatus (status : Z) : bool :=
  bool_decide (status ∈ [101; 103; 204; 205; 304]%Z).

(** [NextResponse.json(body, { status })], which initialises a [Response]:
    a status outside 200..599 is a [RangeError], a null-body status with a
    body is a [TypeError]. *)
Definition NextResponse_json (body : json) (status : Z) : Thrown + Response :=
  if negb ((200 <=? status)%Z && (status <=? 599)%Z)
  then inl (ErrorObject "status must be in the range of 200 to 599")
  else if nullBodyStatus status
  then inl (ErrorObject ("Invalid response status code " +:+ pretty status))
  else inr {| status := status; body := body |}.

(** [error instanceof Error ? error.message : "Unknown error"] *)
Definition errorDetails (error : Thrown) : json :=
  match error with
  | ErrorObject message => JString message
  | OtherValue => JString "Unknown error"
  end.

Definition object (fields : list (string * json)) : json :=
  JObject (list_to_map fields).

Section Handlers.
(** [JSON.parse]: [None] when it throws. *)
Context (JSON_parse : string → option json).

(** The body of the [try] of [GET], then its [catch]. *)
Definition GET_try (upstream : Upstream) : Thrown + Response :=
  match upstream with
  | Rejected error => inl error
  | Responded status text =>
      if negb (ok status)
      then
        (* Return a proper JSON error response instead of throwing *)
        NextResponse_json
          (object [("error",
                    JString ("API responded with status: " +:+ pretty status))])
          status
      else
        match text with
        | inl error => inl error
        | inr text =>
            match JSON_parse text with
            | Some data => NextResponse_json data 200
            | None =>
                NextResponse_json
                  (object [("error", JString "Invalid JSON response from server");
                           ("responseText", JString (String.substring 0 100 text))])
                  500
            end
        end
  end.

Definition GET (upstream : Upstream) : Thrown + Response :=
  match GET_try upstream with
  | inr response => inr response
  | inl error =>
      NextResponse_json
        (object [("error", JString "Failed to fetch types from external API");
                 ("details", errorDetails error)])
        500
  end.

(** [POST]: [request] is the outcome of [request.json()]. *)
Definition POST_try (request : Thrown + json) (upstream : Upstream)
  : Thrown + Response :=
  match request with
  | inl error => inl error
  | inr _ =>
      match upstream with
      | Rejected error => inl error
      | Responded status text =>
          match text with
          | inl error => inl error
          | inr text =>
              if negb (ok status)
              then
                let errorData :=
                  match JSON_parse text with
                  | Some parsed => parsed
                  | None => object [("message", JString text)]
                  end in
                NextResponse_json
                  (object [("error", JString ("API Error: " +:+ pretty status));
                           ("details", errorData)])
                  status
              else
                match JSON_parse text with
                | Some data => NextResponse_json data 200
                | None =>
                    NextResponse_json
                      (object [("error",
                                JString "Invalid JSON response from server")])
                      500
                end
          end
      end
  end.

Definition POST (request : Thrown + json) (upstream : Upstream)
  : Thrown + Response :=
  match POST_try request upstream with
  | inr response => inr response
  | inl error =>
      NextResponse_json
        (object [("error", JString "Failed to create type");
                 ("details", errorDetails error)])
        500
  end.

End Handlers.

End Route.

(** ** A host to run the model on

    A small engine for evaluating the model on concrete inputs: the
    proleptic Gregorian calendar in UTC, dates parsed from [YYYY-MM-DD]
    only, a flat sine wave and a fixed cycle of random numbers.  The
    theorems do not depend on it. *)

Module Sample.

Definition msPerDay : Z := 86400000.

(** Days since 1970-01-01 of the civil date [y]-[m]-[d] ([m] from 1);
    [d] may leave the month. *)
Definition daysFromCivil (y m d : Z) : Z :=
  let y' := if (m <=? 2)%Z then (y - 1)%Z else y in
  let era := (y' `div` 400)%Z in
  let yoe := (y' - era * 400)%Z in
  let doy := ((153 * (m + (if (2 <? m)%Z then -3 else 9)) + 2) `div` 5 + d - 1)%Z in
  let doe := (yoe * 365 + yoe `div` 4 - yoe `div` 100 + doy)%Z in
  (era * 146097 + doe - 719468)%Z.

(** The civil date (year, month from 1, day) of a day number. *)
Definition civilFromDays (z : Z) : Z * Z * Z :=
  let z := (z + 719468)%Z in
  let era := (z `div` 146097)%Z in
  let doe := (z - era * 146097)%Z in
  let yoe := ((doe - doe `div` 1460 + doe `div` 36524 - doe `div` 146096)
              `div` 365)%Z in
  let doy := (doe - (365 * yoe + yoe `div` 4 - yoe `div` 100))%Z in
  let mp := ((5 * doy + 2) `div` 153)%Z in
  let d := (doy - (153 * mp + 2) `div` 5 + 1)%Z in
  let m := (if (mp <? 10)%Z then mp + 3 else mp - 9)%Z in
  ((if (m <=? 2)%Z then yoe + era * 400 + 1 else yoe + era * 400)%Z, m, d).

Definition civil (t : Z) : Z * Z * Z := civilFromDays (t `div` msPerDay)%Z.
Definition timeInDay (t : Z) : Z := (t `mod` msPerDay)%Z.

(** The time value of year [y], month [mo] (from 0, any integer), day [d]
    (any integer), at the time of day of [t]. *)
Definition makeDate (y mo d t : Z) : Z :=
  (daysFromCivil (y + mo `div` 12) (mo `mod` 12 + 1) 1 * msPerDay
   + (d - 1) * msPerDay + timeInDay t)%Z.

Definition digitValue (c : Ascii.ascii) : option Z :=
  let n := Z.of_nat (Ascii.nat_of_ascii c) in
  if decide (48 ≤ n ≤ 57)%Z then Some (n - 48)%Z else None.

Fixpoint digitsValue (acc : Z) (s : string) : option Z :=
  match s with
  | EmptyString => Some acc
  | String c rest => d ← digitValue c; digitsValue (acc * 10 + d) rest
  end.

Definition dash : Ascii.ascii := Ascii.ascii_of_nat 45.

Definition parseISODate (s : string) : option Z :=
  if decide (String.length s = 10
             ∧ String.get 4 s = Some dash ∧ String.get 7 s = Some dash)
  then
    y ← digitsValue 0 (String.substring 0 4 s);
    m ← digitsValue 0 (String.substring 5 2 s);
    d ← digitsValue 0 (String.substring 8 2 s);
    if decide (1 ≤ m ≤ 12 ∧ 1 ≤ d ≤ 31)%Z
    then Some (daysFromCivil y m d * msPerDay)%Z
    else None
  else None.

Definition pad2 (n : Z) : string :=
  if decide (0 ≤ n < 10)%Z then "0" +:+ pretty n else pretty n.

Definition engine : Engine := {|
  Date_parse := parseISODate;
  localeDate := λ t, let '(y, m, d) := civil t in
                     pretty m +:+ "/" +:+ pretty d +:+ "/" +:+ pretty y;
  localeTime := λ t, pad2 (timeInDay t `div` 3600000)%Z +:+ ":"
                     +:+ pad2 ((timeInDay t `div` 60000) `mod` 60)%Z;
  isoDate := λ t, let '(y, m, d) := civil t in
                  pretty y +:+ "-" +:+ pad2 m +:+ "-" +:+ pad2 d;
  getDate := λ t, let '(_, _, d) := civil t in d;
  setDate := λ t d, let '(y, m, _) := civil t in makeDate y (m - 1) d t;
  getMonth := λ t, let '(_, m, _) := civil t in (m - 1)%Z;
  setMonth := λ t mo, let '(y, _, d) := civil t in makeDate y mo d t;
  getFullYear := λ t, let '(y, _, _) := civil t in y;
  setFullYear := λ t y, let '(_, m, d) := civil t in makeDate y (m - 1) d t;
  Math_sin := λ _, 0%Q;
  Math_cos := λ _, 1%Q;
  Math_random := λ n, (Z.of_nat (n `mod` 10) # 10)%Q
|}.

(** 2024-03-15T12:00:00Z *)
Definition noon : Z := 1710504000000.

Definition ambient : Ambient := {|
  filterNow := noon; filterBase := noon; mockToday := noon; randomCalls := 0 |}.

Definition point (p : Q) (date : string) : PriceData := {|
  purchase_price := Fin p; Date := date;
  formattedDate := None; formattedTime := None; formattedDateTime := None;
  timestamp := None |}.

(** The initial view with another display limit. *)
Definition view (limit : N) : ViewState := {|
  isLoading := true; isRefreshing := false; error := None;
  priceData := []; filteredData := []; displayData := [];
  viewStats := None; selectedPeriod := P1M; zoomDomain := None;
  dataPointLimit := limit; retryCount := 0; showNoDataMessage := false;
  toasts := [] |}.

(** A view after loading the series [series], unfiltered. *)
Definition loaded (limit : N) (series : list PriceData)
  (zoom : option ZoomDomain) : ViewState := {|
  isLoading := false; isRefreshing := false; error := None;
  priceData := series; filteredData := series; displayData := series;
  viewStats := None; selectedPeriod := ALL; zoomDomain := zoom;
  dataPointLimit := limit; retryCount := 0; showNoDataMessage := false;
  toasts := [] |}.

(** [n] daily points with prices 100, 101, ...: no date is needed where
    only the indices matter. *)
Definition series (n : nat) : list PriceData :=
  (λ i, point (inject_Z (100 + Z.of_nat i)) "2024-03-15") <$> seq 0 n.

Definition threeDays : list PriceData :=
  [point 10 "2024-03-13"; point 11 "2024-03-14"; point 12 "2024-03-15"].

End Sample.

(** ** The CSV export *)

Section CsvExport.
Context (E : Engine).
(** [Number.prototype.toString] *)
Context (numberToString : jsnum → string).

(** [parts.join(sep)] *)
Fixpoint Array_join (sep : string) (parts : list string) : string :=
  match parts with
  | [] => ""
  | [part] => part
  | part :: rest => part +:+ sep +:+ Array_join sep rest
  end.

Definition newline : string := String (Ascii.ascii_of_nat 10) "".

(** The row of one point: [new Date(item.Date)] formatted twice, and the
    price. *)
Definition csvRow (item : PriceData) : string :=
  let date := Date_parse E (Date item) in
  Array_join ","
    [toLocaleDateString E date; toLocaleTimeString E date;
     numberToString (purchase_price item)].

(** The [csvContent] of [exportData]; [None] when the function returns
    before building it. *)
Definition csvContent (s : ViewState) : option string :=
  match filteredData s with
  | [] => None
  | _ :: _ =>
      Some (Array_join newline
              (Array_join "," ["Date"; "Time"; "Price (G)"]
               :: (csvRow <$> filteredData s)))
  end.

End CsvExport.

(** ** The dashboard page *)

Module Dashboard.

Record Memory : Type := mkMemory {
  mem_total_gb : jsnum;
  mem_used_gb : jsnum;
  mem_available_gb : jsnum;
  mem_percent : jsnum
}.

Record Disk : Type := mkDisk {
  disk_total_gb : jsnum;
  disk_used_gb : jsnum;
  disk_free_gb : jsnum;
  disk_percent : jsnum
}.

Record ServerStats : Type := mkServerStats {
  cpu_percent : jsnum;
  memory : Memory;
  disk : Disk
}.

Record EntityCount : Type := mkEntityCount {
  items : nat;
  users : nat;
  weapons : nat;
  categories : nat;
  collections : nat;
  rarities : nat;
  types : nat
}.

(** The [useState] cells of the page. *)
Record View : Type := mkView {
  serverStats : ServerStats;
  counts : EntityCount;
  isLoading : bool;
  error : option string
}.

Definition zeroStats : ServerStats := {|
  cpu_percent := JS.zero;
  memory := {| mem_total_gb := JS.zero; mem_used_gb := JS.zero;
               mem_available_gb := JS.zero; mem_percent := JS.zero |};
  disk := {| disk_total_gb := JS.zero; disk_used_gb := JS.zero;
             disk_free_gb := JS.zero; disk_percent := JS.zero |} |}.

Definition zeroCounts : EntityCount := {|
  items := 0; users := 0; weapons := 0; categories := 0; collections := 0;
  rarities := 0; types := 0 |}.

Definition initialView : View := {|
  serverStats := zeroStats; counts := zeroCounts; isLoading := true;
  error := None |}.

(** The [mockStats] and the mock counts of [fetchData]. *)
Definition mockStats : ServerStats := {|
  cpu_percent := Fin (255 # 10);
  memory := {| mem_total_gb := Fin 16; mem_used_gb := Fin (82 # 10);
               mem_available_gb := Fin (78 # 10);
               mem_percent := Fin (5125 # 100) |};
  disk := {| disk_total_gb := Fin 512; disk_used_gb := Fin 256;
             disk_free_gb := Fin 256; disk_percent := Fin 50 |} |}.

Definition mockCounts : EntityCount := {|
  items := 42; users := 15; weapons := 24; categories := 8;
  collections := 12; rarities := 6; types := 5 |}.

Definition setServerStats (v : ServerStats) (s : View) : View :=
  {| serverStats := v; counts := counts s; isLoading := isLoading s;
     error := error s |}.
Definition setCounts (v : EntityCount) (s : View) : View :=
  {| serverStats := serverStats s; counts := v; isLoading := isLoading s;
     error := error s |}.
Definition setIsLoading (v : bool) (s : View) : View :=
  {| serverStats := serverStats s; counts := counts s; isLoading := v;
     error := error s |}.
Definition setError (v : option string) (s : View) : View :=
  {| serverStats := serverStats s; counts := counts s;
     isLoading := isLoading s; error := v |}.

(** An asynchronous function of the page: it transforms the view and its
    promise resolves or rejects with a thrown value. *)
Definition Async (A : Type) : Type := View → View * (Route.Thrown + A).

Definition resolve {A} (a : A) : Async A := λ s, (s, inr a).
Definition reject {A} (error : Route.Thrown) : Async A := λ s, (s, inl error).
Definition andThen {A B} (m : Async A) (f : A → Async B) : Async B := λ s,
  match m s with
  | (s', inr a) => f a s'
  | (s', inl error) => (s', inl error)
  end.
Definition write (f : View → View) : Async unit := λ s, (f s, inr ()).

(** [try { body } catch (error) { handler }] and [promise.catch(handler)]. *)
Definition catching {A} (body : Async A) (handler : Route.Thrown → Async A)
  : Async A := λ s,
  match body s with
  | (s', inr a) => (s', inr a)
  | (s', inl error) => handler error s'
  end.

(** [error instanceof Error ? error.message : fallback] *)
Definition messageOr (fallback : string) (error : Route.Thrown) : string :=
  match error with
  | Route.ErrorObject message => message
  | Route.OtherValue => fallback
  end.

(** How the request to [/api/server-stats] ends: the fetch rejects; the
    response is not [ok]; [response.json()] rejects; the body is [null]
    (reading [data.error] throws a [TypeError]); the body has a truthy
    [error], of which [new Error] makes the message; or the body is taken
    as the statistics. *)
Inductive StatsUpstream : Type :=
| StatsRejected (error : Route.Thrown)
| StatsStatus (status : Z)
| StatsUnreadable (error : Route.Thrown)
| StatsNullish
| StatsError (message : string)
| StatsData (data : ServerStats).

Definition fetchServerStats (upstream : StatsUpstream) : Async unit :=
  catching
    (andThen
       (match upstream with
        | StatsRejected error => reject error
        | StatsStatus status =>
            reject (Route.ErrorObject
                      ("Ошибка при получении статистики сервера: "
                       +:+ pretty status))
        | StatsUnreadable error => reject error
        | StatsNullish =>
            reject (Route.ErrorObject "Cannot read properties of null")
        | StatsError message => reject (Route.ErrorObject message)
        | StatsData data => resolve data
        end)
       (λ data, write (setServerStats data)))
    (λ error,
     write (setError
              (Some (messageOr "Не удалось загрузить данные сервера" error)))).

(** How the request of [fetchWithErrorHandling] to one list endpoint
    ends: the fetch rejects; a response arrives with its status and its
    text ([None] when reading the text rejects). *)
Inductive ListUpstream : Type :=
| ListRejected
| ListResponse (status : Z) (text : option string).

Section Lists.
(** [JSON.parse]: [None] when it throws. *)
Context (JSON_parse : string → option Route.json).

(** [fetchWithErrorHandling(url)]: the parsed body, or the empty array. *)
Definition fetchWithErrorHandling (upstream : ListUpstream) : Route.json :=
  match upstream with
  | ListRejected => Route.JArray []
  | ListResponse status text =>
      if negb (Route.ok status) then Route.JArray []
      else
        match text with
        | None => Route.JArray []
        | Some text =>
            match JSON_parse text with
            | Some parsed => parsed
            | None => Route.JArray []
            end
        end
  end.

(** [Array.isArray(x) ? x.length : 0] *)
Definition lengthIfArray (value : Route.json) : nat :=
  match value with
  | Route.JArray elements => length elements
  | _ => 0
  end.

(** The six endpoints, in the order of the [Promise.all]. *)
Record Endpoints : Type := mkEndpoints {
  itemsApi : ListUpstream;
  weaponsApi : ListUpstream;
  categoriesApi : ListUpstream;
  collectionsApi : ListUpstream;
  raritiesApi : ListUpstream;
  typesApi : ListUpstream
}.

Definition fetchEntityCounts (apis : Endpoints) : Async unit :=
  catching
    (andThen (resolve (fetchWithErrorHandling (itemsApi apis))) (λ itemsData,
     andThen (resolve (fetchWithErrorHandling (weaponsApi apis))) (λ weaponsData,
     andThen (resolve (fetchWithErrorHandling (categoriesApi apis))) (λ categoriesData,
     andThen (resolve (fetchWithErrorHandling (collectionsApi apis))) (λ collectionsData,
     andThen (resolve (fetchWithErrorHandling (raritiesApi apis))) (λ raritiesData,
     andThen (resolve (fetchWithErrorHandling (typesApi apis))) (λ typesData,
     write (setCounts
              {| items := lengthIfArray itemsData;
                 users := 0; (* No API for users, so leave at 0 *)
                 weapons := lengthIfArray weaponsData;
                 categories := lengthIfArray categoriesData;
                 collections := lengthIfArray collectionsData;
                 rarities := lengthIfArray raritiesData;
                 types := lengthIfArray typesData |}))))))))
    (λ error,
     andThen
       (write (setError
                 (Some (messageOr "Не удалось загрузить данные элементов"
                          error))))
       (λ _, write (setCounts zeroCounts))).

(** [fetchData], the effect of the page.  The inner [try] and the
    [.catch] of each step have the same handler. *)
Definition fetchData (stats : StatsUpstream) (apis : Endpoints) : Async unit :=
  λ s,
  let body :=
    andThen
      (catching
         (catching (fetchServerStats stats)
            (λ _, write (setServerStats mockStats)))
         (λ _, write (setServerStats mockStats)))
      (λ _,
       catching
         (catching (fetchEntityCounts apis)
            (λ _, write (setCounts mockCounts)))
         (λ _, write (setCounts mockCounts))) in
  match
    catching body
      (λ _,
       write (setError
                (Some "Произошла ошибка при загрузке данных. Используются демо-данные.")))
      (setError None (setIsLoading true s))
  with
  | (s', outcome) => (setIsLoading false s', outcome)
  end.

End Lists.

End Dashboard.

(** ** Vocabulary of the statements

    Pure readings of the callbacks and the notions the theorems are stated
    with. *)

Section Readings.
Context (E : Engine).

(** The instant the filter compares with the cutoff:
    [item.timestamp || new Date(item.Date).getTime()]. *)
Definition stampOf (item : PriceData) : jsnum :=
  match timestamp item with
  | Some t => if JS.truthy t then t else getTime (Date_parse E (Date item))
  | None => getTime (Date_parse E (Date item))
  end.

Definition inPeriodb (cutoff : Z) (item : PriceData) : bool :=
  JS.ge (stampOf item) (JS.ofZ cutoff).

(** What the [try] branch of the [map] callback returns. *)
Definition normalized (item : PriceData) : PriceData :=
  let date := Date_parse E (Date item) in
  {| purchase_price := purchase_price item;
     Date := Date item;
     formattedDate := Some (toLocaleDateString E date);
     formattedTime := Some (toLocaleTimeString E date);
     formattedDateTime :=
       Some (toLocaleDateString E date +:+ " " +:+ toLocaleTimeString E date);
     timestamp := Some (getTime date) |}.

End Readings.

(** A zoom range lies within a series of [n] points. *)
Definition zoomWithin (n : nat) (zoom : option ZoomDomain) : Prop :=
  match zoom with
  | None => True
  | Some z => (0 ≤ fst (x z) ∧ fst (x z) ≤ snd (x z) ∧ snd (x z) ≤ Z.of_nat n - 1)%Z
  end.

(** The sum and the arithmetic mean of a list of rationals. *)
Definition Qsum (l : list Q) : Q := foldr Qplus 0%Q l.
Definition mean (l : list Q) : Q := (Qsum l / inject_Z (Z.of_nat (length l)))%Q.

(** Sample parser for the route: the literals [null], [true] and [false]
    parse, nothing else does. *)
Definition sampleParse (text : string) : option Route.json :=
  if decide (text = "null") then Some Route.JNull
  else if decide (text = "true") then Some (Route.JBool true)
  else if decide (text = "false") then Some (Route.JBool false)
  else None.

(** A status with which [NextResponse.json] builds a response. *)
Definition usable (status : Z) : bool :=
  (200 <=? status)%Z && (status <=? 599)%Z
  && negb (Route.nullBodyStatus status).

(** The key the comparator of the sort sees, for a timestamp that is a
    finite number or NaN: the timestamp, and 0 for NaN or none. *)
Definition stampKey (item : PriceData) : Q :=
  match timestamp item with
  | Some (Fin t) => t
  | _ => 0%Q
  end.

Definition finiteStamp (item : PriceData) : Prop :=
  timestamp item ≠ Some PosInf ∧ timestamp item ≠ Some NegInf.

(** Each point comes before every later point. *)
Fixpoint sortedBy {A} (key : A → Q) (xs : list A) : Prop :=
  match xs with
  | [] => True
  | x :: rest => Forall (λ y, (key x <= key y)%Q) rest ∧ sortedBy key rest
  end.

(** The message of the error with which the [try] of [fetchItemStats]
    ends, [None] when it reaches the test of [data.data.length]. *)
Definition failureOf (upstream : Upstream) : option string :=
  match upstream with
  | FetchRejected message => Some message
  | HttpError status errorText =>
      Some ("API Error: " +:+ pretty status +:+
            (if decide (errorText = "") then "" else " - " +:+ errorText))
  | HttpOk (Unreadable | EmptyText | NotJSON) =>
      Some "Failed to parse API response"
  | HttpOk (Parsed InvalidStructure) =>
      Some "Invalid data structure received from API"
  | HttpOk (Parsed (Structure _ _)) => None
  end.

(** [err.message || "Failed to load item statistics"] *)
Definition shownError (message : string) : string :=
  if decide (message = "") then "Failed to load item statistics" else message.

(** The points of a response that survive the price test. *)
Definition validItems (upstream : Upstream) : list PriceData :=
  match upstream with
  | HttpOk (Parsed (Structure items _)) =>
      filter (λ item, JS.isNaN (purchase_price item) = false) items
  | _ => []
  end.

(** The view after the four writes that open [fetchItemStats]. *)
Definition started (s : ViewState) : ViewState :=
  setRetryCount 0
    (setShowNoDataMessage false (setError None (setIsLoading true s))).

(** The view after the two writes of its [finally]. *)
Definition finished (s : ViewState) : ViewState :=
  setIsRefreshing false (setIsLoading false s).

(** [if (b) toast(t)] *)
Definition toastIf (b : bool) (t : Toast) (s : ViewState) : ViewState :=
  if b then toast t s else s.

(** The sine and the cosine of the host stay within [-1, 1]. *)
Definition boundedWaves (E : Engine) : Prop :=
  ∀ q, (-1 <= Math_sin E q <= 1)%Q ∧ (-1 <= Math_cos E q <= 1)%Q.

(** A number that is neither NaN nor infinite. *)
Definition finite (n : jsnum) : Prop := ∃ q, n = Fin q.

Definition finiteChange (c : Change) : Prop :=
  finite (gold c) ∧ finite (percent c).

Definition finiteStats (st : PriceStats) : Prop :=
  finite (price st) ∧ finiteChange (per_day st) ∧ finiteChange (per_week st) ∧
  finiteChange (per_month st) ∧ finiteChange (per_year st).

(** The number of occurrences of a character in a string. *)
Fixpoint countChar (c : Ascii.ascii) (text : string) : nat :=
  match text with
  | EmptyString => 0
  | String c' rest => (if decide (c = c') then 1 else 0) + countChar c rest
  end.

Definition comma : Ascii.ascii := Ascii.ascii_of_nat 44.
Definition lineFeed : Ascii.ascii := Ascii.ascii_of_nat 10.

(** Sample parser for the dashboard: one array literal parses. *)
Definition sampleArrayParse (text : string) : option Route.json :=
  if decide (text = "[null,null]")
  then Some (Route.JArray [Route.JNull; Route.JNull])
  else None.

(** Sample [String(n)] for the export: the integer part of a finite
    number. *)
Definition sampleNumberToString (n : jsnum) : string :=
  match n with
  | Fin q => pretty (Qfloor q)
  | _ => "NaN"
  end.

(** ** Proof automation *)

Ltac run_act :=
  repeat (unfold mbind, mret, act_bind, act_ret, completion_bind,
            completion_ret, set_, read, lift, throw, when_, try_,
            try_finally, try_catch; simpl).

(** Reads the keys of a literal object and closes the goal. *)
Ltac envelope :=
  unfold Route.object; simpl;
  rewrite ?lookup_insert_ne by done;
  rewrite ?lookup_insert_eq, ?lookup_empty;
  first
    [ done
    | by left
    | by right
    | by eexists
    | by intros _; eexists
    | split; [by intros [? ?] | by intros [? ?]]
    | split; [by intros [? ?] | done]
    | split; [done | by intros _; eexists] ].

(** * Properties *)

(** ** Down-sampling *)

Section SamplingFacts.
Context {A : Type}.
Implicit Types (data : list A) (limit : N).

(** The loop ends within [length data] iterations: from there on the result
    does not depend on the fuel. *)
Lemma sampleMiddle_fuel data rate fuel1 fuel2 i :
  1 ≤ rate → length data - i ≤ fuel1 → length data - i ≤ fuel2 →
  sampleMiddle fuel1 data rate i = sampleMiddle fuel2 data rate i.
Proof.
  intros Hrate. revert fuel2 i.
  induction fuel1 as [|fuel1 IH]; intros [|fuel2] i H1 H2; simpl; try done.
  - case_decide; [lia | done].
  - case_decide; [lia | done].
  - case_decide; [|done]. f_equal. apply IH; lia.
Qed.

(** Every point the loop takes sits at a positive multiple of the rate,
    strictly before [length data - rate]. *)
Lemma sampleMiddle_elem data rate fuel i x :
  x ∈ sampleMiddle fuel data rate i →
  ∃ k, data !! (i + k * rate) = Some x ∧ i + k * rate < length data - rate.
Proof.
  revert i. induction fuel as [|fuel IH]; intros i; simpl.
  - intros H. by apply elem_of_nil in H.
  - case_decide as Hlt; [|intros H; by apply elem_of_nil in H].
    rewrite elem_of_app. intros [Hx | Hx].
    + exists 0. simpl. rewrite Nat.add_0_r.
      destruct (data !! i) as [y|] eqn:Hy; simpl in Hx.
      * apply list_elem_of_singleton in Hx. by subst.
      * by apply elem_of_nil in Hx.
    + destruct (IH _ Hx) as (k & Hk & Hb). exists (S k).
      replace (i + S k * rate) with (i + rate + k * rate) by lia. done.
Qed.

(** And the loop takes every such point, in order. *)
Lemma sampleMiddle_lookup data rate fuel i k :
  1 ≤ rate → length data - i ≤ fuel →
  i + k * rate < length data - rate →
  sampleMiddle fuel data rate i !! k = data !! (i + k * rate).
Proof.
  intros Hrate. revert fuel i.
  induction k as [|k IH]; intros [|fuel] i Hfuel Hlt; try lia.
  - simpl. rewrite decide_True by lia.
    destruct (lookup_lt_is_Some_2 data i) as [item Hitem]; [lia|].
    rewrite Hitem. simpl. by rewrite Nat.add_0_r, Hitem.
  - simpl. rewrite decide_True by lia.
    destruct (lookup_lt_is_Some_2 data i) as [item Hitem]; [lia|].
    rewrite Hitem. simpl. rewrite IH by lia. f_equal. lia.
Qed.

Lemma samplingRate_spec len p :
  samplingRate len (Npos p)
  = Some (Z.to_nat (- ((- Z.of_nat len) `div` Zpos p))).
Proof. reflexivity. Qed.

(** Above the limit the rate is at least 2. *)
Lemma samplingRate_ge len limit rate :
  (limit < N.of_nat len)%N → samplingRate len limit = Some rate → 2 ≤ rate.
Proof.
  destruct limit as [|p]; [done|].
  rewrite samplingRate_spec. intros Hlt [= <-].
  assert ((- Z.of_nat len) `div` Z.pos p < -1)%Z; [|lia].
  apply Z.div_lt_upper_bound; lia.
Qed.

(** The fuel that [optimizeDataForDisplay] gives the loop is enough. *)
Lemma optimizeDataForDisplay_fuel limit data rate fuel :
  (limit < N.of_nat (length data))%N →
  samplingRate (length data) limit = Some rate →
  length data ≤ fuel →
  sampleMiddle fuel data rate rate = sampleMiddle (length data) data rate rate.
Proof.
  intros Hlt Hrate Hfuel. pose proof (samplingRate_ge _ _ _ Hlt Hrate).
  apply sampleMiddle_fuel; lia.
Qed.

Lemma optimizeDataForDisplay_small limit data :
  (N.of_nat (length data) ≤ limit)%N →
  optimizeDataForDisplay limit data = data.
Proof.
  intros H. destruct data as [|first rest]; [done|].
  unfold optimizeDataForDisplay. by rewrite decide_True.
Qed.

(** Above the limit the output is the first point, the sampled middle and
    the last point. *)
Lemma optimizeDataForDisplay_large limit data :
  (limit < N.of_nat (length data))%N →
  ∃ first last_ middle,
    data !! 0 = Some first ∧ data !! (length data - 1) = Some last_ ∧
    optimizeDataForDisplay limit data = first :: middle ++ [last_] ∧
    (∀ x, x ∈ middle → ∃ rate k,
        samplingRate (length data) limit = Some rate ∧ 1 ≤ k ∧
        data !! (k * rate) = Some x ∧ k * rate < length data - rate).
Proof.
  intros Hlt. destruct data as [|first rest] eqn:Hdata; [simpl in Hlt; lia|].
  rewrite <- Hdata in *.
  destruct (last data) as [last_|] eqn:Hlast.
  2:{ apply last_None in Hlast. congruence. }
  exists first, last_.
  exists (match samplingRate (length data) limit with
          | Some rate => sampleMiddle (length data) data rate rate
          | None => []
          end).
  split_and!.
  - by rewrite Hdata.
  - rewrite last_lookup in Hlast. by rewrite Nat.sub_1_r.
  - unfold optimizeDataForDisplay. rewrite Hdata at 1.
    rewrite decide_False by lia. by rewrite Hlast.
  - intros x Hx. destruct (samplingRate _ _) as [rate|] eqn:Hrate.
    + apply sampleMiddle_elem in Hx as (k & Hk & Hb).
      exists rate, (S k). replace (S k * rate) with (rate + k * rate) by lia.
      split_and!; [done | lia | done | done].
    + by apply elem_of_nil in Hx.
Qed.

Lemma optimizeDataForDisplay_nonempty limit data :
  data ≠ [] → optimizeDataForDisplay limit data ≠ [].
Proof.
  intros Hne. destruct (decide (N.of_nat (length data) ≤ limit)%N) as [H|H].
  - by rewrite optimizeDataForDisplay_small.
  - destruct (optimizeDataForDisplay_large limit data) as (?&?&?&_&_&->&_);
      [lia | done].
Qed.

(** C4: for every series [S] and every display limit [L] below the length
    of [S], the down-sampled output contains both [S[0]] and
    [S[len(S) - 1]]; they are its first and its last element. *)
Theorem C4_downsampling_keeps_first_and_last (S : list A) (L : N) :
  (L < N.of_nat (length S))%N →
  ∃ first last_,
    S !! 0 = Some first ∧ S !! (length S - 1) = Some last_ ∧
    first ∈ optimizeDataForDisplay L S ∧
    last_ ∈ optimizeDataForDisplay L S ∧
    head (optimizeDataForDisplay L S) = Some first ∧
    last (optimizeDataForDisplay L S) = Some last_.
Proof.
  intros Hlt.
  destruct (optimizeDataForDisplay_large L S Hlt)
    as (first & last_ & middle & H0 & Hn & -> & _).
  exists first, last_. split_and!; try done.
  - apply elem_of_cons. by left.
  - apply elem_of_cons. right. apply elem_of_app. right.
    by apply list_elem_of_singleton.
  - by rewrite app_comm_cons, last_snoc.
Qed.

End SamplingFacts.

(** A thousand points under a limit of 100: the stride is 10 and the
    output has 100 points, the indices 0, 10, ..., 980 and 999. *)
Example optimize_run :
  samplingRate 1000 100 = Some 10 ∧
  optimizeDataForDisplay 100 (seq 0 1000)
  = ((λ k, 10 * k) <$> seq 0 99) ++ [999] ∧
  optimizeDataForDisplay 2 [1; 2] = [1; 2] ∧
  optimizeDataForDisplay 1 [1; 2] = [1; 2] ∧
  optimizeDataForDisplay 0 [1] = [1; 1].
Proof. by vm_compute. Qed.

Lemma C4_witness :
  (2 < N.of_nat (length [10; 20; 30; 40; 50]))%N ∧
  ∃ first last_ : nat,
    [10; 20; 30; 40; 50] !! 0 = Some first ∧
    [10; 20; 30; 40; 50] !! (length [10; 20; 30; 40; 50] - 1) = Some last_ ∧
    first ∈ optimizeDataForDisplay 2 [10; 20; 30; 40; 50] ∧
    last_ ∈ optimizeDataForDisplay 2 [10; 20; 30; 40; 50] ∧
    head (optimizeDataForDisplay 2 [10; 20; 30; 40; 50]) = Some first ∧
    last (optimizeDataForDisplay 2 [10; 20; 30; 40; 50]) = Some last_.
Proof.
  assert (2 < N.of_nat (length [10; 20; 30; 40; 50]))%N as H by (simpl; lia).
  split; [exact H|].
  exact (C4_downsampling_keeps_first_and_last [10; 20; 30; 40; 50] 2%N H).
Defined.

(** ** The period filter *)

Lemma Array_filter_total {A} (f : A → Completion bool) (p : A → bool)
  (xs : list A) :
  (∀ item, f item = Normal (p item)) →
  Array_filter f xs = Normal (filter (λ item, p item = true) xs).
Proof.
  intros Hf. induction xs as [|item xs IH]; [done|].
  simpl. rewrite Hf, IH. run_act.
  rewrite filter_cons. destruct (p item); by simplify_option_eq.
Qed.

Lemma Array_map_total {A B} (f : A → Completion B) (g : A → B)
  (xs : list A) :
  (∀ item, f item = Normal (g item)) →
  Array_map f xs = Normal (g <$> xs).
Proof.
  intros Hf. induction xs as [|item xs IH]; [done|].
  simpl. rewrite Hf, IH. by run_act.
Qed.

Section FilterFacts.
Context (E : Engine).

(** The callback of the filter never throws. *)
Lemma inPeriod_total cutoff item :
  inPeriod E cutoff item = Normal (inPeriodb E cutoff item).
Proof.
  unfold inPeriod, inPeriodb, stampOf, newDate.
  destruct (timestamp item) as [t|]; [destruct (JS.truthy t)|]; by run_act.
Qed.

Lemma filterDataByPeriod_nil nowT baseT period s :
  filterDataByPeriod E nowT baseT [] period s
  = (setDisplayData [] (setFilteredData [] s), Normal ()).
Proof. done. Qed.

(** The window ALL: the series goes to the display as it is. *)
Lemma filterDataByPeriod_ALL nowT baseT data s :
  filterDataByPeriod E nowT baseT data ALL s
  = (setDisplayData data (setFilteredData data s), Normal ()).
Proof. by destruct data. Qed.

(** The other windows: the kept points, or the whole series when none is
    kept, go through the down-sampler. *)
Lemma filterDataByPeriod_window nowT baseT data period cutoff s :
  data ≠ [] →
  cutoffDate E nowT baseT period = Some cutoff →
  let filtered := filter (λ item, inPeriodb E cutoff item = true) data in
  let finalData := if decide (0 < length filtered) then filtered else data in
  filterDataByPeriod E nowT baseT data period s
  = (setDisplayData (optimizeDataForDisplay (dataPointLimit s) finalData)
       (setFilteredData finalData s), Normal ()).
Proof.
  intros Hne Hcut. destruct data as [|item data]; [done|].
  unfold filterDataByPeriod. rewrite Hcut.
  rewrite (Array_filter_total _ (inPeriodb E cutoff)) by apply inPeriod_total.
  by run_act.
Qed.

Lemma cutoffDate_None nowT baseT period :
  cutoffDate E nowT baseT period = None → period = ALL.
Proof. by destruct period. Qed.

(** C3: for every non-empty series [S] and every period window, the
    filter completes; when no point of [S] passes the cutoff of the window
    the filtered series is the whole of [S]; and neither the filtered nor
    the displayed series is ever empty. *)
Theorem C3_empty_window_falls_back (nowT baseT : Z) (S : list PriceData)
  (period : TimePeriod) (s : ViewState) :
  S ≠ [] →
  ∃ s', filterDataByPeriod E nowT baseT S period s = (s', Normal ()) ∧
    (∀ cutoff, cutoffDate E nowT baseT period = Some cutoff →
       Forall (λ item, inPeriod E cutoff item = Normal false) S →
       filteredData s' = S) ∧
    filteredData s' ≠ [] ∧
    displayData s' ≠ [] ∧
    (zoomDomain s = None → chartData s' ≠ []).
Proof.
  intros Hne.
  destruct (cutoffDate E nowT baseT period) as [cutoff|] eqn:Hcut.
  - rewrite (filterDataByPeriod_window _ _ _ _ _ _ Hne Hcut).
    eexists. split; [done|]. simpl.
    set (filtered := filter _ S).
    assert (Hfinal : (if decide (0 < length filtered) then filtered else S) ≠ []).
    { case_decide as Hlen; [|done]. intros Heq. rewrite Heq in Hlen.
      simpl in Hlen. lia. }
    split_and!.
    + intros cutoff' [= <-] Hall.
      assert (filtered = []) as ->; [|done].
      subst filtered. clear Hfinal Hne.
      induction Hall as [|item rest Hitem _ IH]; [done|].
      rewrite filter_cons, IH. rewrite inPeriod_total in Hitem.
      injection Hitem as ->. by rewrite decide_False.
    + done.
    + by apply optimizeDataForDisplay_nonempty.
    + intros Hzoom. unfold chartData. simpl. rewrite Hzoom.
      by apply optimizeDataForDisplay_nonempty.
  - apply cutoffDate_None in Hcut as ->. rewrite filterDataByPeriod_ALL.
    eexists. split; [done|]. simpl. split_and!; try done.
    intros Hzoom. unfold chartData. simpl. by rewrite Hzoom.
Qed.

End FilterFacts.

Lemma C3_witness :
  [Sample.point 5 "2020-01-01"] ≠ [] ∧
  ∃ s',
    filterDataByPeriod Sample.engine Sample.noon Sample.noon
      [Sample.point 5 "2020-01-01"] P1W initialView = (s', Normal ()) ∧
    (∀ cutoff,
       cutoffDate Sample.engine Sample.noon Sample.noon P1W = Some cutoff →
       Forall (λ item, inPeriod Sample.engine cutoff item = Normal false)
         [Sample.point 5 "2020-01-01"] →
       filteredData s' = [Sample.point 5 "2020-01-01"]) ∧
    filteredData s' ≠ [] ∧
    displayData s' ≠ [] ∧
    (zoomDomain initialView = None → chartData s' ≠ []).
Proof.
  assert ([Sample.point 5 "2020-01-01"] ≠ []) as H by done.
  split; [exact H|].
  exact (C3_empty_window_falls_back Sample.engine Sample.noon Sample.noon
           [Sample.point 5 "2020-01-01"] P1W initialView H).
Defined.

(** On the sample host the point of 2020 is outside the last week, and the
    fallback shows it all the same. *)
Example filter_fallback_run :
  filteredData
    (filterDataByPeriod Sample.engine Sample.noon Sample.noon
       [Sample.point 5 "2020-01-01"] P1W initialView).1
  = [Sample.point 5 "2020-01-01"]
  ∧ Array_filter (inPeriod Sample.engine (Sample.noon - 7 * Sample.msPerDay))
      [Sample.point 5 "2020-01-01"] = Normal [].
Proof. by vm_compute. Qed.

(** C1: the window ALL hands the series to the chart as it is, whatever
    its length: with a display limit of 2 and three points the chart
    receives the three points, where the down-sampler returns the first and
    the last.  The other windows pass through the down-sampler
    ([filterDataByPeriod_window]). *)
Theorem C1_ALL_window_skips_downsampling :
  (∀ E nowT baseT data s,
     filteredData (filterDataByPeriod E nowT baseT data ALL s).1 = data ∧
     displayData (filterDataByPeriod E nowT baseT data ALL s).1 = data) ∧
  let s' :=
    (filterDataByPeriod Sample.engine Sample.noon Sample.noon
       Sample.threeDays ALL (Sample.view 2)).1 in
  (dataPointLimit s' < N.of_nat (length (filteredData s')))%N ∧
  chartData s' = Sample.threeDays ∧
  optimizeDataForDisplay (dataPointLimit s') (filteredData s')
  = [Sample.point 10 "2024-03-13"; Sample.point 12 "2024-03-15"].
Proof.
  split.
  - intros E nowT baseT data s. by rewrite filterDataByPeriod_ALL.
  - by vm_compute.
Qed.

(** ** Zoom *)

Lemma floorMul_quarter n : floorMul n (1 # 4) = (n `div` 4)%Z.
Proof. unfold floorMul. simpl. by rewrite Z.mul_1_r. Qed.

Lemma floorMul_three_quarters n : floorMul n (3 # 4) = ((n * 3) `div` 4)%Z.
Proof. done. Qed.

Lemma floorMul_two n : floorMul n 2 = (n * 2)%Z.
Proof. unfold floorMul. simpl. by rewrite Z.div_1_r. Qed.

Lemma floorHalf_div n : floorHalf n = (n `div` 2)%Z.
Proof. unfold floorHalf. simpl. by rewrite Z.mul_1_r. Qed.

(** C10: for a non-empty filtered series of length [n] and a view with no
    zoom or with a zoom range within [0, n - 1], zoom-in and zoom-out leave
    no zoom or a range [start, end] with [0 ≤ start ≤ end ≤ n - 1]; neither
    touches the filtered series. *)
Theorem C10_zoom_stays_within_series (s : ViewState) :
  filteredData s ≠ [] →
  zoomWithin (length (filteredData s)) (zoomDomain s) →
  zoomWithin (length (filteredData s)) (zoomDomain (handleZoomIn s)) ∧
  zoomWithin (length (filteredData s)) (zoomDomain (handleZoomOut s)) ∧
  filteredData (handleZoomIn s) = filteredData s ∧
  filteredData (handleZoomOut s) = filteredData s.
Proof.
  intros Hne Hin. unfold handleZoomIn, handleZoomOut.
  destruct (filteredData s) as [|item rest] eqn:Hdata; [done|].
  set (n := Z.of_nat (length (item :: rest))).
  assert (1 ≤ n)%Z by (subst n; simpl; lia).
  destruct (zoomDomain s) as [[[start end_] y0]|] eqn:Hzoom; simpl in *.
  - rewrite floorMul_three_quarters, floorMul_two, !floorHalf_div.
    fold n in Hin |- *.
    pose proof (Z.div_pos (start + end_) 2).
    assert ((start + end_) `div` 2 ≤ n - 1)%Z
      by (apply Z.div_le_upper_bound; lia).
    assert (0 ≤ (Z.max 10 (((end_ - start) * 3) `div` 4)) `div` 2)%Z
      by (apply Z.div_pos; lia).
    assert (0 ≤ (Z.min n ((end_ - start) * 2)) `div` 2)%Z
      by (apply Z.div_pos; lia).
    split_and!; [lia | lia | lia | | done | ].
    + case_decide; simpl; [done | fold n; lia].
    + case_decide; simpl; done.
  - rewrite floorMul_quarter, floorMul_three_quarters. fold n.
    pose proof (Z.div_pos n 4).
    assert (n `div` 4 ≤ (n * 3) `div` 4)%Z
      by (apply Z.div_le_mono; lia).
    assert ((n * 3) `div` 4 ≤ n - 1)%Z.
    { assert ((n * 3) `div` 4 < n)%Z; [|lia].
      apply Z.div_lt_upper_bound; lia. }
    split_and!; try done; try lia. by rewrite Hzoom.
Qed.

Lemma C10_witness :
  let s := Sample.loaded 1000 (Sample.series 40)
             (Some {| x := (10, 30)%Z; y := (0, 0)%Z |}) in
  filteredData s ≠ [] ∧
  zoomWithin (length (filteredData s)) (zoomDomain s) ∧
  zoomWithin (length (filteredData s)) (zoomDomain (handleZoomIn s)) ∧
  zoomWithin (length (filteredData s)) (zoomDomain (handleZoomOut s)) ∧
  filteredData (handleZoomIn s) = filteredData s ∧
  filteredData (handleZoomOut s) = filteredData s.
Proof.
  intros s.
  assert (filteredData s ≠ []) as Hne by done.
  assert (zoomWithin (length (filteredData s)) (zoomDomain s)) as Hin
    by (vm_compute; intuition discriminate).
  split; [exact Hne|]. split; [exact Hin|].
  exact (C10_zoom_stays_within_series s Hne Hin).
Defined.

(** Forty points zoomed to [10, 30]: zoom-in gives [13, 27]; zoom-out
    gives a span that reaches both margins of five points and clears the
    zoom; zoom-in on the full view gives the middle half. *)
Example zoom_run :
  zoomDomain (handleZoomIn
                (Sample.loaded 1000 (Sample.series 40)
                   (Some {| x := (10, 30)%Z; y := (0, 0)%Z |})))
  = Some {| x := (13, 27)%Z; y := (0, 0)%Z |} ∧
  zoomDomain (handleZoomOut
                (Sample.loaded 1000 (Sample.series 40)
                   (Some {| x := (10, 30)%Z; y := (0, 0)%Z |})))
  = None ∧
  zoomDomain (handleZoomIn (Sample.loaded 1000 (Sample.series 40) None))
  = Some {| x := (10, 30)%Z; y := (0, 0)%Z |}.
Proof. by vm_compute. Qed.

(** ** The chart data under zoom *)

Lemma Array_slice_inside {A} (xs : list A) (start end_ : Z) :
  (0 ≤ start)%Z → (start ≤ end_)%Z → (end_ ≤ Z.of_nat (length xs))%Z →
  Array_slice xs start end_
  = take (Z.to_nat (end_ - start)) (drop (Z.to_nat start) xs).
Proof.
  intros H0 H1 H2. unfold Array_slice.
  rewrite !(proj2 (Z.ltb_ge _ 0)) by lia.
  rewrite !Z.min_l by lia. by rewrite Z.max_l by lia.
Qed.

(** C5: with a zoom range [startIndex, endIndex] into the filtered series
    whose span is below the display limit, the chart receives every point
    of the filtered series from [startIndex] to [endIndex], in order and
    with no down-sampling: [endIndex - startIndex + 1] points. *)
Theorem C5_zoom_shows_every_point_of_the_span (s : ViewState)
  (zoom : ZoomDomain) (startIndex endIndex : Z) :
  zoomDomain s = Some zoom →
  x zoom = (startIndex, endIndex) →
  (0 ≤ startIndex)%Z → (startIndex ≤ endIndex)%Z →
  (endIndex < Z.of_nat (length (filteredData s)))%Z →
  (endIndex - startIndex < Z.of_N (dataPointLimit s))%Z →
  Z.of_nat (length (chartData s)) = (endIndex - startIndex + 1)%Z ∧
  ∀ i : nat,
    i < length (chartData s) →
    chartData s !! i = filteredData s !! (Z.to_nat startIndex + i).
Proof.
  intros Hzoom Hx H0 Hle Hend Hspan.
  assert (chartData s
          = take (Z.to_nat (endIndex - startIndex + 1))
              (drop (Z.to_nat startIndex) (filteredData s))) as ->.
  { unfold chartData. rewrite Hzoom, Hx. simpl.
    destruct (filteredData s) as [|item rest] eqn:Hdata; [simpl in Hend; lia|].
    rewrite decide_True by done.
    rewrite Array_slice_inside by lia. f_equal. lia. }
  rewrite length_take, length_drop. split; [lia|].
  intros i Hi. rewrite lookup_take_lt by lia. by rewrite lookup_drop.
Qed.

(** The scenario of the claim: 500 filtered points, a zoom over the
    indices 400 to 420 and a display limit of 1000 give 21 points. *)
Lemma C5_witness :
  let s := Sample.loaded 1000 (Sample.series 500)
             (Some {| x := (400, 420)%Z; y := (0, 0)%Z |}) in
  zoomDomain s = Some {| x := (400, 420)%Z; y := (0, 0)%Z |} ∧
  (0 ≤ 400)%Z ∧ (400 ≤ 420)%Z ∧
  (420 < Z.of_nat (length (filteredData s)))%Z ∧
  (420 - 400 < Z.of_N (dataPointLimit s))%Z ∧
  Z.of_nat (length (chartData s)) = 21%Z ∧
  ∀ i : nat,
    i < length (chartData s) →
    chartData s !! i = filteredData s !! (Z.to_nat 400 + i).
Proof.
  intros s.
  assert (zoomDomain s = Some {| x := (400, 420)%Z; y := (0, 0)%Z |})
    as Hzoom by done.
  assert (0 ≤ 400)%Z as H0 by lia.
  assert (400 ≤ 420)%Z as Hle by lia.
  assert (420 < Z.of_nat (length (filteredData s)))%Z as Hend
    by (vm_compute; done).
  assert (420 - 400 < Z.of_N (dataPointLimit s))%Z as Hspan
    by (vm_compute; done).
  split_and!; try done.
  all: apply (C5_zoom_shows_every_point_of_the_span s _ 400 420 Hzoom
                eq_refl H0 Hle Hend Hspan).
Defined.

(** ** The aggregates *)

Lemma min2_Fin a b :
  JS.min2 (Fin a) (Fin b) = Fin (if Qle_bool a b then a else b).
Proof. unfold JS.min2, JS.lt. by destruct (Qle_bool a b). Qed.

Lemma max2_Fin a b :
  JS.max2 (Fin a) (Fin b) = Fin (if Qle_bool b a then a else b).
Proof. unfold JS.max2, JS.lt. by destruct (Qle_bool b a). Qed.

Lemma Qle_bool_false a b : Qle_bool a b = false → (b <= a)%Q.
Proof.
  intros H. destruct (Qlt_le_dec a b) as [Hlt|Hle]; [|done].
  apply Qlt_le_weak, Qle_bool_iff in Hlt. congruence.
Qed.

Lemma foldl_min2_Fin acc (ps : list Q) :
  ∃ lo, foldl JS.min2 (Fin acc) (Fin <$> ps) = Fin lo ∧
        (lo = acc ∨ lo ∈ ps) ∧ (lo <= acc)%Q ∧ ∀ p, p ∈ ps → (lo <= p)%Q.
Proof.
  revert acc. induction ps as [|p ps IH]; intros acc;
    cbn [foldl fmap list_fmap].
  - exists acc. split_and!; [done | by left | apply Qle_refl |].
    intros p Hp. by apply elem_of_nil in Hp.
  - rewrite min2_Fin. destruct (Qle_bool acc p) eqn:Hle.
    + apply Qle_bool_iff in Hle.
      destruct (IH acc) as (lo & -> & Hin & Hacc & Hall). exists lo.
      split_and!; [done | | done |].
      * destruct Hin; [by left | right; by apply elem_of_cons; right].
      * intros q [->|Hq]%elem_of_cons; [by eapply Qle_trans | by apply Hall].
    + apply Qle_bool_false in Hle.
      destruct (IH p) as (lo & -> & Hin & Hacc & Hall). exists lo.
      split_and!; [done | | by eapply Qle_trans |].
      * right. apply elem_of_cons. destruct Hin; [by left | by right].
      * intros q [->|Hq]%elem_of_cons; [done | by apply Hall].
Qed.

Lemma foldl_max2_Fin acc (ps : list Q) :
  ∃ hi, foldl JS.max2 (Fin acc) (Fin <$> ps) = Fin hi ∧
        (hi = acc ∨ hi ∈ ps) ∧ (acc <= hi)%Q ∧ ∀ p, p ∈ ps → (p <= hi)%Q.
Proof.
  revert acc. induction ps as [|p ps IH]; intros acc;
    cbn [foldl fmap list_fmap].
  - exists acc. split_and!; [done | by left | apply Qle_refl |].
    intros p Hp. by apply elem_of_nil in Hp.
  - rewrite max2_Fin. destruct (Qle_bool p acc) eqn:Hle.
    + apply Qle_bool_iff in Hle.
      destruct (IH acc) as (hi & -> & Hin & Hacc & Hall). exists hi.
      split_and!; [done | | done |].
      * destruct Hin; [by left | right; by apply elem_of_cons; right].
      * intros q [->|Hq]%elem_of_cons; [by eapply Qle_trans | by apply Hall].
    + apply Qle_bool_false in Hle.
      destruct (IH p) as (hi & -> & Hin & Hacc & Hall). exists hi.
      split_and!; [done | | by eapply Qle_trans |].
      * right. apply elem_of_cons. destruct Hin; [by left | by right].
      * intros q [->|Hq]%elem_of_cons; [done | by apply Hall].
Qed.

(** [Math.min] and [Math.max] of finite numbers are the least and the
    greatest of them. *)
Lemma Math_min_Fin (ps : list Q) :
  ps ≠ [] →
  ∃ lo, JS.Math_min (Fin <$> ps) = Fin lo ∧ lo ∈ ps ∧
        ∀ p, p ∈ ps → (lo <= p)%Q.
Proof.
  destruct ps as [|p ps]; [done|]. intros _. unfold JS.Math_min. simpl.
  destruct (foldl_min2_Fin p ps) as (lo & Hlo & Hin & Hacc & Hall).
  exists lo. split_and!; [done | |].
  - apply elem_of_cons. destruct Hin; [by left | by right].
  - intros q [->|Hq]%elem_of_cons; [done | by apply Hall].
Qed.

Lemma Math_max_Fin (ps : list Q) :
  ps ≠ [] →
  ∃ hi, JS.Math_max (Fin <$> ps) = Fin hi ∧ hi ∈ ps ∧
        ∀ p, p ∈ ps → (p <= hi)%Q.
Proof.
  destruct ps as [|p ps]; [done|]. intros _. unfold JS.Math_max. simpl.
  destruct (foldl_max2_Fin p ps) as (hi & Hhi & Hin & Hacc & Hall).
  exists hi. split_and!; [done | |].
  - apply elem_of_cons. destruct Hin; [by left | by right].
  - intros q [->|Hq]%elem_of_cons; [done | by apply Hall].
Qed.

(** The [reduce] of the average adds the prices up. *)
Lemma reduce_sum_Fin (items : list PriceData) (ps : list Q) acc :
  purchase_price <$> items = Fin <$> ps →
  ∃ total,
    foldl (λ sum item, JS.add sum (purchase_price item)) (Fin acc) items
    = Fin total ∧ (total == acc + Qsum ps)%Q.
Proof.
  revert ps acc. induction items as [|item items IH]; intros [|p ps] acc;
    simpl; try done.
  - intros _. exists acc. split; [done|]. unfold Qsum. simpl. ring.
  - intros [= Hp Hrest]. rewrite Hp. simpl.
    destruct (IH ps (acc + p)%Q Hrest) as (total & -> & Htotal).
    exists total. split; [done|]. rewrite Htotal. unfold Qsum. simpl. ring.
Qed.

Lemma Qeq_bool_false_neq a b : Qeq_bool a b = false → ¬ (a == b)%Q.
Proof. intros H Heq. apply Qeq_bool_iff in Heq. congruence. Qed.

Lemma Qeq_bool_true_eq a b : Qeq_bool a b = true → (a == b)%Q.
Proof. apply Qeq_bool_iff. Qed.

(** C8: the aggregates are computed from the filtered series and do not
    depend on the zoom.  For a non-empty filtered series of finite prices:
    the displayed minimum is 0.98 times the least price, the displayed
    maximum 1.02 times the greatest, the average is the arithmetic mean,
    and the volatility, shown when the average is not zero, is
    (max - min) / avg * 100 on the buffered maximum and minimum. *)
Theorem C8_aggregates_of_the_filtered_series (s : ViewState)
  (prices : list Q) :
  purchase_price <$> filteredData s = Fin <$> prices →
  prices ≠ [] →
  ∃ lo hi avg : Q,
    (lo ∈ prices ∧ ∀ p, p ∈ prices → (lo <= p)%Q) ∧
    (hi ∈ prices ∧ ∀ p, p ∈ prices → (p <= hi)%Q) ∧
    minPrice (aggregates s) = Fin (lo * (49 # 50)) ∧
    maxPrice (aggregates s) = Fin (hi * (51 # 50)) ∧
    avgPrice (aggregates s) = Fin avg ∧ (avg == mean prices)%Q ∧
    (¬ (avg == 0)%Q →
     ∃ vol, volatility (aggregates s) = Some (Fin vol) ∧
            (vol == (hi * (51 # 50) - lo * (49 # 50)) / mean prices * 100)%Q) ∧
    ((avg == 0)%Q → volatility (aggregates s) = None) ∧
    (∀ zoom, aggregates (setZoomDomain zoom s) = aggregates s).
Proof.
  intros Hprices Hne.
  destruct (Math_min_Fin prices Hne) as (lo & Hlo & Hlo_in & Hlo_le).
  destruct (Math_max_Fin prices Hne) as (hi & Hhi & Hhi_in & Hhi_le).
  destruct (reduce_sum_Fin (filteredData s) prices 0%Q Hprices)
    as (total & Htotal & Hsum).
  assert (length (filteredData s) = length prices) as Hlen.
  { rewrite <- (length_fmap purchase_price), Hprices. apply length_fmap. }
  assert (0 < length prices) as Hpos by (destruct prices; [done | simpl; lia]).
  set (n := inject_Z (Z.of_nat (length prices))).
  assert (¬ (n == 0)%Q) as Hn.
  { unfold n, Qeq. simpl. lia. }
  assert (aggregates s
          = {| minPrice := Fin (lo * (49 # 50));
               maxPrice := Fin (hi * (51 # 50));
               avgPrice := Fin (total / n) |}) as Hagg.
  { unfold aggregates. destruct (filteredData s) as [|item rest] eqn:Hdata.
    { simpl in Hlen. lia. }
    rewrite Hprices, Hlo, Hhi. unfold JS.zero. rewrite Htotal, Hlen.
    unfold JS.ofNat, JS.ofZ. fold n. cbn [JS.mul JS.div].
    destruct (Qeq_bool n 0) eqn:Hz; [|done].
    by apply Qeq_bool_true_eq in Hz. }
  exists lo, hi, (total / n)%Q. rewrite Hagg. simpl.
  assert (total / n == mean prices)%Q as Hmean.
  { unfold mean. fold n. rewrite Hsum. field. done. }
  split_and!; try done.
  - intros Hnz. unfold volatility.
    cbn [avgPrice maxPrice minPrice JS.truthy].
    destruct (Qeq_bool (total / n) 0) eqn:Hz.
    { by apply Qeq_bool_true_eq in Hz. }
    cbn [negb JS.sub JS.neg JS.add JS.div]. rewrite Hz. cbn [JS.mul].
    eexists. split; [done|].
    rewrite <- Hmean. unfold Qminus. reflexivity.
  - intros Hz. unfold volatility. cbn [avgPrice JS.truthy].
    apply Qeq_bool_iff in Hz. by rewrite Hz.
Qed.

Lemma C8_witness :
  let s := Sample.loaded 1000 Sample.threeDays
             (Some {| x := (1, 2)%Z; y := (0, 0)%Z |}) in
  purchase_price <$> filteredData s = Fin <$> [10; 11; 12]%Q ∧
  [10; 11; 12]%Q ≠ [] ∧
  ∃ lo hi avg : Q,
    (lo ∈ [10; 11; 12]%Q ∧ ∀ p, p ∈ [10; 11; 12]%Q → (lo <= p)%Q) ∧
    (hi ∈ [10; 11; 12]%Q ∧ ∀ p, p ∈ [10; 11; 12]%Q → (p <= hi)%Q) ∧
    minPrice (aggregates s) = Fin (lo * (49 # 50)) ∧
    maxPrice (aggregates s) = Fin (hi * (51 # 50)) ∧
    avgPrice (aggregates s) = Fin avg ∧ (avg == mean [10; 11; 12])%Q ∧
    (¬ (avg == 0)%Q →
     ∃ vol, volatility (aggregates s) = Some (Fin vol) ∧
            (vol == (hi * (51 # 50) - lo * (49 # 50)) / mean [10; 11; 12]
                    * 100)%Q) ∧
    ((avg == 0)%Q → volatility (aggregates s) = None) ∧
    (∀ zoom, aggregates (setZoomDomain zoom s) = aggregates s).
Proof.
  intros s.
  assert (purchase_price <$> filteredData s = Fin <$> [10; 11; 12]%Q)
    as Hprices by reflexivity.
  assert ([10; 11; 12]%Q ≠ []) as Hne by done.
  split; [exact Hprices|]. split; [exact Hne|].
  exact (C8_aggregates_of_the_filtered_series s [10; 11; 12]%Q Hprices Hne).
Defined.

(** Prices 10, 11, 12: the range shown is 9.80 to 12.24, the average 11,
    the volatility 22.18 %. *)
Example aggregates_run :
  let a := aggregates (Sample.loaded 1000 Sample.threeDays None) in
  JS.round2 (minPrice a) = Fin (980 # 100) ∧
  JS.round2 (maxPrice a) = Fin (1224 # 100) ∧
  JS.round2 (avgPrice a) = Fin (1100 # 100) ∧
  volatilityShown a = Fin (2218 # 100).
Proof. by vm_compute. Qed.

(** ** The synthetic series *)

Section MockFacts.
Context (E : Engine).

Lemma mockLoop_length name todayT calls i :
  length (mockLoop E name todayT calls i) = S i.
Proof.
  revert calls. induction i as [|i IH]; intros calls; [done|].
  simpl. by rewrite IH.
Qed.

(** The generator completes, with 366 points, and its statistics are
    those of [mockStats] on the series it returns. *)
Lemma generateMockData_total todayT calls name :
  ∃ mock, generateMockData E todayT calls name = Normal mock ∧
          length (data mock) = 366 ∧
          mockStats (data mock) = Normal (stats mock).
Proof.
  unfold generateMockData.
  assert (length (mockLoop E name todayT calls 365) = 366) as Hlen
    by apply mockLoop_length.
  set (series := mockLoop E name todayT calls 365) in *. clearbody series.
  destruct (mockStats series) as [st|e] eqn:Hst.
  - exists {| data := series; stats := st |}. by split_and!.
  - exfalso. unfold mockStats in Hst.
    destruct (last series) eqn:Hlast; [done|].
    apply last_None in Hlast. subst series. discriminate Hlen.
Qed.

(** The statistics of a series of 366 points: the last price, and its
    changes against the points at the indices 364, 359, 336 and 0. *)
Lemma mockStats_year (series : list PriceData) st :
  length series = 366 → mockStats series = Normal st →
  ∃ current day week month year,
    series !! 365 = Some current ∧ series !! 364 = Some day ∧
    series !! 359 = Some week ∧ series !! 336 = Some month ∧
    series !! 0 = Some year ∧
    let now := purchase_price current in
    st = {| price := now;
            per_day := changeSince now (JS.or (purchase_price day) now);
            per_week := changeSince now (JS.or (purchase_price week) now);
            per_month := changeSince now (JS.or (purchase_price month) now);
            per_year := changeSince now (JS.or (purchase_price year) now) |}.
Proof.
  intros Hlen. unfold mockStats. rewrite last_lookup, Hlen.
  destruct (lookup_lt_is_Some_2 series 365) as [current Hc]; [lia|].
  destruct (lookup_lt_is_Some_2 series 364) as [day Hd]; [lia|].
  destruct (lookup_lt_is_Some_2 series 359) as [week Hw]; [lia|].
  destruct (lookup_lt_is_Some_2 series 336) as [month Hm]; [lia|].
  destruct (lookup_lt_is_Some_2 series 0) as [year Hy]; [lia|].
  change (Init.Nat.pred 366) with 365. rewrite Hc. intros [= <-].
  exists current, day, week, month, year. split_and!; try done.
  unfold priceBack.
  change (Z.to_nat (Z.of_nat 366 - 2)) with 364.
  change (Z.to_nat (Z.of_nat 366 - 7)) with 359.
  change (Z.to_nat (Z.of_nat 366 - 30)) with 336.
  change (Z.to_nat 0) with 0.
  rewrite !decide_False by done. by rewrite Hd, Hw, Hm, Hy.
Qed.

End MockFacts.

(** ** The fetcher *)

#[local] Arguments generateMockData : simpl never.
#[local] Arguments useMockData : simpl never.
#[local] Arguments filterDataByPeriod : simpl never.

Section FetcherFacts.
Context (E : Engine).

(** On a non-empty series the filter completes and writes a non-empty
    filtered series and a non-empty display series, and nothing else. *)
Lemma filterDataByPeriod_frame nowT baseT series period s :
  series ≠ [] →
  ∃ filtered display,
    filtered ≠ [] ∧ display ≠ [] ∧
    filterDataByPeriod E nowT baseT series period s
    = (setDisplayData display (setFilteredData filtered s), Normal ()).
Proof.
  intros Hne.
  destruct (cutoffDate E nowT baseT period) as [cutoff|] eqn:Hcut.
  - rewrite (filterDataByPeriod_window E _ _ _ _ _ _ Hne Hcut).
    set (filtered := filter _ series).
    assert ((if decide (0 < length filtered) then filtered else series) ≠ []).
    { case_decide as Hlen; [|done]. intros Heq. rewrite Heq in Hlen.
      simpl in Hlen. lia. }
    eexists _, _. split_and!; [done | | done].
    by apply optimizeDataForDisplay_nonempty.
  - apply cutoffDate_None in Hcut as ->. rewrite filterDataByPeriod_ALL.
    by eexists _, _.
Qed.

(** The fallback: the synthetic series becomes the price data, its
    statistics the statistics; the filtered and the display series are
    written, non-empty; nothing else changes. *)
Lemma useMockData_run amb itemName period s :
  ∃ mock filtered display,
    generateMockData E (mockToday amb) (randomCalls amb) itemName
    = Normal mock ∧
    length (data mock) = 366 ∧
    mockStats (data mock) = Normal (stats mock) ∧
    filtered ≠ [] ∧ display ≠ [] ∧
    useMockData E amb itemName period s
    = (setStats (Some (stats mock))
         (setDisplayData display
            (setFilteredData filtered (setPriceData (data mock) s))),
       Normal ()).
Proof.
  destruct (generateMockData_total E (mockToday amb) (randomCalls amb) itemName)
    as (mock & Hmock & Hlen & Hstats).
  assert (data mock ≠ []) as Hne by (intros Heq; by rewrite Heq in Hlen).
  destruct (filterDataByPeriod_frame (filterNow amb) (filterBase amb)
              (data mock) period (setPriceData (data mock) s) Hne)
    as (filtered & display & Hf & Hd & Hrun).
  exists mock, filtered, display. split_and!; try done.
  unfold useMockData. rewrite Hmock. run_act. by rewrite Hrun.
Qed.

(** C6: an upstream response whose [data] is an array of length 0 is not
    an error.  The fetch completes; [showNoDataMessage] is true and no
    error is set; the price data is the synthetic series of 366 points, the
    statistics are those of the synthetic series, and the filtered and the
    display series are not empty. *)
Theorem C6_empty_data_is_a_no_data_signal (amb : Ambient) (itemName : string)
  (period : TimePeriod) (isRefreshing showToast : bool)
  (rawStats : option RawStats) (s : ViewState) :
  ∃ s' mock,
    fetchItemStats E amb itemName period isRefreshing showToast
      (HttpOk (Parsed (Structure [] rawStats))) s = (s', Normal ()) ∧
    showNoDataMessage s' = true ∧
    error s' = None ∧
    generateMockData E (mockToday amb) (randomCalls amb) itemName
    = Normal mock ∧
    priceData s' = data mock ∧ length (priceData s') = 366 ∧
    viewStats s' = Some (stats mock) ∧
    filteredData s' ≠ [] ∧ displayData s' ≠ [] ∧
    isLoading s' = false.
Proof.
  set (s0 := setRetryCount 0
               (setShowNoDataMessage false
                  (setError None (setIsLoading true s)))).
  destruct (useMockData_run amb itemName period (setShowNoDataMessage true s0))
    as (mock & filtered & display & Hmock & Hlen & _ & Hf & Hd & Hrun).
  destruct showToast.
  all: eexists _, mock; split_and!;
    [ unfold fetchItemStats; run_act; fold s0; rewrite Hrun; run_act;
      reflexivity
    | done .. ].
Qed.

(** C7 (amended): when the fetch is rejected (no upstream reachable), the
    fetch still completes with the synthetic series of exactly 366 points;
    it reports the failure through [error] and leaves [showNoDataMessage]
    false; the statistics are the last synthetic price and its changes
    against the synthetic points one, six, twenty-nine and 365 places
    before it. *)
Theorem C7_rejected_fetch_falls_back_with_error (amb : Ambient)
  (itemName : string) (period : TimePeriod) (isRefreshing showToast : bool)
  (message : string) (s : ViewState) :
  ∃ s' current day week month year,
    fetchItemStats E amb itemName period isRefreshing showToast
      (FetchRejected message) s = (s', Normal ()) ∧
    length (priceData s') = 366 ∧
    showNoDataMessage s' = false ∧
    error s' = Some (if decide (message = "")
                     then "Failed to load item statistics" else message) ∧
    filteredData s' ≠ [] ∧ displayData s' ≠ [] ∧
    priceData s' !! 365 = Some current ∧ priceData s' !! 364 = Some day ∧
    priceData s' !! 359 = Some week ∧ priceData s' !! 336 = Some month ∧
    priceData s' !! 0 = Some year ∧
    let now := purchase_price current in
    viewStats s'
    = Some {| price := now;
              per_day := changeSince now (JS.or (purchase_price day) now);
              per_week := changeSince now (JS.or (purchase_price week) now);
              per_month := changeSince now (JS.or (purchase_price month) now);
              per_year := changeSince now (JS.or (purchase_price year) now) |}.
Proof.
  set (errorMessage := if decide (message = "")
                       then "Failed to load item statistics" else message).
  set (s0 := setError (Some errorMessage)
               (setRetryCount 0
                  (setShowNoDataMessage false
                     (setError None (setIsLoading true s))))).
  set (s1 := if showToast
             then toast {| title := "Error"; description := errorMessage;
                           variant := Destructive |} s0
             else s0).
  destruct (useMockData_run amb itemName period s1)
    as (mock & filtered & display & Hmock & Hlen & Hstats & Hf & Hd & Hrun).
  destruct (mockStats_year (data mock) (stats mock) Hlen Hstats)
    as (current & day & week & month & year & Hc & Hday & Hw & Hm & Hy & Hst).
  exists (setIsRefreshing false
            (setIsLoading false
               (setStats (Some (stats mock))
                  (setDisplayData display
                     (setFilteredData filtered
                        (setPriceData (data mock) s1)))))).
  exists current, day, week, month, year. split_and!.
  - unfold fetchItemStats. run_act. fold errorMessage s0.
    destruct showToast; run_act; fold s0; subst s1; by rewrite Hrun.
  - done.
  - subst s1. by destruct showToast.
  - subst s1. by destruct showToast.
  - done.
  - done.
  - done.
  - done.
  - done.
  - done.
  - done.
  - simpl. by rewrite Hst.
Qed.

End FetcherFacts.

(** C7 as stated fails on its own scenario: for "Sword of Embers" and a
    rejected fetch the view has the 366 synthetic points, and
    [showNoDataMessage] is false; the failure is in [error]. *)
Lemma C7_counterexample :
  let s' :=
    (fetchItemStats Sample.engine Sample.ambient "Sword of Embers" P1M
       false true (FetchRejected "Failed to fetch") initialView).1 in
  length (priceData s') = 366 ∧
  showNoDataMessage s' = false ∧
  error s' = Some "Failed to fetch".
Proof. by vm_compute. Qed.

(** The first and the last synthetic point for "Sword of Embers" on the
    sample host, whose base price is 410. *)
Example mock_run :
  basePrice "Sword of Embers" = 410 ∧
  ∃ mock,
    generateMockData Sample.engine Sample.noon 0 "Sword of Embers"
    = Normal mock ∧
    (purchase_price <$> data mock) !! 0 = Some (Fin (46500 # 100)) ∧
    (Date <$> data mock) !! 0 = Some "2023-03-16 00:06:12" ∧
    (purchase_price <$> data mock) !! 365 = Some (Fin (41500 # 100)) ∧
    (timestamp <$> data mock) !! 365 = Some (Some (JS.ofZ Sample.noon)).
Proof. split; [done|]. eexists. by vm_compute. Qed.

(** ** Normalization of the raw points *)

Lemma sort_insert_perm {A} (cmp : A → A → jsnum) (item : A) (sorted : list A) :
  sort_insert cmp item sorted ≡ₚ item :: sorted.
Proof.
  induction sorted as [|y rest IH]; [reflexivity|]. cbn [sort_insert].
  destruct (JS.lt JS.zero (cmp item y)); [|reflexivity].
  rewrite IH. apply Permutation_swap.
Qed.

(** The sort rearranges, and neither drops nor adds. *)
Lemma Array_sort_perm {A} (cmp : A → A → jsnum) (xs : list A) :
  Array_sort cmp xs ≡ₚ xs.
Proof.
  induction xs as [|item xs IH]; [reflexivity|].
  unfold Array_sort in *. simpl. rewrite sort_insert_perm. by rewrite IH.
Qed.

Section NormalizationFacts.
Context (E : Engine).

(** [new Date] does not throw, so the [catch] branch of the callback, with
    its label ["Invalid date"] and its timestamp 0, is never taken. *)
Lemma normalizeItem_total item : normalizeItem E item = Normal (normalized E item).
Proof. done. Qed.

Lemma processData_total items :
  processData E items
  = Normal (Array_sort byTimestamp
              (filter (λ item, negb (JS.isNaN (purchase_price item)) = true)
                 (normalized E <$> items))).
Proof.
  unfold processData.
  rewrite (Array_map_total _ (normalized E)) by apply normalizeItem_total.
  cbn [mbind completion_bind].
  rewrite (Array_filter_total _ (λ item, negb (JS.isNaN (purchase_price item))))
    by done.
  done.
Qed.

(** The points of the result are the normalized raw points whose price is
    not NaN. *)
Lemma processData_elem items out p :
  processData E items = Normal out →
  p ∈ out ↔ JS.isNaN (purchase_price p) = false ∧
            ∃ item, item ∈ items ∧ p = normalized E item.
Proof.
  rewrite processData_total. intros [= <-].
  rewrite Array_sort_perm, list_elem_of_filter, list_elem_of_fmap.
  rewrite negb_true_iff.
  split; intros [? (item & ? & ?)]; (split; [done|]); by exists item.
Qed.

(** A raw point whose price fails [isNaN] is dropped: no point of the
    result comes from it. *)
Lemma processData_drops_invalid_price items out item :
  processData E items = Normal out →
  JS.isNaN (purchase_price item) = true →
  normalized E item ∉ out.
Proof.
  intros Hout Hnan [Hvalid _]%(processData_elem _ _ _ Hout).
  simpl in Hvalid. congruence.
Qed.

(** C2: what the code does with a raw point whose date string does not
    parse and whose price is valid.  The point is kept, but its timestamp
    is NaN, not 0, and its labels are the engine's ["Invalid Date"], not
    the sentinel of the [catch] branch; no point of the result with that
    date string carries the timestamp 0. *)
Theorem C2_unparsed_date_gets_NaN_timestamp (items : list PriceData)
  (item : PriceData) :
  item ∈ items →
  Date_parse E (Date item) = None →
  JS.isNaN (purchase_price item) = false →
  ∃ out,
    processData E items = Normal out ∧
    {| purchase_price := purchase_price item;
       Date := Date item;
       formattedDate := Some "Invalid Date";
       formattedTime := Some "Invalid Date";
       formattedDateTime := Some "Invalid Date Invalid Date";
       timestamp := Some NaN |} ∈ out ∧
    ∀ p, p ∈ out → Date p = Date item →
         timestamp p = Some NaN ∧ formattedDate p = Some "Invalid Date".
Proof.
  intros Hin Hparse Hprice. eexists. split; [apply processData_total|].
  split.
  - apply (processData_elem items _ _ (processData_total items)).
    split; [done|]. exists item. split; [done|].
    unfold normalized. by rewrite Hparse.
  - intros p Hp Hdate.
    apply (processData_elem items _ _ (processData_total items)) in Hp
      as [_ (raw & _ & ->)].
    simpl in Hdate. unfold normalized. simpl. by rewrite Hdate, Hparse.
Qed.

End NormalizationFacts.

Lemma C2_witness :
  Sample.point 7 "garbage" ∈ [Sample.point 5 "2024-03-15"; Sample.point 7 "garbage"] ∧
  Date_parse Sample.engine (Date (Sample.point 7 "garbage")) = None ∧
  JS.isNaN (purchase_price (Sample.point 7 "garbage")) = false ∧
  ∃ out,
    processData Sample.engine
      [Sample.point 5 "2024-03-15"; Sample.point 7 "garbage"] = Normal out ∧
    {| purchase_price := Fin 7;
       Date := "garbage";
       formattedDate := Some "Invalid Date";
       formattedTime := Some "Invalid Date";
       formattedDateTime := Some "Invalid Date Invalid Date";
       timestamp := Some NaN |} ∈ out ∧
    ∀ p, p ∈ out → Date p = "garbage" →
         timestamp p = Some NaN ∧ formattedDate p = Some "Invalid Date".
Proof.
  assert (Sample.point 7 "garbage"
          ∈ [Sample.point 5 "2024-03-15"; Sample.point 7 "garbage"]) as Hin
    by (apply elem_of_cons; right; apply elem_of_cons; by left).
  assert (Date_parse Sample.engine (Date (Sample.point 7 "garbage")) = None)
    as Hparse by reflexivity.
  assert (JS.isNaN (purchase_price (Sample.point 7 "garbage")) = false)
    as Hprice by reflexivity.
  split; [exact Hin|]. split; [exact Hparse|]. split; [exact Hprice|].
  exact (C2_unparsed_date_gets_NaN_timestamp Sample.engine _ _
           Hin Hparse Hprice).
Defined.

(** The failing input on the sample host: the point with the date
    ["garbage"] comes out first (its sort key [NaN || 0] is 0), with a NaN
    timestamp; the point without a valid price is gone. *)
Example processData_run :
  processData Sample.engine
    [Sample.point 5 "2024-03-15"; Sample.point 7 "garbage";
     {| purchase_price := NaN; Date := "2024-03-14"; formattedDate := None;
        formattedTime := None; formattedDateTime := None;
        timestamp := None |}]
  = Normal
      [{| purchase_price := Fin 7; Date := "garbage";
          formattedDate := Some "Invalid Date";
          formattedTime := Some "Invalid Date";
          formattedDateTime := Some "Invalid Date Invalid Date";
          timestamp := Some NaN |};
       {| purchase_price := Fin 5; Date := "2024-03-15";
          formattedDate := Some "3/15/2024";
          formattedTime := Some "00:00";
          formattedDateTime := Some "3/15/2024 00:00";
          timestamp := Some (Fin 1710460800000) |}].
Proof. by vm_compute. Qed.

(** ** The [/api/types] route *)

Module RouteFacts.
Import Route.

Lemma NextResponse_json_usable body status :
  usable status = true →
  NextResponse_json body status = inr {| status := status; body := body |}.
Proof.
  unfold usable, NextResponse_json.
  intros [-> Hnull%negb_true_iff]%andb_true_iff. by rewrite Hnull.
Qed.

Lemma NextResponse_json_unusable body status :
  usable status = false → ∃ error, NextResponse_json body status = inl error.
Proof.
  unfold usable, NextResponse_json.
  destruct ((200 <=? status)%Z && (status <=? 599)%Z); simpl.
  - intros ->%negb_false_iff. by eexists.
  - intros _. by eexists.
Qed.

Lemma ok_usable_500 : usable 500 = true ∧ usable 200 = true.
Proof. done. Qed.

Section Envelopes.
Context (JSON_parse : string → option json).

(** C9 (amended): on a non-2xx upstream status or a non-JSON upstream
    body, GET and POST both answer with a JSON object that has an [error]
    message, under the upstream status or under 500.  The object is not
    uniform: POST adds [details] exactly on a non-2xx status; GET has
    [details] only when the non-2xx status cannot be reused for the answer
    (which then is the 500 of the [catch]), and on a non-JSON body it has
    [responseText] instead. *)
Theorem C9_error_envelopes (upstreamStatus : Z) (text : string)
  (request : json) :
  ok upstreamStatus = false ∨ JSON_parse text = None →
  ∃ get post getFields postFields getError postError,
    GET JSON_parse (Responded upstreamStatus (inr text)) = inr get ∧
    POST JSON_parse (inr request) (Responded upstreamStatus (inr text))
    = inr post ∧
    body get = JObject getFields ∧
    body post = JObject postFields ∧
    getFields !! "error" = Some (JString getError) ∧
    postFields !! "error" = Some (JString postError) ∧
    (status get = upstreamStatus ∨ status get = 500%Z) ∧
    (status post = upstreamStatus ∨ status post = 500%Z) ∧
    (is_Some (getFields !! "details")
     ↔ ok upstreamStatus = false ∧ usable upstreamStatus = false) ∧
    (is_Some (postFields !! "details") ↔ ok upstreamStatus = false) ∧
    (ok upstreamStatus = true → is_Some (getFields !! "responseText")).
Proof.
  intros Hcase. unfold GET, POST, GET_try, POST_try.
  destruct (ok upstreamStatus) eqn:Hok; simpl.
  - destruct Hcase as [|Hparse]; [done|]. rewrite Hparse.
    rewrite !NextResponse_json_usable by done.
    eexists _, _, _, _, _, _. split_and!; envelope.
  - destruct (usable upstreamStatus) eqn:Huse.
    + rewrite !NextResponse_json_usable by done.
      eexists _, _, _, _, _, _. split_and!; envelope.
    + destruct (NextResponse_json_unusable
                  (object [("error",
                            JString ("API responded with status: "
                                     +:+ pretty upstreamStatus))])
                  upstreamStatus Huse) as [e1 ->].
      destruct (NextResponse_json_unusable
                  (object [("error",
                            JString ("API Error: " +:+ pretty upstreamStatus));
                           ("details",
                            match JSON_parse text with
                            | Some parsed => parsed
                            | None => object [("message", JString text)]
                            end)])
                  upstreamStatus Huse) as [e2 ->].
      rewrite !NextResponse_json_usable by done.
      eexists _, _, _, _, _, _. split_and!; envelope.
Qed.

End Envelopes.

Lemma C9_witness :
  (ok 404 = false ∨ sampleParse "Not Found" = None) ∧
  ∃ get post getFields postFields getError postError,
    GET sampleParse (Responded 404 (inr "Not Found")) = inr get ∧
    POST sampleParse (inr JNull) (Responded 404 (inr "Not Found"))
    = inr post ∧
    body get = JObject getFields ∧
    body post = JObject postFields ∧
    getFields !! "error" = Some (JString getError) ∧
    postFields !! "error" = Some (JString postError) ∧
    (status get = 404%Z ∨ status get = 500%Z) ∧
    (status post = 404%Z ∨ status post = 500%Z) ∧
    (is_Some (getFields !! "details")
     ↔ ok 404 = false ∧ usable 404 = false) ∧
    (is_Some (postFields !! "details") ↔ ok 404 = false) ∧
    (ok 404 = true → is_Some (getFields !! "responseText")).
Proof.
  assert (ok 404 = false ∨ sampleParse "Not Found" = None) as Hcase
    by (left; reflexivity).
  split; [exact Hcase|].
  exact (C9_error_envelopes sampleParse 404 "Not Found" JNull Hcase).
Defined.

(** C9 as stated fails: the GET answer to an upstream 404 has [error] and
    no [details]; the POST answer to a 200 whose body is not JSON has
    [error] and no [details]. *)
Lemma C9_counterexample :
  ∃ getFields postFields,
    GET (λ _, None) (Responded 404 (inr "Not Found"))
    = inr {| status := 404; body := JObject getFields |} ∧
    getFields !! "error"
    = Some (JString "API responded with status: 404") ∧
    getFields !! "details" = None ∧
    POST (λ _, None) (inr JNull) (Responded 200 (inr "<html>"))
    = inr {| status := 500; body := JObject postFields |} ∧
    postFields !! "details" = None.
Proof. eexists _, _. split_and!; by vm_compute. Qed.

End RouteFacts.

(** * Further properties *)

#[local] Arguments processData : simpl never.

(** ** What the down-sampler returns *)

Section SamplingMore.
Context {A : Type}.
Implicit Types (data : list A) (limit : N).

(** The rate times the limit covers the series. *)
Lemma samplingRate_covers len limit rate :
  samplingRate len limit = Some rate → len ≤ rate * N.to_nat limit.
Proof.
  destruct limit as [|p]; [done|]. rewrite samplingRate_spec. intros [= <-].
  pose proof (Z.div_mod (- Z.of_nat len) (Z.pos p)) as Hdiv.
  pose proof (Z.mod_pos_bound (- Z.of_nat len) (Z.pos p)) as Hmod.
  set (q := ((- Z.of_nat len) `div` Z.pos p)%Z) in *.
  set (r := ((- Z.of_nat len) `mod` Z.pos p)%Z) in *.
  assert (q ≤ 0)%Z by nia.
  apply Nat2Z.inj_le. rewrite Nat2Z.inj_mul, Z2Nat.id by lia.
  rewrite positive_N_nat, positive_nat_Z. nia.
Qed.

Lemma sampleMiddle_sublist data rate fuel i :
  1 ≤ rate →
  sampleMiddle fuel data rate i
  `sublist_of` drop i (take (length data - rate) data).
Proof.
  intros Hrate. revert i. induction fuel as [|fuel IH]; intros i; simpl.
  - apply sublist_nil_l.
  - case_decide as Hlt; [|apply sublist_nil_l].
    destruct (lookup_lt_is_Some_2 data i) as [item Hitem]; [lia|].
    rewrite Hitem. simpl.
    assert (take (length data - rate) data !! i = Some item) as Htake
      by (by rewrite lookup_take_lt).
    rewrite (drop_S _ _ _ Htake). apply sublist_skip.
    etrans; [apply IH|].
    replace (i + rate) with (S i + (rate - 1)) by lia.
    rewrite <- drop_drop. apply sublist_drop.
Qed.

(** The number of points the loop takes. *)
Lemma sampleMiddle_length data rate fuel i :
  1 ≤ rate →
  length (sampleMiddle fuel data rate i) = 0 ∨
  ∃ m, length (sampleMiddle fuel data rate i) = S m ∧
       i + m * rate < length data - rate.
Proof.
  intros Hrate. revert i. induction fuel as [|fuel IH]; intros i; simpl.
  - by left.
  - case_decide as Hlt; [|by left]. right.
    destruct (lookup_lt_is_Some_2 data i) as [item Hitem]; [lia|].
    rewrite Hitem. simpl.
    destruct (IH (i + rate)) as [->|(m & -> & Hm)].
    + exists 0. split; [done|]. lia.
    + exists (S m). split; [done|]. simpl. lia.
Qed.

(** Above the limit, with the rate [rate]: the first point, the points
    the loop takes, the last point. *)
Lemma optimizeDataForDisplay_unfold limit data rate :
  (limit < N.of_nat (length data))%N →
  samplingRate (length data) limit = Some rate →
  ∃ first last_,
    data !! 0 = Some first ∧ data !! (length data - 1) = Some last_ ∧
    optimizeDataForDisplay limit data
    = first :: sampleMiddle (length data) data rate rate ++ [last_].
Proof.
  intros Hlt Hrate.
  destruct data as [|first rest] eqn:Hdata; [simpl in Hlt; lia|].
  rewrite <- Hdata in *.
  destruct (last data) as [last_|] eqn:Hlast.
  2:{ apply last_None in Hlast. congruence. }
  exists first, last_. split_and!.
  - by rewrite Hdata.
  - rewrite last_lookup in Hlast. by rewrite Nat.sub_1_r.
  - unfold optimizeDataForDisplay. rewrite Hdata at 1.
    rewrite decide_False by lia. by rewrite Hrate, Hlast.
Qed.

(** With a limit of at least 1 the output is a subsequence of the series:
    points of the series, each at most once, in their order. *)
Lemma optimizeDataForDisplay_sublist limit data :
  (1 ≤ limit)%N →
  optimizeDataForDisplay limit data `sublist_of` data.
Proof.
  intros Hlimit.
  destruct (decide (N.of_nat (length data) ≤ limit)%N) as [Hle|Hgt].
  { by rewrite optimizeDataForDisplay_small. }
  destruct (samplingRate (length data) limit) as [rate|] eqn:Hrate.
  2:{ destruct limit; [lia | done]. }
  assert (2 ≤ rate) by (eapply samplingRate_ge; [|done]; lia).
  destruct (optimizeDataForDisplay_unfold limit data rate)
    as (first & last_ & H0 & Hn & ->); [lia | done |].
  set (len := length data) in *.
  assert (2 ≤ len) by lia.
  assert (data = first :: drop 1 (take (len - 1) data) ++ [last_]) as Hsplit.
  { rewrite <- (drop_0 data) at 1. rewrite (drop_S _ _ _ H0). f_equal.
    rewrite <- (drop_take_drop data 1 (len - 1)) by lia. f_equal.
    rewrite (drop_S _ _ _ Hn).
    by rewrite drop_ge by (fold len; lia). }
  rewrite Hsplit at 2. apply sublist_skip, sublist_app; [|done].
  etrans; [apply sampleMiddle_sublist; lia|]. fold len.
  replace rate with (1 + (rate - 1)) at 1 by lia. rewrite <- drop_drop.
  etrans; [apply sublist_drop|].
  replace (take (len - rate) data)
    with (take (len - rate) (take (len - 1) data))
    by (rewrite take_take; f_equal; lia).
  destruct (len - rate) as [|k]; [rewrite take_0; apply sublist_nil_l|].
  change (S k) with (1 + k). rewrite <- take_drop_commute.
  apply sublist_take.
Qed.

(** Above a limit of at least 2 the output has at most [limit] points. *)
Lemma optimizeDataForDisplay_length_above limit data :
  (2 ≤ limit)%N → (limit < N.of_nat (length data))%N →
  (N.of_nat (length (optimizeDataForDisplay limit data)) ≤ limit)%N.
Proof.
  intros Hlimit Hlt.
  destruct (samplingRate (length data) limit) as [rate|] eqn:Hrate.
  2:{ destruct limit; [lia | done]. }
  assert (2 ≤ rate) by (eapply samplingRate_ge; done).
  pose proof (samplingRate_covers _ _ _ Hrate) as Hcover.
  destruct (optimizeDataForDisplay_unfold limit data rate Hlt Hrate)
    as (first & last_ & _ & _ & ->).
  simpl. rewrite length_app. simpl.
  destruct (sampleMiddle_length data rate (length data) rate) as [->|(m & -> & Hm)];
    [lia | lia |].
  assert (S (S m) * rate < rate * N.to_nat limit) as Hmul by (simpl; lia).
  assert (S (S m) < N.to_nat limit) by nia. lia.
Qed.

(** X1: the display limit is respected from 2 on: whatever the series, the
    output has at most [limit] points. *)
Theorem optimizeDataForDisplay_within_limit limit data :
  (2 ≤ limit)%N →
  (N.of_nat (length (optimizeDataForDisplay limit data)) ≤ limit)%N.
Proof.
  intros Hlimit.
  destruct (decide (N.of_nat (length data) ≤ limit)%N) as [Hle|Hgt].
  - by rewrite optimizeDataForDisplay_small.
  - apply optimizeDataForDisplay_length_above; lia.
Qed.

(** X2: below 2 the limit is not respected: a series longer than a limit of
    0 or 1 comes out as its first and its last point, a single point twice.
    *)
Theorem optimizeDataForDisplay_tiny_limit limit data :
  (limit ≤ 1)%N → (limit < N.of_nat (length data))%N →
  ∃ first last_,
    data !! 0 = Some first ∧ data !! (length data - 1) = Some last_ ∧
    optimizeDataForDisplay limit data = [first; last_].
Proof.
  intros Hlimit Hlt.
  destruct (optimizeDataForDisplay_large limit data Hlt)
    as (first & last_ & middle & H0 & Hn & -> & Hmiddle).
  exists first, last_. split_and!; [done..|].
  destruct middle as [|item middle]; [done|]. exfalso.
  destruct (Hmiddle item) as (rate & k & Hrate & Hk & _ & Hb);
    [by apply elem_of_cons; left|].
  pose proof (samplingRate_covers _ _ _ Hrate).
  assert (N.to_nat limit ≤ 1) by lia. nia.
Qed.

End SamplingMore.

Lemma optimizeDataForDisplay_within_limit_witness :
  (2 ≤ 3)%N ∧
  (N.of_nat (length (optimizeDataForDisplay 3 [10; 20; 30; 40; 50; 60; 70]))
   ≤ 3)%N.
Proof.
  assert (2 ≤ 3)%N as Hlimit by lia.
  split; [exact Hlimit|].
  exact (optimizeDataForDisplay_within_limit 3%N [10; 20; 30; 40; 50; 60; 70]
           Hlimit).
Defined.

Lemma optimizeDataForDisplay_tiny_limit_witness :
  (1 ≤ 1)%N ∧ (1 < N.of_nat (length [10; 20; 30]))%N ∧
  ∃ first last_ : nat,
    [10; 20; 30] !! 0 = Some first ∧
    [10; 20; 30] !! (length [10; 20; 30] - 1) = Some last_ ∧
    optimizeDataForDisplay 1 [10; 20; 30] = [first; last_].
Proof.
  assert (1 ≤ 1)%N as Hlimit by lia.
  assert (1 < N.of_nat (length [10; 20; 30]))%N as Hlt by (simpl; lia).
  split; [exact Hlimit|]. split; [exact Hlt|].
  exact (optimizeDataForDisplay_tiny_limit 1%N [10; 20; 30] Hlimit Hlt).
Defined.


(** ** How the zoom handlers move the range *)

Ltac zoom_arith :=
  rewrite ?floorMul_quarter, ?floorMul_three_quarters, ?floorMul_two,
    ?floorHalf_div;
  Z.div_mod_to_equations; lia.

(** X3: zoom-in on a range of span at least 10 stays inside the range: the
    new range is nested in the old one, its span is at least 10 and at most
    the old span, and smaller from a span of 11 on. *)
Theorem handleZoomIn_narrows (s : ViewState) (zoom : ZoomDomain)
  (start end_ : Z) :
  filteredData s ≠ [] →
  zoomDomain s = Some zoom → x zoom = (start, end_) →
  (0 ≤ start)%Z → (end_ < Z.of_nat (length (filteredData s)))%Z →
  (10 ≤ end_ - start)%Z →
  ∃ start' end',
    zoomDomain (handleZoomIn s)
    = Some {| x := (start', end'); y := (0, 0)%Z |} ∧
    (start ≤ start')%Z ∧ (end' ≤ end_)%Z ∧
    (10 ≤ end' - start')%Z ∧ (end' - start' ≤ end_ - start)%Z ∧
    ((11 ≤ end_ - start)%Z → (end' - start' < end_ - start)%Z).
Proof.
  intros Hne Hzoom Hx H0 Hend Hspan. unfold handleZoomIn.
  destruct (filteredData s) as [|item rest] eqn:Hdata; [done|].
  rewrite Hzoom, Hx. cbn [fst snd].
  set (n := Z.of_nat (length (item :: rest))) in *.
  eexists _, _. split; [done|]. cbn [zoomDomain setZoomDomain].
  split_and!; [zoom_arith .. | intros ?; zoom_arith].
Qed.

(** X4: zoom-in on a range of span below 10 does not narrow it: the new
    range contains the old one. *)
Theorem handleZoomIn_widens_small (s : ViewState) (zoom : ZoomDomain)
  (start end_ : Z) :
  filteredData s ≠ [] →
  zoomDomain s = Some zoom → x zoom = (start, end_) →
  (0 ≤ start)%Z → (start ≤ end_)%Z →
  (end_ < Z.of_nat (length (filteredData s)))%Z →
  (end_ - start < 10)%Z →
  ∃ start' end',
    zoomDomain (handleZoomIn s)
    = Some {| x := (start', end'); y := (0, 0)%Z |} ∧
    (start' ≤ start)%Z ∧ (end_ ≤ end')%Z.
Proof.
  intros Hne Hzoom Hx H0 Hle Hend Hspan. unfold handleZoomIn.
  destruct (filteredData s) as [|item rest] eqn:Hdata; [done|].
  rewrite Hzoom, Hx. cbn [fst snd].
  set (n := Z.of_nat (length (item :: rest))) in *.
  eexists _, _. split; [done|]. split; zoom_arith.
Qed.

(** X5: zoom-out never loses a point in view: it clears the zoom, or the new
    range contains the old one. *)
Theorem handleZoomOut_widens (s : ViewState) (zoom : ZoomDomain)
  (start end_ : Z) :
  filteredData s ≠ [] →
  zoomDomain s = Some zoom → x zoom = (start, end_) →
  (0 ≤ start)%Z → (start ≤ end_)%Z →
  (end_ < Z.of_nat (length (filteredData s)))%Z →
  zoomDomain (handleZoomOut s) = None ∨
  ∃ start' end',
    zoomDomain (handleZoomOut s)
    = Some {| x := (start', end'); y := (0, 0)%Z |} ∧
    (start' ≤ start)%Z ∧ (end_ ≤ end')%Z.
Proof.
  intros Hne Hzoom Hx H0 Hle Hend. unfold handleZoomOut.
  destruct (filteredData s) as [|item rest] eqn:Hdata; [done|].
  rewrite Hzoom, Hx. cbn [fst snd x].
  set (n := Z.of_nat (length (item :: rest))) in *.
  case_decide; [by left|]. right.
  eexists _, _. split; [done|]. split; zoom_arith.
Qed.

(** X6: from the full view, zoom-in followed by zoom-out is the full view
    again. *)
Theorem handleZoomOut_handleZoomIn_full (s : ViewState) :
  zoomDomain s = None →
  handleZoomOut (handleZoomIn s) = s.
Proof.
  intros Hzoom. unfold handleZoomIn.
  destruct (filteredData s) as [|item rest] eqn:Hdata.
  { unfold handleZoomOut. by rewrite Hdata. }
  rewrite Hzoom. unfold handleZoomOut.
  cbn [filteredData zoomDomain setZoomDomain]. rewrite Hdata.
  cbn [fst snd x].
  set (n := Z.of_nat (length (item :: rest))) in *.
  assert (1 ≤ n)%Z by (subst n; simpl; lia).
  rewrite decide_True.
  - destruct s. simpl in *. by subst.
  - split; zoom_arith.
Qed.

(** ** The chart data under any zoom *)

Lemma Array_slice_from_zero {A} (xs : list A) (start end_ : Z) :
  (0 ≤ start)%Z → (start ≤ end_)%Z →
  Array_slice xs start end_
  = take (Z.to_nat (Z.min end_ (Z.of_nat (length xs))
                    - Z.min start (Z.of_nat (length xs))))
      (drop (Z.to_nat (Z.min start (Z.of_nat (length xs)))) xs).
Proof.
  intros H0 Hle. unfold Array_slice.
  rewrite !(proj2 (Z.ltb_ge _ 0)) by lia. f_equal. lia.
Qed.

(** The zoom handlers keep a range within the series. *)
Lemma handleZoom_within (s : ViewState) :
  filteredData s ≠ [] →
  zoomWithin (length (filteredData s)) (zoomDomain s) →
  zoomWithin (length (filteredData (handleZoomIn s)))
    (zoomDomain (handleZoomIn s)) ∧
  zoomWithin (length (filteredData (handleZoomOut s)))
    (zoomDomain (handleZoomOut s)).
Proof.
  intros Hne Hin. unfold handleZoomIn, handleZoomOut.
  destruct (filteredData s) as [|item rest] eqn:Hdata; [done|].
  set (n := Z.of_nat (length (item :: rest))).
  assert (1 ≤ n)%Z by (subst n; simpl; lia).
  destruct (zoomDomain s) as [[[start end_] y0]|] eqn:Hzoom;
    cbn [x fst snd zoomWithin] in *.
  - fold n in Hin. split.
    + cbn [zoomDomain filteredData setZoomDomain zoomWithin x fst snd].
      rewrite Hdata. fold n. zoom_arith.
    + case_decide;
        cbn [zoomDomain filteredData setZoomDomain zoomWithin x fst snd];
        [done|]. rewrite Hdata. fold n. zoom_arith.
  - split; [|by rewrite Hzoom, Hdata].
    cbn [zoomDomain filteredData setZoomDomain zoomWithin x fst snd].
    rewrite Hdata. fold n. zoom_arith.
Qed.

Lemma chartData_nonempty (s : ViewState) :
  filteredData s ≠ [] → displayData s ≠ [] →
  zoomWithin (length (filteredData s)) (zoomDomain s) →
  chartData s ≠ [].
Proof.
  intros Hne Hdisplay Hin. unfold chartData.
  destruct (zoomDomain s) as [[[start end_] y0]|]; [|done].
  destruct (filteredData s) as [|item rest] eqn:Hdata; [done|].
  rewrite <- Hdata in *. cbn [x fst snd zoomWithin] in *.
  assert (Array_slice (filteredData s) start (end_ + 1) ≠ []) as Hslice.
  { rewrite Array_slice_inside by lia. intros Hnil.
    apply (f_equal length) in Hnil.
    rewrite length_take, length_drop in Hnil. simpl in Hnil. lia. }
  case_decide; [done|]. by apply optimizeDataForDisplay_nonempty.
Qed.

(** X7: the zoom buttons never blank the chart: from a view that shows
    something, with no zoom or a range within the series, the chart data
    after zoom-in and after zoom-out is not empty. *)
Theorem zoom_buttons_keep_chart_nonempty (s : ViewState) :
  filteredData s ≠ [] → displayData s ≠ [] →
  zoomWithin (length (filteredData s)) (zoomDomain s) →
  chartData (handleZoomIn s) ≠ [] ∧ chartData (handleZoomOut s) ≠ [].
Proof.
  intros Hne Hdisplay Hin.
  destruct (handleZoom_within s Hne Hin) as [Hzin Hzout].
  assert (filteredData (handleZoomIn s) = filteredData s
          ∧ displayData (handleZoomIn s) = displayData s) as [Hf1 Hd1].
  { unfold handleZoomIn. destruct (filteredData s) eqn:Hdata; [done|].
    destruct (zoomDomain s); simpl; by rewrite Hdata. }
  assert (filteredData (handleZoomOut s) = filteredData s
          ∧ displayData (handleZoomOut s) = displayData s) as [Hf2 Hd2].
  { unfold handleZoomOut. destruct (filteredData s) eqn:Hdata; [done|].
    destruct (zoomDomain s); [|by rewrite Hdata].
    case_decide; simpl; by rewrite Hdata. }
  split; apply chartData_nonempty;
    [by rewrite Hf1 | by rewrite Hd1 | done
    | by rewrite Hf2 | by rewrite Hd2 | done].
Qed.

(** X8: a zoom range that starts past the end of the filtered series, as one
    kept across a refresh that shortened the series, leaves the chart empty
    although the series is not. *)
Theorem chartData_stale_zoom_is_empty (s : ViewState) (zoom : ZoomDomain)
  (start end_ : Z) :
  zoomDomain s = Some zoom → x zoom = (start, end_) →
  (Z.of_nat (length (filteredData s)) ≤ start)%Z → (start ≤ end_)%Z →
  filteredData s ≠ [] →
  chartData s = [].
Proof.
  intros Hzoom Hx Hstart Hle Hne. unfold chartData. rewrite Hzoom, Hx.
  destruct (filteredData s) as [|item rest] eqn:Hdata; [done|].
  rewrite <- Hdata in *. cbn [fst snd].
  assert (Array_slice (filteredData s) start (end_ + 1) = []) as ->.
  { rewrite Array_slice_from_zero by lia.
    rewrite !Z.min_r by lia. rewrite Z.sub_diag. apply take_0. }
  by case_decide.
Qed.

(** X9: under a zoom the display limit holds from 2 on: the chart receives
    at most [dataPointLimit] points. *)
Theorem chartData_zoom_within_limit (s : ViewState) (zoom : ZoomDomain)
  (start end_ : Z) :
  zoomDomain s = Some zoom → x zoom = (start, end_) →
  (0 ≤ start)%Z → (start ≤ end_)%Z →
  filteredData s ≠ [] →
  (2 ≤ dataPointLimit s)%N →
  (N.of_nat (length (chartData s)) ≤ dataPointLimit s)%N.
Proof.
  intros Hzoom Hx H0 Hle Hne Hlimit. unfold chartData. rewrite Hzoom, Hx.
  destruct (filteredData s) as [|item rest] eqn:Hdata; [done|].
  rewrite <- Hdata in *. cbn [fst snd].
  set (slice := Array_slice (filteredData s) start (end_ + 1)).
  assert (Z.of_nat (length slice) ≤ end_ + 1 - start)%Z as Hlen.
  { subst slice. rewrite Array_slice_from_zero by lia.
    rewrite length_take, length_drop. lia. }
  case_decide as Hspan; [lia|].
  destruct (decide (N.of_nat (length slice) ≤ dataPointLimit s)%N) as [Hs|Hs].
  - by rewrite optimizeDataForDisplay_small.
  - apply optimizeDataForDisplay_length_above; lia.
Qed.

Lemma Array_slice_sublist {A} (xs : list A) (start end_ : Z) :
  Array_slice xs start end_ `sublist_of` xs.
Proof.
  unfold Array_slice. etrans; [apply sublist_take | apply sublist_drop].
Qed.

(** X10: whatever the zoom range, also one with negative or reversed
    indices, the chart shows points of the filtered series, each at most
    once and in their order, as soon as the display series does and the
    limit is at least 1. *)
Theorem chartData_sublist (s : ViewState) :
  (1 ≤ dataPointLimit s)%N →
  displayData s `sublist_of` filteredData s →
  chartData s `sublist_of` filteredData s.
Proof.
  intros Hlimit Hdisplay. unfold chartData.
  destruct (zoomDomain s) as [zoom|]; [|done].
  destruct (filteredData s) as [|item rest] eqn:Hdata; [done|].
  rewrite <- Hdata in *. cbv zeta.
  case_decide; [apply Array_slice_sublist|].
  etrans; [by apply optimizeDataForDisplay_sublist|].
  apply Array_slice_sublist.
Qed.

Lemma handleZoomIn_narrows_witness :
  let zoom := {| x := (10, 30)%Z; y := (0, 0)%Z |} in
  let s := Sample.loaded 1000 (Sample.series 40) (Some zoom) in
  filteredData s ≠ [] ∧ zoomDomain s = Some zoom ∧
  x zoom = (10, 30)%Z ∧ (0 ≤ 10)%Z ∧
  (30 < Z.of_nat (length (filteredData s)))%Z ∧ (10 ≤ 30 - 10)%Z ∧
  ∃ start' end',
    zoomDomain (handleZoomIn s)
    = Some {| x := (start', end'); y := (0, 0)%Z |} ∧
    (10 ≤ start')%Z ∧ (end' ≤ 30)%Z ∧
    (10 ≤ end' - start')%Z ∧ (end' - start' ≤ 30 - 10)%Z ∧
    ((11 ≤ 30 - 10)%Z → (end' - start' < 30 - 10)%Z).
Proof.
  intros zoom s.
  assert (filteredData s ≠ []) as Hne by done.
  assert (zoomDomain s = Some zoom) as Hzoom by reflexivity.
  assert (x zoom = (10, 30)%Z) as Hx by reflexivity.
  assert (0 ≤ 10)%Z as H0 by lia.
  assert (30 < Z.of_nat (length (filteredData s)))%Z as Hend
    by (vm_compute; reflexivity).
  assert (10 ≤ 30 - 10)%Z as Hspan by lia.
  split_and!; [exact Hne | exact Hzoom | exact Hx | exact H0 | exact Hend
              | exact Hspan |].
  exact (handleZoomIn_narrows s zoom 10 30 Hne Hzoom Hx H0 Hend Hspan).
Defined.

Lemma handleZoomIn_widens_small_witness :
  let zoom := {| x := (10, 14)%Z; y := (0, 0)%Z |} in
  let s := Sample.loaded 1000 (Sample.series 40) (Some zoom) in
  filteredData s ≠ [] ∧ zoomDomain s = Some zoom ∧
  x zoom = (10, 14)%Z ∧ (0 ≤ 10)%Z ∧ (10 ≤ 14)%Z ∧
  (14 < Z.of_nat (length (filteredData s)))%Z ∧ (14 - 10 < 10)%Z ∧
  ∃ start' end',
    zoomDomain (handleZoomIn s)
    = Some {| x := (start', end'); y := (0, 0)%Z |} ∧
    (start' ≤ 10)%Z ∧ (14 ≤ end')%Z.
Proof.
  intros zoom s.
  assert (filteredData s ≠ []) as Hne by done.
  assert (zoomDomain s = Some zoom) as Hzoom by reflexivity.
  assert (x zoom = (10, 14)%Z) as Hx by reflexivity.
  assert (0 ≤ 10)%Z as H0 by lia.
  assert (10 ≤ 14)%Z as Hle by lia.
  assert (14 < Z.of_nat (length (filteredData s)))%Z as Hend
    by (vm_compute; reflexivity).
  assert (14 - 10 < 10)%Z as Hspan by lia.
  split_and!; [exact Hne | exact Hzoom | exact Hx | exact H0 | exact Hle
              | exact Hend | exact Hspan |].
  exact (handleZoomIn_widens_small s zoom 10 14 Hne Hzoom Hx H0 Hle Hend
           Hspan).
Defined.

Lemma handleZoomOut_widens_witness :
  let zoom := {| x := (18, 22)%Z; y := (0, 0)%Z |} in
  let s := Sample.loaded 1000 (Sample.series 40) (Some zoom) in
  filteredData s ≠ [] ∧ zoomDomain s = Some zoom ∧
  x zoom = (18, 22)%Z ∧ (0 ≤ 18)%Z ∧ (18 ≤ 22)%Z ∧
  (22 < Z.of_nat (length (filteredData s)))%Z ∧
  (zoomDomain (handleZoomOut s) = None ∨
   ∃ start' end',
     zoomDomain (handleZoomOut s)
     = Some {| x := (start', end'); y := (0, 0)%Z |} ∧
     (start' ≤ 18)%Z ∧ (22 ≤ end')%Z).
Proof.
  intros zoom s.
  assert (filteredData s ≠ []) as Hne by done.
  assert (zoomDomain s = Some zoom) as Hzoom by reflexivity.
  assert (x zoom = (18, 22)%Z) as Hx by reflexivity.
  assert (0 ≤ 18)%Z as H0 by lia.
  assert (18 ≤ 22)%Z as Hle by lia.
  assert (22 < Z.of_nat (length (filteredData s)))%Z as Hend
    by (vm_compute; reflexivity).
  split_and!; [exact Hne | exact Hzoom | exact Hx | exact H0 | exact Hle
              | exact Hend |].
  exact (handleZoomOut_widens s zoom 18 22 Hne Hzoom Hx H0 Hle Hend).
Defined.

Lemma handleZoomOut_handleZoomIn_full_witness :
  let s := Sample.loaded 1000 (Sample.series 40) None in
  zoomDomain s = None ∧ handleZoomOut (handleZoomIn s) = s.
Proof.
  intros s.
  assert (zoomDomain s = None) as Hzoom by reflexivity.
  split; [exact Hzoom|].
  exact (handleZoomOut_handleZoomIn_full s Hzoom).
Defined.

Lemma zoom_buttons_keep_chart_nonempty_witness :
  let s := Sample.loaded 1000 (Sample.series 40)
             (Some {| x := (10, 30)%Z; y := (0, 0)%Z |}) in
  filteredData s ≠ [] ∧ displayData s ≠ [] ∧
  zoomWithin (length (filteredData s)) (zoomDomain s) ∧
  chartData (handleZoomIn s) ≠ [] ∧ chartData (handleZoomOut s) ≠ [].
Proof.
  intros s.
  assert (filteredData s ≠ []) as Hne by done.
  assert (displayData s ≠ []) as Hdisplay by done.
  assert (zoomWithin (length (filteredData s)) (zoomDomain s)) as Hin
    by (vm_compute; intuition discriminate).
  split_and!; [exact Hne | exact Hdisplay | exact Hin | |];
    apply (zoom_buttons_keep_chart_nonempty s Hne Hdisplay Hin).
Defined.

Lemma chartData_stale_zoom_is_empty_witness :
  let zoom := {| x := (10, 30)%Z; y := (0, 0)%Z |} in
  let s := Sample.loaded 1000 (Sample.series 5) (Some zoom) in
  zoomDomain s = Some zoom ∧ x zoom = (10, 30)%Z ∧
  (Z.of_nat (length (filteredData s)) ≤ 10)%Z ∧ (10 ≤ 30)%Z ∧
  filteredData s ≠ [] ∧
  chartData s = [].
Proof.
  intros zoom s.
  assert (zoomDomain s = Some zoom) as Hzoom by reflexivity.
  assert (x zoom = (10, 30)%Z) as Hx by reflexivity.
  assert (Z.of_nat (length (filteredData s)) ≤ 10)%Z as Hstart
    by (vm_compute; discriminate).
  assert (10 ≤ 30)%Z as Hle by lia.
  assert (filteredData s ≠ []) as Hne by done.
  split_and!; [exact Hzoom | exact Hx | exact Hstart | exact Hle | exact Hne |].
  exact (chartData_stale_zoom_is_empty s zoom 10 30 Hzoom Hx Hstart Hle Hne).
Defined.

Lemma chartData_zoom_within_limit_witness :
  let zoom := {| x := (10, 30)%Z; y := (0, 0)%Z |} in
  let s := Sample.loaded 3 (Sample.series 40) (Some zoom) in
  zoomDomain s = Some zoom ∧ x zoom = (10, 30)%Z ∧
  (0 ≤ 10)%Z ∧ (10 ≤ 30)%Z ∧ filteredData s ≠ [] ∧
  (2 ≤ dataPointLimit s)%N ∧
  (N.of_nat (length (chartData s)) ≤ dataPointLimit s)%N.
Proof.
  intros zoom s.
  assert (zoomDomain s = Some zoom) as Hzoom by reflexivity.
  assert (x zoom = (10, 30)%Z) as Hx by reflexivity.
  assert (0 ≤ 10)%Z as H0 by lia.
  assert (10 ≤ 30)%Z as Hle by lia.
  assert (filteredData s ≠ []) as Hne by done.
  assert (2 ≤ dataPointLimit s)%N as Hlimit by (simpl; lia).
  split_and!; [exact Hzoom | exact Hx | exact H0 | exact Hle | exact Hne
              | exact Hlimit |].
  exact (chartData_zoom_within_limit s zoom 10 30 Hzoom Hx H0 Hle Hne Hlimit).
Defined.

Lemma chartData_sublist_witness :
  let s := Sample.loaded 3 (Sample.series 40)
             (Some {| x := (-5, 100)%Z; y := (0, 0)%Z |}) in
  (1 ≤ dataPointLimit s)%N ∧
  displayData s `sublist_of` filteredData s ∧
  chartData s `sublist_of` filteredData s.
Proof.
  intros s.
  assert (1 ≤ dataPointLimit s)%N as Hlimit by (simpl; lia).
  assert (displayData s `sublist_of` filteredData s) as Hdisplay
    by reflexivity.
  split_and!; [exact Hlimit | exact Hdisplay |].
  exact (chartData_sublist s Hlimit Hdisplay).
Defined.

(** ** The period filter and the down-sampler together *)

Section FilterMore.
Context (E : Engine).

(** X11: the pipeline neither invents nor reorders points: with a limit of
    at least 1, the filtered series is a subsequence of the series and the
    display series a subsequence of the filtered series. *)
Theorem filterDataByPeriod_sublist (nowT baseT : Z) (series : list PriceData)
  (period : TimePeriod) (s : ViewState) :
  (1 ≤ dataPointLimit s)%N →
  filteredData (filterDataByPeriod E nowT baseT series period s).1
  `sublist_of` series ∧
  displayData (filterDataByPeriod E nowT baseT series period s).1
  `sublist_of` filteredData (filterDataByPeriod E nowT baseT series period s).1.
Proof.
  intros Hlimit. destruct series as [|item rest] eqn:Hseries.
  { by rewrite filterDataByPeriod_nil. }
  rewrite <- Hseries. assert (series ≠ []) as Hne by by rewrite Hseries.
  clear Hseries.
  destruct (cutoffDate E nowT baseT period) as [cutoff|] eqn:Hcut.
  - rewrite (filterDataByPeriod_window E _ _ _ _ _ _ Hne Hcut). simpl.
    split; [|by apply optimizeDataForDisplay_sublist].
    case_decide; [apply sublist_filter | done].
  - apply cutoffDate_None in Hcut as ->. by rewrite filterDataByPeriod_ALL.
Qed.

(** A point whose date does not parse and that carries no usable timestamp
    is outside every window. *)
Lemma inPeriod_unparsed (cutoff : Z) (item : PriceData) :
  Date_parse E (Date item) = None →
  timestamp item = None ∨ timestamp item = Some NaN →
  inPeriod E cutoff item = Normal false.
Proof.
  intros Hparse Hstamp. rewrite inPeriod_total. f_equal.
  unfold inPeriodb, stampOf. rewrite Hparse.
  by destruct Hstamp as [-> | ->].
Qed.

(** X12: after normalization a point with an unparsable date passes no
    cutoff: a window shows it only through the fallback, when no point of
    the series passes. *)
Theorem unparsed_date_shown_only_by_fallback (nowT baseT cutoff : Z)
  (series : list PriceData) (period : TimePeriod) (s : ViewState)
  (raw : PriceData) :
  Date_parse E (Date raw) = None →
  cutoffDate E nowT baseT period = Some cutoff →
  normalized E raw
  ∈ filteredData (filterDataByPeriod E nowT baseT series period s).1 →
  filteredData (filterDataByPeriod E nowT baseT series period s).1 = series ∧
  Forall (λ item, inPeriod E cutoff item = Normal false) series.
Proof.
  intros Hparse Hcut Hin.
  destruct series as [|item rest] eqn:Hseries.
  { rewrite filterDataByPeriod_nil in Hin. by apply elem_of_nil in Hin. }
  rewrite <- Hseries in *. assert (series ≠ []) as Hne by by rewrite Hseries.
  clear Hseries.
  rewrite (filterDataByPeriod_window E _ _ _ _ _ _ Hne Hcut) in Hin |- *.
  simpl in *. case_decide as Hlen.
  - exfalso. apply list_elem_of_filter in Hin as [Hpass _].
    assert (inPeriod E cutoff (normalized E raw) = Normal false) as Hout.
    { apply inPeriod_unparsed; [done|]. right. simpl. by rewrite Hparse. }
    rewrite inPeriod_total in Hout. congruence.
  - split; [done|]. apply Forall_forall. intros p Hp.
    rewrite inPeriod_total. f_equal.
    destruct (inPeriodb E cutoff p) eqn:Hpass; [|done]. exfalso.
    apply Hlen.
    assert (p ∈ filter (λ item, inPeriodb E cutoff item = true) series) as Hpin
      by (by apply list_elem_of_filter).
    destruct (filter _ series); [by apply elem_of_nil in Hpin | simpl; lia].
Qed.

End FilterMore.

Lemma filterDataByPeriod_sublist_witness :
  let s := Sample.view 2 in
  let s' := (filterDataByPeriod Sample.engine Sample.noon Sample.noon
               Sample.threeDays P1W s).1 in
  (1 ≤ dataPointLimit s)%N ∧
  filteredData s' `sublist_of` Sample.threeDays ∧
  displayData s' `sublist_of` filteredData s'.
Proof.
  intros s s'.
  assert (1 ≤ dataPointLimit s)%N as Hlimit by (simpl; lia).
  split; [exact Hlimit|].
  exact (filterDataByPeriod_sublist Sample.engine Sample.noon Sample.noon
           Sample.threeDays P1W s Hlimit).
Defined.

Lemma unparsed_date_shown_only_by_fallback_witness :
  let raw := Sample.point 7 "garbage" in
  let series := [normalized Sample.engine raw] in
  let s' := (filterDataByPeriod Sample.engine Sample.noon Sample.noon series
               P1W (Sample.view 1000)).1 in
  Date_parse Sample.engine (Date raw) = None ∧
  cutoffDate Sample.engine Sample.noon Sample.noon P1W
  = Some 1709899200000%Z ∧
  normalized Sample.engine raw ∈ filteredData s' ∧
  filteredData s' = series ∧
  Forall (λ item, inPeriod Sample.engine 1709899200000 item = Normal false)
    series.
Proof.
  intros raw series s'.
  assert (Date_parse Sample.engine (Date raw) = None) as Hparse
    by reflexivity.
  assert (cutoffDate Sample.engine Sample.noon Sample.noon P1W
          = Some 1709899200000%Z) as Hcut by (vm_compute; reflexivity).
  assert (normalized Sample.engine raw ∈ filteredData s') as Hin
    by (vm_compute; apply elem_of_cons; by left).
  split_and!; [exact Hparse | exact Hcut | exact Hin | |];
    apply (unparsed_date_shown_only_by_fallback Sample.engine Sample.noon
             Sample.noon 1709899200000 series P1W (Sample.view 1000) raw
             Hparse Hcut Hin).
Defined.


(** ** The sort of the normalized points *)

Lemma orZero_stampKey (item : PriceData) :
  finiteStamp item →
  ∃ k, orZero (timestamp item) = Fin k ∧ (k == stampKey item)%Q.
Proof.
  intros [Hp Hn]. unfold orZero, stampKey, JS.or.
  destruct (timestamp item) as [[t| | |]|]; try done.
  - simpl. destruct (Qeq_bool t 0) eqn:Ht; simpl.
    + exists 0%Q. split; [done|]. symmetry. by apply Qeq_bool_true_eq.
    + by exists t.
  - by exists 0%Q.
  - by exists 0%Q.
Qed.

(** On such points the comparator is positive exactly when the first
    point is strictly later. *)
Lemma byTimestamp_positive (a b : PriceData) :
  finiteStamp a → finiteStamp b →
  JS.lt JS.zero (byTimestamp a b) = true ↔ (stampKey b < stampKey a)%Q.
Proof.
  intros Ha Hb. unfold byTimestamp.
  destruct (orZero_stampKey a Ha) as (ka & -> & Hka).
  destruct (orZero_stampKey b Hb) as (kb & -> & Hkb).
  cbn [JS.sub JS.neg JS.add JS.lt JS.zero].
  rewrite negb_true_iff, <- Hka, <- Hkb. split.
  - intros Hle. destruct (Qlt_le_dec kb ka) as [|Hge]; [done|].
    assert (Qle_bool (ka + - kb) 0 = true); [|congruence].
    apply Qle_bool_iff. lra.
  - intros Hlt. destruct (Qle_bool (ka + - kb) 0) eqn:Hle; [|done].
    apply Qle_bool_iff in Hle. lra.
Qed.

Lemma sort_insert_sortedBy (item : PriceData) (sorted : list PriceData) :
  finiteStamp item → Forall finiteStamp sorted →
  sortedBy stampKey sorted →
  sortedBy stampKey (sort_insert byTimestamp item sorted).
Proof.
  intros Hitem Hall. induction sorted as [|y rest IH]; intros Hsorted.
  { by split. }
  apply Forall_cons in Hall as [Hy Hrest]. destruct Hsorted as [Hle Hs].
  cbn [sort_insert].
  destruct (JS.lt JS.zero (byTimestamp item y)) eqn:Hcmp.
  - apply byTimestamp_positive in Hcmp; [|done..].
    split; [|by apply IH].
    rewrite sort_insert_perm. apply Forall_cons. split; [lra | done].
  - assert (stampKey item <= stampKey y)%Q as Hiy.
    { destruct (Qlt_le_dec (stampKey y) (stampKey item)) as [Hlt|]; [|done].
      apply byTimestamp_positive in Hlt; [congruence | done..]. }
    split; [|by split]. apply Forall_cons. split; [done|].
    eapply Forall_impl; [exact Hle|]. intros z Hz. simpl in Hz. lra.
Qed.

Lemma Array_sort_sortedBy (xs : list PriceData) :
  Forall finiteStamp xs → sortedBy stampKey (Array_sort byTimestamp xs).
Proof.
  induction xs as [|item xs IH]; intros Hall; [done|].
  apply Forall_cons in Hall as [Hitem Hall].
  unfold Array_sort in *. simpl. apply sort_insert_sortedBy; [done| |by apply IH].
  change (foldr (sort_insert byTimestamp) [] xs) with (Array_sort byTimestamp xs).
  by rewrite Array_sort_perm.
Qed.

(** The sort is stable: for every key, the points with that key come out
    in the order they went in. *)
Lemma sort_insert_stable (k : Q) (item : PriceData) (sorted : list PriceData) :
  finiteStamp item → Forall finiteStamp sorted →
  filter (λ p, Qeq_bool (stampKey p) k = true)
    (sort_insert byTimestamp item sorted)
  = filter (λ p, Qeq_bool (stampKey p) k = true) (item :: sorted).
Proof.
  intros Hitem Hall. induction sorted as [|y rest IH]; [done|].
  apply Forall_cons in Hall as [Hy Hrest]. cbn [sort_insert].
  destruct (JS.lt JS.zero (byTimestamp item y)) eqn:Hcmp; [|done].
  apply byTimestamp_positive in Hcmp; [|done..].
  rewrite filter_cons, IH by done. rewrite !filter_cons.
  destruct (decide (Qeq_bool (stampKey item) k = true)) as [Hi|Hi];
    destruct (decide (Qeq_bool (stampKey y) k = true)) as [Hyk|Hyk];
    try done.
  apply Qeq_bool_iff in Hi, Hyk. lra.
Qed.

Section SortFacts.
Context (E : Engine).

Lemma normalized_finiteStamp (item : PriceData) :
  finiteStamp (normalized E item).
Proof. unfold finiteStamp, normalized, getTime. simpl. by destruct (Date_parse _ _). Qed.

Lemma processed_finiteStamp (items : list PriceData) :
  Forall finiteStamp
    (filter (λ item, negb (JS.isNaN (purchase_price item)) = true)
       (normalized E <$> items)).
Proof.
  apply Forall_forall. intros p [_ Hp]%list_elem_of_filter.
  apply list_elem_of_fmap in Hp as (item & -> & _).
  apply normalized_finiteStamp.
Qed.

(** X13: the normalized series is in ascending order of time: no point comes
    before a point with a smaller key, where the key of a point whose date
    did not parse is 0. *)
Theorem processData_sorted (items : list PriceData) :
  ∃ out, processData E items = Normal out ∧ sortedBy stampKey out.
Proof.
  eexists. split; [apply processData_total|].
  apply Array_sort_sortedBy, processed_finiteStamp.
Qed.

Lemma filter_valid_normalized (items : list PriceData) :
  filter (λ item, negb (JS.isNaN (purchase_price item)) = true)
    (normalized E <$> items)
  = normalized E
    <$> filter (λ item, JS.isNaN (purchase_price item) = false) items.
Proof.
  induction items as [|item items IH]; [done|].
  rewrite fmap_cons, !filter_cons, IH.
  change (purchase_price (normalized E item)) with (purchase_price item).
  destruct (JS.isNaN (purchase_price item)); [|done].
  rewrite decide_False by done. by rewrite decide_False by done.
Qed.

(** X14: the normalization never fails and neither loses nor repeats a point
    with a valid price: the result is a rearrangement of the normalized
    points whose price is not NaN. *)
Theorem processData_permutation (items : list PriceData) :
  ∃ out,
    processData E items = Normal out ∧
    out ≡ₚ normalized E
           <$> filter (λ item, JS.isNaN (purchase_price item) = false) items.
Proof.
  eexists. split; [apply processData_total|].
  by rewrite Array_sort_perm, filter_valid_normalized.
Qed.

(** X15: the sort is stable: the points that share a key keep the order in
    which the upstream sent them. *)
Theorem processData_stable (items : list PriceData) (k : Q) :
  ∃ out,
    processData E items = Normal out ∧
    filter (λ p, Qeq_bool (stampKey p) k = true) out
    = filter (λ p, Qeq_bool (stampKey p) k = true)
        (normalized E
         <$> filter (λ item, JS.isNaN (purchase_price item) = false) items).
Proof.
  eexists. split; [apply processData_total|].
  pose proof (processed_finiteStamp items) as Hall.
  rewrite filter_valid_normalized in *.
  set (valid := normalized E <$> _) in *. clearbody valid.
  induction valid as [|p valid IH]; [done|].
  apply Forall_cons in Hall as [Hp Hall].
  unfold Array_sort in *. cbn [foldr].
  rewrite sort_insert_stable; [|done|].
  - rewrite !filter_cons. by rewrite IH.
  - change (foldr (sort_insert byTimestamp) [] valid)
      with (Array_sort byTimestamp valid).
    by rewrite Array_sort_perm.
Qed.

(** X16: the statistics the view keeps from a response never hold a NaN, and
    are all 0 when the response has no statistics. *)
Theorem safeStats_never_NaN (rawStats : option RawStats) :
  let st := safeStats rawStats in
  JS.isNaN (price st) = false ∧
  JS.isNaN (gold (per_day st)) = false ∧
  JS.isNaN (percent (per_day st)) = false ∧
  JS.isNaN (gold (per_week st)) = false ∧
  JS.isNaN (percent (per_week st)) = false ∧
  JS.isNaN (gold (per_month st)) = false ∧
  JS.isNaN (percent (per_month st)) = false ∧
  JS.isNaN (gold (per_year st)) = false ∧
  JS.isNaN (percent (per_year st)) = false ∧
  safeStats None
  = {| price := JS.zero;
       per_day := {| gold := JS.zero; percent := JS.zero |};
       per_week := {| gold := JS.zero; percent := JS.zero |};
       per_month := {| gold := JS.zero; percent := JS.zero |};
       per_year := {| gold := JS.zero; percent := JS.zero |} |}.
Proof.
  assert (∀ field, JS.isNaN (orZero field) = false) as Hfield.
  { intros [[| | |]|]; try done. unfold orZero, JS.or. simpl.
    by destruct (Qeq_bool q 0). }
  cbv zeta. cbn [safeStats safeChange price per_day per_week per_month
                 per_year gold percent].
  rewrite !Hfield. by split_and!.
Qed.

End SortFacts.

(** ** Every way a fetch can end *)

(** Runs the handler monad without touching the setters. *)
Ltac fetch_step :=
  cbv [mbind mret act_bind act_ret completion_bind completion_ret set_ read
       lift throw when_ try_ try_finally try_catch
       started finished toastIf shownError] in *.

Section FetchPaths.
Context (E : Engine).

Lemma finished_twice (s : ViewState) :
  setIsRefreshing false
    (setIsLoading false (setIsRefreshing false (setIsLoading false s)))
  = setIsRefreshing false (setIsLoading false s).
Proof. by destruct s. Qed.

(** A failed fetch: the error is set, the toast issued on demand, the
    synthetic series loaded. *)
Lemma fetchItemStats_failure amb itemName period isRefreshing showToast
  upstream message s :
  failureOf upstream = Some message →
  ∃ mock filtered display,
    length (data mock) = 366 ∧ filtered ≠ [] ∧ display ≠ [] ∧
    fetchItemStats E amb itemName period isRefreshing showToast upstream s
    = (finished
         (setStats (Some (stats mock))
            (setDisplayData display
               (setFilteredData filtered
                  (setPriceData (data mock)
                     (toastIf showToast
                        {| title := "Error";
                           description := shownError message;
                           variant := Destructive |}
                        (setError (Some (shownError message))
                           (started s))))))),
       Normal ()).
Proof.
  intros Hfail.
  destruct (useMockData_run E amb itemName period
              (toastIf showToast
                 {| title := "Error"; description := shownError message;
                    variant := Destructive |}
                 (setError (Some (shownError message)) (started s))))
    as (mock & filtered & display & _ & Hlen & _ & Hf & Hd & Hrun).
  exists mock, filtered, display. split_and!; try done.
  unfold fetchItemStats.
  destruct upstream as [m|status errorText|[| | |[|items raw]]];
    cbn [failureOf] in Hfail; try done; injection Hfail as Hfail;
    rewrite Hfail; clear Hfail.
  all: destruct showToast; fetch_step; rewrite Hrun; reflexivity.
Qed.

(** A response without a point of valid price: the no-data flag is set,
    the synthetic series loaded. *)
Lemma fetchItemStats_no_data amb itemName period isRefreshing showToast
  items rawStats s :
  processData E items = Normal [] →
  ∃ mock filtered display title,
    length (data mock) = 366 ∧ filtered ≠ [] ∧ display ≠ [] ∧
    fetchItemStats E amb itemName period isRefreshing showToast
      (HttpOk (Parsed (Structure items rawStats))) s
    = (finished
         (toastIf showToast
            {| title := title;
               description := "Using sample data for preview purposes";
               variant := Warning |}
            (setStats (Some (stats mock))
               (setDisplayData display
                  (setFilteredData filtered
                     (setPriceData (data mock)
                        (setShowNoDataMessage true (started s))))))),
       Normal ()).
Proof.
  intros Hnone.
  destruct (useMockData_run E amb itemName period
              (setShowNoDataMessage true (started s)))
    as (mock & filtered & display & _ & Hlen & _ & Hf & Hd & Hrun).
  exists mock, filtered, display.
  exists (match items with
          | [] => "No price data available"
          | _ => "No valid price data available"
          end).
  split_and!; try done.
  unfold fetchItemStats.
  destruct items as [|item items].
  - destruct showToast; fetch_step; rewrite Hrun; fetch_step;
      by rewrite finished_twice.
  - fetch_step. rewrite Hnone.
    destruct showToast; fetch_step; rewrite Hrun; reflexivity.
Qed.

(** A response with a point of valid price: the normalized series and the
    statistics of the response are loaded. *)
Lemma fetchItemStats_data amb itemName period isRefreshing showToast
  items rawStats out s :
  processData E items = Normal out → out ≠ [] →
  ∃ filtered display,
    filtered ≠ [] ∧ display ≠ [] ∧
    fetchItemStats E amb itemName period isRefreshing showToast
      (HttpOk (Parsed (Structure items rawStats))) s
    = (finished
         (toastIf (isRefreshing && showToast)
            {| title := "Data refreshed";
               description := "The latest price data has been loaded";
               variant := Default |}
            (setStats (Some (safeStats rawStats))
               (setDisplayData display
                  (setFilteredData filtered
                     (setPriceData out (started s)))))),
       Normal ()).
Proof.
  intros Hout Hne.
  destruct (filterDataByPeriod_frame E (filterNow amb) (filterBase amb) out
              period (setPriceData out (started s)) Hne)
    as (filtered & display & Hf & Hd & Hrun).
  exists filtered, display. split_and!; try done.
  unfold fetchItemStats.
  destruct items as [|item items].
  { rewrite processData_total in Hout. injection Hout as <-.
    by destruct Hne. }
  fetch_step. rewrite Hout. destruct out as [|p out]; [by destruct Hne|].
  fetch_step. rewrite Hrun.
  destruct (isRefreshing && showToast); reflexivity.
Qed.

(** A fetch reaches the data test exactly on a parsed response with a
    [data] array. *)
Lemma failureOf_None upstream :
  failureOf upstream = None →
  ∃ items rawStats, upstream = HttpOk (Parsed (Structure items rawStats)).
Proof.
  destruct upstream as [m|status errorText|[| | |[|items raw]]]; try done.
  intros _. by eexists _, _.
Qed.

Lemma processData_valid items :
  ∃ out, processData E items = Normal out ∧
         out ≡ₚ normalized E
                <$> filter (λ item, JS.isNaN (purchase_price item) = false)
                      items ∧
         (out = [] ↔
          filter (λ item, JS.isNaN (purchase_price item) = false) items = []).
Proof.
  assert (∃ out, processData E items = Normal out ∧
                 out ≡ₚ normalized E
                        <$> filter (λ item,
                                      JS.isNaN (purchase_price item) = false)
                              items) as (out & Hout & Hperm).
  { eexists. split; [apply processData_total|].
    by rewrite Array_sort_perm, filter_valid_normalized. }
  exists out. split_and!; try done. split.
  - intros ->. symmetry in Hperm. apply Permutation_nil_r in Hperm.
    by apply fmap_nil_inv in Hperm.
  - intros Hnil. rewrite Hnil in Hperm. by apply Permutation_nil_r.
Qed.

(** X17: however the request ends, the fetch completes and leaves a view
    that can be drawn: not loading, not refreshing, with a non-empty series,
    a non-empty filtered and display series and statistics. It does not
    touch the zoom, the selected period or the display limit. *)
Theorem fetchItemStats_always_leaves_a_series (amb : Ambient)
  (itemName : string) (period : TimePeriod) (refreshing showToast : bool)
  (upstream : Upstream) (s : ViewState) :
  ∃ s',
    fetchItemStats E amb itemName period refreshing showToast upstream s
    = (s', Normal ()) ∧
    isLoading s' = false ∧ isRefreshing s' = false ∧
    priceData s' ≠ [] ∧ filteredData s' ≠ [] ∧ displayData s' ≠ [] ∧
    is_Some (viewStats s') ∧
    zoomDomain s' = zoomDomain s ∧
    selectedPeriod s' = selectedPeriod s ∧
    dataPointLimit s' = dataPointLimit s.
Proof.
  destruct (failureOf upstream) as [message|] eqn:Hfail.
  - destruct (fetchItemStats_failure amb itemName period refreshing
                showToast upstream message s Hfail)
      as (mock & filtered & display & Hlen & Hf & Hd & ->).
    eexists. split; [done|]. unfold finished, toastIf.
    destruct showToast; simpl; split_and!; try done.
    all: intros Hnil; by rewrite Hnil in Hlen.
  - apply failureOf_None in Hfail as (items & rawStats & ->).
    destruct (processData_valid items) as (out & Hout & _ & _).
    destruct out as [|p out].
    + destruct (fetchItemStats_no_data amb itemName period refreshing
                  showToast items rawStats s Hout)
        as (mock & filtered & display & title & Hlen & Hf & Hd & ->).
      eexists. split; [done|]. unfold finished, toastIf.
      destruct showToast; simpl; split_and!; try done.
      all: intros Hnil; by rewrite Hnil in Hlen.
    + destruct (fetchItemStats_data amb itemName period refreshing
                  showToast items rawStats (p :: out) s Hout)
        as (filtered & display & Hf & Hd & ->); [done|].
      eexists. split; [done|]. unfold finished, toastIf.
      destruct (refreshing && showToast); simpl; split_and!; done.
Qed.

(** X18: the outcome is told apart by the view: [error] holds the message of
    the failure, if any; [showNoDataMessage] is set exactly when the
    response parsed and no point has a valid price; the two are never set
    together. *)
Theorem fetchItemStats_classifies (amb : Ambient) (itemName : string)
  (period : TimePeriod) (isRefreshing showToast : bool)
  (upstream : Upstream) (s : ViewState) :
  ∃ s',
    fetchItemStats E amb itemName period isRefreshing showToast upstream s
    = (s', Normal ()) ∧
    error s' = shownError <$> failureOf upstream ∧
    (showNoDataMessage s' = true
     ↔ failureOf upstream = None ∧ validItems upstream = []) ∧
    (error s' = None ∨ showNoDataMessage s' = false).
Proof.
  destruct (failureOf upstream) as [message|] eqn:Hfail.
  - destruct (fetchItemStats_failure amb itemName period isRefreshing
                showToast upstream message s Hfail)
      as (mock & filtered & display & Hlen & Hf & Hd & ->).
    eexists. split; [done|]. unfold finished, toastIf.
    destruct showToast; simpl;
      (split_and!; [done | split; [done | by intros [? ?]] | by right]).
  - apply failureOf_None in Hfail as (items & rawStats & ->).
    destruct (processData_valid items) as (out & Hout & _ & Hnil).
    simpl. destruct out as [|p out].
    + destruct (fetchItemStats_no_data amb itemName period isRefreshing
                  showToast items rawStats s Hout)
        as (mock & filtered & display & title & Hlen & Hf & Hd & ->).
      eexists. split; [done|]. unfold finished, toastIf.
      destruct showToast; simpl;
        (split_and!;
         [done | split; [intros _; split; [done | by apply Hnil] | done]
         | by left]).
    + destruct (fetchItemStats_data amb itemName period isRefreshing
                  showToast items rawStats (p :: out) s Hout)
        as (filtered & display & Hf & Hd & ->); [done|].
      eexists. split; [done|]. unfold finished, toastIf.
      destruct (isRefreshing && showToast); simpl;
        (split_and!;
         [done | split; [done | intros [_ Hv]; by apply Hnil in Hv]
         | by left]).
Qed.

(** X19: a fetch issues at most one toast, none when called with [showToast
    = false], and its variant tells the outcome: destructive for a failure,
    warning for the no-data fallback, default for fresh data. *)
Theorem fetchItemStats_toasts (amb : Ambient) (itemName : string)
  (period : TimePeriod) (isRefreshing showToast : bool)
  (upstream : Upstream) (s : ViewState) :
  ∃ s' issued,
    fetchItemStats E amb itemName period isRefreshing showToast upstream s
    = (s', Normal ()) ∧
    toasts s' = toasts s ++ issued ∧
    length issued ≤ 1 ∧
    (showToast = false → issued = []) ∧
    ∀ t, t ∈ issued →
         variant t
         = match failureOf upstream with
           | Some _ => Destructive
           | None =>
               match validItems upstream with
               | [] => Warning
               | _ :: _ => Default
               end
           end.
Proof.
  destruct (failureOf upstream) as [message|] eqn:Hfail.
  - destruct (fetchItemStats_failure amb itemName period isRefreshing
                showToast upstream message s Hfail)
      as (mock & filtered & display & Hlen & Hf & Hd & ->).
    unfold finished, toastIf. destruct showToast.
    + eexists _, [_]. split; [done|]. simpl. split_and!; try done.
      by intros t ->%list_elem_of_singleton.
    + eexists _, []. split; [done|]. simpl. rewrite app_nil_r.
      split_and!; try done; [lia|]. intros t Ht. by apply elem_of_nil in Ht.
  - apply failureOf_None in Hfail as (items & rawStats & ->).
    destruct (processData_valid items) as (out & Hout & _ & Hnil).
    simpl. destruct out as [|p out].
    + destruct (fetchItemStats_no_data amb itemName period isRefreshing
                  showToast items rawStats s Hout)
        as (mock & filtered & display & title & Hlen & Hf & Hd & ->).
      rewrite (proj1 Hnil eq_refl).
      unfold finished, toastIf. destruct showToast.
      * eexists _, [_]. split; [done|]. simpl. split_and!; try done.
        by intros t ->%list_elem_of_singleton.
      * eexists _, []. split; [done|]. simpl. rewrite app_nil_r.
        split_and!; try done; [lia|]. intros t Ht. by apply elem_of_nil in Ht.
    + destruct (fetchItemStats_data amb itemName period isRefreshing
                  showToast items rawStats (p :: out) s Hout)
        as (filtered & display & Hf & Hd & ->); [done|].
      assert (filter (λ item, JS.isNaN (purchase_price item) = false) items
              ≠ []) as Hvalid by (intros Hv; by apply Hnil in Hv).
      destruct (filter _ items) as [|v valid]; [done|].
      unfold finished, toastIf.
      destruct isRefreshing, showToast; simpl.
      * eexists _, [_]. split; [done|]. simpl. split_and!; try done.
        by intros t ->%list_elem_of_singleton.
      * eexists _, []. split; [done|]. simpl. rewrite app_nil_r.
        split_and!; try done; [lia|]. intros t Ht. by apply elem_of_nil in Ht.
      * eexists _, []. split; [done|]. simpl. rewrite app_nil_r.
        split_and!; try done; [lia|]. intros t Ht. by apply elem_of_nil in Ht.
      * eexists _, []. split; [done|]. simpl. rewrite app_nil_r.
        split_and!; try done; [lia|]. intros t Ht. by apply elem_of_nil in Ht.
Qed.

(** X20: a response with at least one point of valid price loads the real
    data: the series is the normalized valid points in ascending order of
    time, the statistics are those of the response with 0 for what is
    missing, no error and no no-data flag is set. *)
Theorem fetchItemStats_loads_valid_points (amb : Ambient)
  (itemName : string) (period : TimePeriod) (isRefreshing showToast : bool)
  (items : list PriceData) (rawStats : option RawStats) (s : ViewState) :
  filter (λ item, JS.isNaN (purchase_price item) = false) items ≠ [] →
  ∃ s',
    fetchItemStats E amb itemName period isRefreshing showToast
      (HttpOk (Parsed (Structure items rawStats))) s = (s', Normal ()) ∧
    priceData s'
    ≡ₚ normalized E
       <$> filter (λ item, JS.isNaN (purchase_price item) = false) items ∧
    sortedBy stampKey (priceData s') ∧
    viewStats s' = Some (safeStats rawStats) ∧
    error s' = None ∧ showNoDataMessage s' = false.
Proof.
  intros Hvalid.
  destruct (processData_valid items) as (out & Hout & Hperm & Hnil).
  assert (sortedBy stampKey out) as Hsorted.
  { pose proof Hout as Heq. rewrite processData_total in Heq.
    injection Heq as <-. apply Array_sort_sortedBy, processed_finiteStamp. }
  assert (out ≠ []) as Hne by (intros Ho; by apply Hnil in Ho).
  destruct (fetchItemStats_data amb itemName period isRefreshing
              showToast items rawStats out s Hout Hne)
    as (filtered & display & Hf & Hd & ->).
  eexists. split; [done|]. unfold finished, toastIf.
  destruct (isRefreshing && showToast); simpl; split_and!; done.
Qed.

End FetchPaths.

Lemma fetchItemStats_loads_valid_points_witness :
  let valid := filter (λ item, JS.isNaN (purchase_price item) = false)
                 Sample.threeDays in
  valid ≠ [] ∧
  ∃ s',
    fetchItemStats Sample.engine Sample.ambient "Sword" P1W false true
      (HttpOk (Parsed (Structure Sample.threeDays None))) initialView
    = (s', Normal ()) ∧
    priceData s' ≡ₚ normalized Sample.engine <$> valid ∧
    sortedBy stampKey (priceData s') ∧
    viewStats s' = Some (safeStats None) ∧
    error s' = None ∧ showNoDataMessage s' = false.
Proof.
  intros valid.
  assert (valid ≠ []) as Hvalid by (vm_compute; discriminate).
  split; [exact Hvalid|].
  exact (fetchItemStats_loads_valid_points Sample.engine Sample.ambient
           "Sword" P1W false true Sample.threeDays None initialView Hvalid).
Defined.


(** ** The range of the synthetic prices *)

Lemma round2_bounds (x : Q) (lo hi : Z) :
  (0 <= x)%Q → (inject_Z lo <= x * 100)%Q → (x * 100 <= inject_Z hi)%Q →
  ∃ r, JS.round2 (Fin x) = Fin r ∧
       (inject_Z lo / 100 <= r)%Q ∧ (r <= inject_Z hi / 100)%Q.
Proof.
  intros Hpos Hlo Hhi. unfold JS.round2.
  assert (Qle_bool 0 x = true) as -> by by apply Qle_bool_iff.
  assert (Qabs x = x) as ->.
  { destruct x as [n d]. unfold Qle in Hpos. simpl in *.
    f_equal. lia. }
  set (m := Qfloor (x * 100 + (1 # 2))).
  assert (lo ≤ m)%Z.
  { rewrite <- (Qfloor_Z lo). apply Qfloor_resp_le. lra. }
  assert (m ≤ hi)%Z.
  { assert (m < hi + 1)%Z; [|lia]. rewrite Zlt_Qlt.
    pose proof (Qfloor_le (x * 100 + (1 # 2))) as Hfl. fold m in Hfl.
    rewrite inject_Z_plus. change (inject_Z 1) with 1%Q. lra. }
  eexists. split; [done|].
  assert (inject_Z lo <= inject_Z m)%Q by by rewrite <- Zle_Qle.
  assert (inject_Z m <= inject_Z hi)%Q by by rewrite <- Zle_Qle.
  split; unfold Qdiv; (apply Qmult_le_compat_r; [done | by vm_compute]).
Qed.

Section MockRange.
Context (E : Engine).
Hypothesis waves : boundedWaves E.

Lemma basePrice_range name : 200 ≤ basePrice name < 500.
Proof.
  unfold basePrice. pose proof (Nat.mod_upper_bound (nameSum name) 300). lia.
Qed.

(** Whatever the name, the price of each of the 366 days lies between 165
    and 584: it is a positive finite number. *)
Lemma mockPrice_range (name : string) (i : nat) :
  i ≤ 365 →
  ∃ r, mockPrice E name i = Fin r ∧ (165 <= r)%Q ∧ (r <= 584)%Q.
Proof.
  intros Hi. unfold mockPrice.
  pose proof (basePrice_range name) as [Hb1 Hb2].
  set (base := inject_Z (Z.of_nat (basePrice name))).
  set (iq := inject_Z (Z.of_nat i)).
  assert (200 <= base)%Q.
  { change 200%Q with (inject_Z 200). unfold base. rewrite <- Zle_Qle. lia. }
  assert (base <= 499)%Q.
  { change 499%Q with (inject_Z 499). unfold base. rewrite <- Zle_Qle. lia. }
  assert (0 <= iq)%Q.
  { change 0%Q with (inject_Z 0). unfold iq. rewrite <- Zle_Qle. lia. }
  assert (iq <= 365)%Q.
  { change 365%Q with (inject_Z 365). unfold iq. rewrite <- Zle_Qle. lia. }
  destruct (waves (iq / 30)%Q) as [[? ?] _].
  destruct (waves iq) as [[? ?] _].
  destruct (waves (iq * 2)%Q) as [_ [? ?]].
  assert (0 <= iq / 365 * 50 <= 50)%Q as [? ?].
  { split.
    - apply Qmult_le_0_compat; [|lra]. apply Qle_shift_div_l; lra.
    - assert (iq / 365 <= 1)%Q by (apply Qle_shift_div_r; lra). lra. }
  set (t := (iq / 365 * 50)%Q) in *.
  destruct (round2_bounds
              (base + Math_sin E (iq / 30) * 20
               + (Math_sin E iq * 10 + Math_cos E (iq * 2) * 5) + t)%Q
              16500 58400) as (r & Hr & Hlo & Hhi).
  - lra.
  - change (inject_Z 16500) with 16500%Q. lra.
  - change (inject_Z 58400) with 58400%Q. lra.
  - exists r. split; [done|]. split.
    + eapply Qle_trans; [|exact Hlo]. by vm_compute.
    + eapply Qle_trans; [exact Hhi|]. by vm_compute.
Qed.

Lemma mockLoop_Forall (P : PriceData → Prop) name todayT calls i :
  (∀ calls' j, j ≤ i → P (mockPoint E name todayT calls' j)) →
  Forall P (mockLoop E name todayT calls i).
Proof.
  revert calls. induction i as [|i IH]; intros calls HP; simpl.
  - apply Forall_cons. split; [by apply HP | done].
  - apply Forall_cons. split; [by apply HP|].
    apply IH. intros calls' j Hj. apply HP. lia.
Qed.

Lemma changeSince_finite (a b : Q) :
  (0 < b)%Q → finiteChange (changeSince (Fin a) (JS.or (Fin b) (Fin a))).
Proof.
  intros Hb. unfold JS.or. simpl.
  assert (Qeq_bool b 0 = false) as Hz.
  { destruct (Qeq_bool b 0) eqn:Heq; [|done].
    apply Qeq_bool_true_eq in Heq. lra. }
  rewrite Hz. unfold changeSince, finiteChange, finite. simpl.
  rewrite Hz. simpl. split; by eexists.
Qed.

(** X21: with sine and cosine within [-1, 1], every synthetic price lies
    between 165 and 584 and the synthetic statistics are finite numbers: no
    division by zero, no NaN, and the [|| currentPrice] fallbacks of the
    generator are never taken. *)
Theorem generateMockData_is_finite (todayT : Z) (calls : nat)
  (name : string) :
  ∃ mock,
    generateMockData E todayT calls name = Normal mock ∧
    Forall (λ item, ∃ r, purchase_price item = Fin r
                         ∧ (165 <= r)%Q ∧ (r <= 584)%Q) (data mock) ∧
    finiteStats (stats mock).
Proof.
  unfold generateMockData.
  assert (Forall (λ item, ∃ r, purchase_price item = Fin r
                               ∧ (165 <= r)%Q ∧ (r <= 584)%Q)
            (mockLoop E name todayT calls 365)) as Hall.
  { apply mockLoop_Forall. intros calls' j Hj. by apply mockPrice_range. }
  assert (length (mockLoop E name todayT calls 365) = 366) as Hlen
    by apply mockLoop_length.
  set (series := mockLoop E name todayT calls 365) in *. clearbody series.
  destruct (mockStats series) as [st|e] eqn:Hst.
  2:{ exfalso. unfold mockStats in Hst.
      destruct (last series) eqn:Hlast; [done|].
      apply last_None in Hlast. subst series. discriminate Hlen. }
  exists {| data := series; stats := st |}. split_and!; [done..|].
  destruct (mockStats_year series st Hlen Hst)
    as (current & day & week & month & year & Hc & Hd & Hw & Hm & Hy & ->).
  rewrite Forall_lookup in Hall.
  destruct (Hall _ _ Hc) as (rc & -> & _ & _).
  destruct (Hall _ _ Hd) as (rd & -> & ? & _).
  destruct (Hall _ _ Hw) as (rw & -> & ? & _).
  destruct (Hall _ _ Hm) as (rm & -> & ? & _).
  destruct (Hall _ _ Hy) as (ry & -> & ? & _).
  cbv zeta. split_and!; [by eexists | apply changeSince_finite; lra ..].
Qed.

End MockRange.

Lemma generateMockData_is_finite_witness :
  boundedWaves Sample.engine ∧
  ∃ mock,
    generateMockData Sample.engine Sample.noon 0 "Sword of Embers"
    = Normal mock ∧
    Forall (λ item, ∃ r, purchase_price item = Fin r
                         ∧ (165 <= r)%Q ∧ (r <= 584)%Q) (data mock) ∧
    finiteStats (stats mock).
Proof.
  assert (boundedWaves Sample.engine) as Hwaves
    by (intros q; repeat split; unfold Qle; simpl; lia).
  split; [exact Hwaves|].
  exact (generateMockData_is_finite Sample.engine Hwaves Sample.noon 0
           "Sword of Embers").
Defined.


(** ** More on the [/api/types] route *)

Module RouteMore.
Import Route.

Lemma substring_length_le (text : string) (n : nat) :
  String.length (String.substring 0 n text) ≤ n.
Proof.
  revert n. induction text as [|c text IH]; intros [|n]; simpl; try lia.
  specialize (IH n). lia.
Qed.

Lemma substring_prefix (text : string) (n : nat) :
  ∃ rest, text = String.append (String.substring 0 n text) rest.
Proof.
  revert n. induction text as [|c text IH]; intros [|n]; simpl.
  - by exists "".
  - by exists "".
  - by eexists.
  - destruct (IH n) as [rest Hrest]. exists rest.
    change (String c text = String c (String.append (String.substring 0 n text) rest)).
    by f_equal.
Qed.

Section Answers.
Context (JSON_parse : string → option json).

Lemma NextResponse_json_500 body :
  NextResponse_json body 500 = inr {| status := 500; body := body |}.
Proof. done. Qed.

Lemma NextResponse_json_200 body :
  NextResponse_json body 200 = inr {| status := 200; body := body |}.
Proof. done. Qed.

Lemma NextResponse_json_status body st response :
  NextResponse_json body st = inr response →
  response = {| status := st; body := body |}.
Proof.
  unfold NextResponse_json.
  destruct (negb _); [done|]. destruct (nullBodyStatus st); [done|].
  by intros [= <-].
Qed.

(** X22: neither handler ever rejects: whatever the request and however the
    upstream call ends, a response is returned. *)
Theorem handlers_always_answer (request : Thrown + json)
  (upstream : Upstream) :
  (∃ response, GET JSON_parse upstream = inr response) ∧
  (∃ response, POST JSON_parse request upstream = inr response).
Proof.
  split.
  - unfold GET. destruct (GET_try JSON_parse upstream) as [error|response];
      [|by eexists]. rewrite NextResponse_json_500. by eexists.
  - unfold POST.
    destruct (POST_try JSON_parse request upstream) as [error|response];
      [|by eexists]. rewrite NextResponse_json_500. by eexists.
Qed.

(** A 2xx answer of GET comes from a 2xx upstream answer with a JSON
    body. *)
Lemma GET_success_inv (upstream : Upstream) (response : Response) :
  GET JSON_parse upstream = inr response →
  ok (status response) = true →
  ∃ upstreamStatus text,
    upstream = Responded upstreamStatus (inr text) ∧
    ok upstreamStatus = true ∧
    JSON_parse text = Some (body response).
Proof.
  unfold GET, GET_try.
  destruct upstream as [error|st [error|text]].
  - rewrite NextResponse_json_500. by intros [= <-].
  - destruct (ok st) eqn:Hok; simpl.
    + rewrite NextResponse_json_500. by intros [= <-].
    + destruct (NextResponse_json _ st) as [e|r] eqn:Hr.
      * rewrite NextResponse_json_500. by intros [= <-].
      * apply NextResponse_json_status in Hr as ->. intros [= <-]. simpl.
        by rewrite Hok.
  - destruct (ok st) eqn:Hok; simpl.
    + destruct (JSON_parse text) as [parsed|] eqn:Hparse.
      * rewrite NextResponse_json_200. intros [= <-] _. by exists st, text.
      * rewrite NextResponse_json_500. by intros [= <-].
    + destruct (NextResponse_json _ st) as [e|r] eqn:Hr.
      * rewrite NextResponse_json_500. by intros [= <-].
      * apply NextResponse_json_status in Hr as ->. intros [= <-]. simpl.
        by rewrite Hok.
Qed.

(** X23: the status of the answer of GET tells success from failure: it is
    in the 2xx range exactly when the upstream answered 2xx with a JSON
    body, and then the answer is that body, unchanged, under the status 200.
    *)
Theorem GET_status_tells_success (upstream : Upstream) (response : Response) :
  GET JSON_parse upstream = inr response →
  (ok (status response) = true
   ↔ ∃ upstreamStatus text,
       upstream = Responded upstreamStatus (inr text) ∧
       ok upstreamStatus = true ∧
       JSON_parse text = Some (body response)) ∧
  (ok (status response) = true → status response = 200%Z).
Proof.
  unfold GET, GET_try.
  destruct upstream as [error|st [error|text]].
  - rewrite NextResponse_json_500. intros [= <-]. simpl.
    split; [|done]. split; [done|]. by intros (? & ? & ? & _).
  - destruct (ok st) eqn:Hok; simpl.
    + rewrite NextResponse_json_500. intros [= <-]. simpl.
      split; [|done]. split; [done|]. by intros (? & ? & ? & _).
    + destruct (NextResponse_json _ st) as [e|r] eqn:Hr.
      * rewrite NextResponse_json_500. intros [= <-]. simpl.
        split; [|done]. split; [done|]. by intros (? & ? & ? & _).
      * apply NextResponse_json_status in Hr as ->. intros [= <-]. simpl.
        rewrite Hok. split; [|done]. split; [done|]. by intros (? & ? & ? & _).
  - destruct (ok st) eqn:Hok; simpl.
    + destruct (JSON_parse text) as [parsed|] eqn:Hparse.
      * rewrite NextResponse_json_200. intros [= <-]. simpl.
        split; [|done]. split; [|done]. intros _. by exists st, text.
      * rewrite NextResponse_json_500. intros [= <-]. simpl.
        split; [|done]. split; [done|].
        intros (? & ? & [= <- <-] & _ & ?). congruence.
    + destruct (NextResponse_json _ st) as [e|r] eqn:Hr.
      * rewrite NextResponse_json_500. intros [= <-]. simpl.
        split; [|done]. split; [done|].
        intros (? & ? & [= <- <-] & ? & _). congruence.
      * apply NextResponse_json_status in Hr as ->. intros [= <-]. simpl.
        rewrite Hok. split; [|done]. split; [done|].
        intros (? & ? & [= <- <-] & ? & _). congruence.
Qed.

(** X24: the status of the answer of POST, once the request body has been
    read, tells success from failure in the same way: it is in the 2xx range
    exactly when the upstream answered 2xx with a JSON body, and then the
    answer is that body under the status 200, also for a 201 of the
    upstream. *)
Theorem POST_status_tells_success (request : json) (upstream : Upstream)
  (response : Response) :
  POST JSON_parse (inr request) upstream = inr response →
  (ok (status response) = true
   ↔ ∃ upstreamStatus text,
       upstream = Responded upstreamStatus (inr text) ∧
       ok upstreamStatus = true ∧
       JSON_parse text = Some (body response)) ∧
  (ok (status response) = true → status response = 200%Z).
Proof.
  unfold POST, POST_try.
  destruct upstream as [error|st [error|text]].
  - rewrite NextResponse_json_500. intros [= <-]. simpl.
    split; [|done]. split; [done|]. by intros (? & ? & ? & _).
  - rewrite NextResponse_json_500. intros [= <-]. simpl.
    split; [|done]. split; [done|]. by intros (? & ? & ? & _).
  - destruct (ok st) eqn:Hok; simpl.
    + destruct (JSON_parse text) as [parsed|] eqn:Hparse.
      * rewrite NextResponse_json_200. intros [= <-]. simpl.
        split; [|done]. split; [|done]. intros _. by exists st, text.
      * rewrite NextResponse_json_500. intros [= <-]. simpl.
        split; [|done]. split; [done|].
        intros (? & ? & [= <- <-] & _ & ?). congruence.
    + destruct (NextResponse_json _ st) as [e|r] eqn:Hr.
      * rewrite NextResponse_json_500. intros [= <-]. simpl.
        split; [|done]. split; [done|].
        intros (? & ? & [= <- <-] & ? & _). congruence.
      * apply NextResponse_json_status in Hr as ->. intros [= <-]. simpl.
        rewrite Hok. split; [|done]. split; [done|].
        intros (? & ? & [= <- <-] & ? & _). congruence.
Qed.

(** X25: on a 2xx upstream answer that is not JSON, GET echoes the beginning
    of the body: a prefix of it of at most 100 characters. *)
Theorem GET_echoes_at_most_100 (upstreamStatus : Z) (text : string) :
  ok upstreamStatus = true → JSON_parse text = None →
  ∃ echoed rest,
    GET JSON_parse (Responded upstreamStatus (inr text))
    = inr {| status := 500;
             body := object
                       [("error", JString "Invalid JSON response from server");
                        ("responseText", JString echoed)] |} ∧
    String.length echoed ≤ 100 ∧ text = String.append echoed rest.
Proof.
  intros Hok Hparse. unfold GET, GET_try. rewrite Hok, Hparse. simpl.
  destruct (substring_prefix text 100) as [rest Hrest].
  exists (String.substring 0 100 text), rest.
  split_and!; [done | apply substring_length_le | done].
Qed.

End Answers.

Lemma GET_status_tells_success_witness :
  let upstream := Responded 200 (inr "true") in
  let response := {| status := 200; body := JBool true |} in
  GET sampleParse upstream = inr response ∧
  (ok (status response) = true
   ↔ ∃ upstreamStatus text,
       upstream = Responded upstreamStatus (inr text) ∧
       ok upstreamStatus = true ∧
       sampleParse text = Some (body response)) ∧
  (ok (status response) = true → status response = 200%Z).
Proof.
  intros upstream response.
  assert (GET sampleParse upstream = inr response) as Hget by reflexivity.
  split; [exact Hget|].
  exact (GET_status_tells_success sampleParse upstream response Hget).
Defined.

Lemma POST_status_tells_success_witness :
  let upstream := Responded 201 (inr "true") in
  let response := {| status := 200; body := JBool true |} in
  POST sampleParse (inr JNull) upstream = inr response ∧
  (ok (status response) = true
   ↔ ∃ upstreamStatus text,
       upstream = Responded upstreamStatus (inr text) ∧
       ok upstreamStatus = true ∧
       sampleParse text = Some (body response)) ∧
  (ok (status response) = true → status response = 200%Z).
Proof.
  intros upstream response.
  assert (POST sampleParse (inr JNull) upstream = inr response) as Hpost
    by reflexivity.
  split; [exact Hpost|].
  exact (POST_status_tells_success sampleParse JNull upstream response Hpost).
Defined.

Lemma GET_echoes_at_most_100_witness :
  ok 200 = true ∧ sampleParse "<html>" = None ∧
  ∃ echoed rest,
    GET sampleParse (Responded 200 (inr "<html>"))
    = inr {| status := 500;
             body := object
                       [("error", JString "Invalid JSON response from server");
                        ("responseText", JString echoed)] |} ∧
    String.length echoed ≤ 100 ∧ "<html>" = String.append echoed rest.
Proof.
  assert (ok 200 = true) as Hok by reflexivity.
  assert (sampleParse "<html>" = None) as Hparse by reflexivity.
  split; [exact Hok|]. split; [exact Hparse|].
  exact (GET_echoes_at_most_100 sampleParse 200 "<html>" Hok Hparse).
Defined.


End RouteMore.

(** ** The dashboard page *)

Module DashboardFacts.
Import Dashboard.

Section Page.
Context (JSON_parse : string → option Route.json).

(** [fetchServerStats] handles its own failures, so its promise always
    resolves. *)
Lemma fetchServerStats_resolves (upstream : StatsUpstream) (s : View) :
  ∃ s', fetchServerStats upstream s = (s', inr ()) ∧
        counts s' = counts s ∧ isLoading s' = isLoading s ∧
        serverStats s'
        = match upstream with StatsData data => data | _ => serverStats s end ∧
        (match upstream with
         | StatsData _ => error s' = error s
         | _ => is_Some (error s')
         end).
Proof. destruct upstream; eexists; (split; [reflexivity|]); by simpl. Qed.

Lemma fetchEntityCounts_resolves (apis : Endpoints) (s : View) :
  fetchEntityCounts JSON_parse apis s
  = (setCounts
       {| items := lengthIfArray (fetchWithErrorHandling JSON_parse (itemsApi apis));
          users := 0;
          weapons := lengthIfArray (fetchWithErrorHandling JSON_parse (weaponsApi apis));
          categories := lengthIfArray (fetchWithErrorHandling JSON_parse (categoriesApi apis));
          collections := lengthIfArray (fetchWithErrorHandling JSON_parse (collectionsApi apis));
          rarities := lengthIfArray (fetchWithErrorHandling JSON_parse (raritiesApi apis));
          types := lengthIfArray (fetchWithErrorHandling JSON_parse (typesApi apis)) |}
       s, inr ()).
Proof. done. Qed.

(** X26: the page always finishes loading, and the mock statistics of
    [fetchData] are never applied: the statistics are those received, or
    stay as they were when the request fails; the error banner is set
    exactly when the statistics request fails. *)
Theorem fetchData_never_applies_mock_stats (stats : StatsUpstream)
  (apis : Endpoints) (s : View) :
  ∃ s',
    fetchData JSON_parse stats apis s = (s', inr ()) ∧
    isLoading s' = false ∧
    serverStats s'
    = match stats with StatsData data => data | _ => serverStats s end ∧
    (error s' = None ↔ ∃ data, stats = StatsData data).
Proof.
  unfold fetchData.
  destruct (fetchServerStats_resolves stats (setError None (setIsLoading true s)))
    as (s1 & Hrun & Hc & Hl & Hs & He).
  unfold catching, andThen. rewrite Hrun.
  rewrite fetchEntityCounts_resolves. eexists. split; [done|]. simpl.
  split_and!; [done | by rewrite Hs |].
  destruct stats; simpl in He;
    try (split; [intros Hnone; rewrite Hnone in He; by destruct He
                | by intros [? ?]]).
  rewrite He. simpl. split; [by eexists | done].
Qed.

(** The number shown for a list endpoint is the length of the JSON array
    it returned under a 2xx status, and 0 in every other case. *)
Lemma endpoint_count (upstream : ListUpstream) :
  lengthIfArray (fetchWithErrorHandling JSON_parse upstream)
  = match upstream with
    | ListResponse status (Some text) =>
        if Route.ok status
        then match JSON_parse text with
             | Some (Route.JArray elements) => length elements
             | _ => 0
             end
        else 0
    | _ => 0
    end.
Proof.
  destruct upstream as [|status [text|]]; simpl; try done.
  - destruct (Route.ok status); [|done]. simpl.
    by destruct (JSON_parse text) as [[]|].
  - by destruct (Route.ok status).
Qed.


(** X28: the types count, when [/api/types] is served by the GET handler of
    the route and the client parses back the body the handler sent: it is
    the length of the array the upstream returned under a 2xx status, and 0
    whenever the handler answers with an error object. *)
Theorem types_count_through_the_route (stringify : Route.json → string)
  (upstream : Route.Upstream) (response : Route.Response) :
  Route.GET JSON_parse upstream = inr response →
  JSON_parse (stringify (Route.body response)) = Some (Route.body response) →
  lengthIfArray
    (fetchWithErrorHandling JSON_parse
       (ListResponse (Route.status response)
          (Some (stringify (Route.body response)))))
  = match upstream with
    | Route.Responded status (inr text) =>
        if Route.ok status
        then match JSON_parse text with
             | Some (Route.JArray elements) => length elements
             | _ => 0
             end
        else 0
    | _ => 0
    end.
Proof.
  intros Hget Hround.
  rewrite endpoint_count, Hround.
  destruct (Route.ok (Route.status response)) eqn:Hok.
  - destruct (RouteMore.GET_success_inv JSON_parse upstream response Hget Hok)
      as (st & text & -> & Hst & Hparse).
    by rewrite Hst, Hparse.
  - destruct upstream as [error|st [error|text]]; try done.
    destruct (Route.ok st) eqn:Hst; [|done].
    destruct (JSON_parse text) as [parsed|] eqn:Hparse; [|done].
    exfalso. unfold Route.GET, Route.GET_try in Hget.
    rewrite Hst, Hparse in Hget. simpl in Hget.
    injection Hget as <-. done.
Qed.

End Page.

Lemma types_count_through_the_route_witness :
  let stringify := λ _ : Route.json, "[null,null]" in
  let upstream := Route.Responded 200 (inr "[null,null]") in
  let response :=
    {| Route.status := 200;
       Route.body := Route.JArray [Route.JNull; Route.JNull] |} in
  Route.GET sampleArrayParse upstream = inr response ∧
  sampleArrayParse (stringify (Route.body response))
  = Some (Route.body response) ∧
  lengthIfArray
    (fetchWithErrorHandling sampleArrayParse
       (ListResponse (Route.status response)
          (Some (stringify (Route.body response)))))
  = 2.
Proof.
  intros stringify upstream response.
  assert (Route.GET sampleArrayParse upstream = inr response) as Hget
    by reflexivity.
  assert (sampleArrayParse (stringify (Route.body response))
          = Some (Route.body response)) as Hround by reflexivity.
  split; [exact Hget|]. split; [exact Hround|].
  exact (types_count_through_the_route sampleArrayParse stringify upstream
           response Hget Hround).
Defined.


End DashboardFacts.

(** ** The CSV export *)

Lemma countChar_append (c : Ascii.ascii) (a b : string) :
  countChar c (a +:+ b) = countChar c a + countChar c b.
Proof.
  induction a as [|c' a IH]; [done|].
  change (String c' a +:+ b) with (String c' (a +:+ b)).
  simpl. rewrite IH. lia.
Qed.

Lemma countChar_join (c : Ascii.ascii) (sep : string) (parts : list string) :
  countChar c (Array_join sep parts)
  = sum_list (countChar c <$> parts) + (length parts - 1) * countChar c sep.
Proof.
  induction parts as [|part parts IH]; [done|].
  destruct parts as [|part' parts]; [simpl; lia|].
  change (Array_join sep (part :: part' :: parts))
    with (part +:+ sep +:+ Array_join sep (part' :: parts)).
  rewrite !countChar_append, IH. simpl. lia.
Qed.

Section ExportFacts.
Context (E : Engine) (numberToString : jsnum → string).

(** X29: the export does not quote: a comma inside the date, the time or the
    price of a row is one more column separator. *)
Theorem csvRow_commas (item : PriceData) :
  countChar comma (csvRow E numberToString item)
  = 2 + countChar comma (toLocaleDateString E (Date_parse E (Date item)))
      + countChar comma (toLocaleTimeString E (Date_parse E (Date item)))
      + countChar comma (numberToString (purchase_price item)).
Proof. unfold csvRow. rewrite countChar_join. simpl. lia. Qed.

(** X30: the export writes the filtered series, whatever the zoom and the
    down-sampling show: when no row holds a line feed, the text is the
    header and one line per filtered point, and it is the same text under
    any zoom and any display series. *)
Theorem csvContent_lines (s : ViewState) (text : string) :
  Forall (λ item, countChar lineFeed (csvRow E numberToString item) = 0)
    (filteredData s) →
  csvContent E numberToString s = Some text →
  filteredData s ≠ [] ∧
  countChar lineFeed text = length (filteredData s) ∧
  ∀ zoom display,
    csvContent E numberToString (setZoomDomain zoom (setDisplayData display s))
    = Some text.
Proof.
  intros Hrows Htext. split_and!.
  - intros Hnil. unfold csvContent in Htext. by rewrite Hnil in Htext.
  - unfold csvContent in Htext.
    destruct (filteredData s) as [|item rest] eqn:Hdata; [done|].
    apply (inj Some) in Htext as <-. rewrite <- Hdata in *.
    rewrite countChar_join. cbn [fmap list_fmap sum_list sum_list_with].
    replace (sum_list (countChar lineFeed
                       <$> (csvRow E numberToString <$> filteredData s)))
      with 0.
    + rewrite length_cons, length_fmap.
      change (countChar lineFeed newline) with 1.
      change (countChar lineFeed (Array_join "," ["Date"; "Time"; "Price (G)"]))
        with 0. unfold id. lia.
    + clear Hdata. induction Hrows as [|p ps Hp _ IH]; [done|].
      rewrite !fmap_cons. simpl. rewrite Hp. by rewrite <- IH.
  - intros zoom display. by rewrite <- Htext.
Qed.

End ExportFacts.

Lemma csvContent_lines_witness :
  let s := Sample.loaded 1000 Sample.threeDays None in
  let text := "Date,Time,Price (G)
3/13/2024,00:00,10
3/14/2024,00:00,11
3/15/2024,00:00,12" in
  Forall (λ item,
            countChar lineFeed (csvRow Sample.engine sampleNumberToString item)
            = 0) (filteredData s) ∧
  csvContent Sample.engine sampleNumberToString s = Some text ∧
  filteredData s ≠ [] ∧
  countChar lineFeed text = length (filteredData s) ∧
  ∀ zoom display,
    csvContent Sample.engine sampleNumberToString
      (setZoomDomain zoom (setDisplayData display s))
    = Some text.
Proof.
  intros s text.
  assert (Forall (λ item,
                    countChar lineFeed
                      (csvRow Sample.engine sampleNumberToString item) = 0)
            (filteredData s)) as Hrows
    by (repeat constructor; vm_compute; reflexivity).
  assert (csvContent Sample.engine sampleNumberToString s = Some text)
    as Htext by (vm_compute; reflexivity).
  split; [exact Hrows|]. split; [exact Htext|].
  exact (csvContent_lines Sample.engine sampleNumberToString s text Hrows
           Htext).
Defined.
